(** * Manara backend: the OTP subsystem

    A shallow embedding of [authentication/utils/otp.py] (the OTP manager),
    of the two OTP serializers of [authentication/serializers.py] and of the
    two OTP views of [authentication/views.py], together with the
    properties of the specification that concern them.

    Conventions.
    - A point in time is an integer number of microseconds (the resolution
      of a Python [datetime]); every call of [timezone.now()] is a separate
      clock reading, supplied by the environment of the call.
    - The table of [OTPCode] rows is kept in primary-key order; the ORM
      calls used by the code ([filter/update], [create], [filter/first],
      [save], [delete]) are functions on that table.
    - What the outside world decides (clock readings, random digits,
      whether a storage call or a delivery call raises) is an explicit
      environment record, so every operation is a total function. *)

From Stdlib Require Import ZArith List Bool Lia Ascii String.
From stdpp Require Import gmap strings.
From Stdlib Require Import Sorted.
Import ListNotations.

Local Open Scope Z_scope.

(** ** Time *)

Definition timestamp := Z.

Definition seconds (n : Z) : Z := n * 1000000.
Definition timedelta_minutes (m : Z) : Z := seconds (m * 60).

(** ** models.py *)

Record User := mkUser {
  id : Z;
  email : string;
  phone_number : string;
  is_verified : bool
}.

Record OTPCode := mkOTPCode {
  pk : Z;
  user : Z;                 (* foreign key: the [id] of the owning user *)
  code : string;
  is_used : bool;
  created_at : timestamp;
  expires_at : timestamp
}.

(** The [OTPCode] table with its auto-increment counter. *)
Record Table := mkTable {
  rows : list OTPCode;
  next_pk : Z
}.

Definition set_expires_at (t : timestamp) (r : OTPCode) : OTPCode :=
  mkOTPCode (pk r) (user r) (code r) (is_used r) (created_at r) t.

Definition set_is_used (b : bool) (r : OTPCode) : OTPCode :=
  mkOTPCode (pk r) (user r) (code r) b (created_at r) (expires_at r).

(** Python truthiness of a string: [if s:] holds for a non-empty one. *)
Definition truthy (s : string) : bool :=
  match s with EmptyString => false | String _ _ => true end.

(** ** The ORM calls of utils/otp.py *)

(** [filter(user=u, is_used=False, expires_at__gt=now)] *)
Definition live_for (u : Z) (now : timestamp) (r : OTPCode) : bool :=
  (user r =? u) && negb (is_used r) && (now <? expires_at r).

(** [filter(user=u, code=c, is_used=False, expires_at__gt=now)] *)
Definition matches (u : Z) (c : string) (now : timestamp) (r : OTPCode) : bool :=
  (user r =? u) && String.eqb (code r) c && negb (is_used r)
  && (now <? expires_at r).

(** [OTPCode.objects.filter(user=u, is_used=False, expires_at__gt=t_filter)
       .update(expires_at=t_update)] *)
Definition orm_update_expires (u : Z) (t_filter t_update : timestamp)
    (tb : Table) : Table :=
  mkTable
    (map (fun r => if live_for u t_filter r then set_expires_at t_update r else r)
         (rows tb))
    (next_pk tb).

(** [OTPCode.objects.create(user=u, code=c, expires_at=e)]: [is_used] takes
    its default, [created_at] is [auto_now_add]. *)
Definition orm_create (u : Z) (c : string) (t_created e : timestamp)
    (tb : Table) : OTPCode * Table :=
  let r := mkOTPCode (next_pk tb) u c false t_created e in
  (r, mkTable (rows tb ++ [r]) (next_pk tb + 1)).

(** [queryset.first()] on an unordered queryset orders by primary key; the
    table is kept in that order. *)
Definition orm_first (p : OTPCode -> bool) (tb : Table) : option OTPCode :=
  head (List.filter p (rows tb)).

(** [instance.save()] of a fetched row: an UPDATE of every column by
    primary key, and an INSERT when no row has that key. *)
Definition orm_save (r : OTPCode) (tb : Table) : Table :=
  if existsb (fun x => pk x =? pk r) (rows tb)
  then mkTable (map (fun x => if pk x =? pk r then r else x) (rows tb))
               (next_pk tb)
  else mkTable (rows tb ++ [r]) (next_pk tb).

(** [instance.delete()] *)
Definition orm_delete (r : OTPCode) (tb : Table) : Table :=
  mkTable (List.filter (fun x => negb (pk x =? pk r)) (rows tb)) (next_pk tb).

(** [filter(expires_at__lt=now).delete()], with the number of deleted rows *)
Definition orm_delete_expired (now : timestamp) (tb : Table) : Z * Table :=
  (Z.of_nat (length (List.filter (fun x => expires_at x <? now) (rows tb))),
   mkTable (List.filter (fun x => negb (expires_at x <? now)) (rows tb))
           (next_pk tb)).

(** ** utils/otp.py: OTPManager *)

Inductive digit := D0 | D1 | D2 | D3 | D4 | D5 | D6 | D7 | D8 | D9.

(** [str(random.randint(0, 9))] *)
Definition str_digit (d : digit) : string :=
  match d with
  | D0 => "0" | D1 => "1" | D2 => "2" | D3 => "3" | D4 => "4"
  | D5 => "5" | D6 => "6" | D7 => "7" | D8 => "8" | D9 => "9"
  end%string.

(** [''.join([str(random.randint(0, 9)) for _ in range(6)])]; [randint i]
    is the i-th draw. *)
Definition generate_otp (randint : nat -> digit) : string :=
  fold_right String.append EmptyString
             (map (fun i => str_digit (randint i)) (seq 0 6)).

(** What the delivery services do during one [send_otp]. *)
Record Gateway := mkGateway {
  client_raises : bool;     (* [Client(sid, token)] raises *)
  sms_raises : bool;        (* [client.messages.create] raises *)
  mail_raises : bool        (* [send_mail(..., fail_silently=False)] raises *)
}.

(** A call made to a delivery channel, with its recipient and text. *)
Inductive Attempt :=
| SmsAttempt (to body : string)
| MailAttempt (to subject body : string).

Definition is_sms (a : Attempt) : bool :=
  match a with SmsAttempt _ _ => true | MailAttempt _ _ _ => false end.

Definition is_mail (a : Attempt) : bool :=
  match a with SmsAttempt _ _ => false | MailAttempt _ _ _ => true end.

Definition otp_text (otp_code : string) : string :=
  ("Your verification code is: " +:+ otp_code +:+ ". Valid for 10 minutes.")%string.

(** [OTPManager.send_otp]: the result and the channel calls made, in order. *)
Definition send_otp (gw : Gateway) (u : User) (otp_code : string)
    : bool * list Attempt :=
  if client_raises gw then (false, [])
  else
    let sms := SmsAttempt (phone_number u) (otp_text otp_code) in
    if negb (sms_raises gw) then (true, [sms])
    else if truthy (email u) then
      let mail := MailAttempt (email u) "Your OTP Code" (otp_text otp_code) in
      if mail_raises gw then (false, [sms; mail]) else (true, [sms; mail])
    else (false, [sms]).

(** The environment of one [create_otp]. *)
Record IssueEnv := mkIssueEnv {
  now_filter : timestamp;   (* [timezone.now()] in the filter *)
  now_update : timestamp;   (* [timezone.now()] in the update *)
  now_expiry : timestamp;   (* [timezone.now()] in [expires_at] *)
  now_created : timestamp;  (* [auto_now_add] of the new row *)
  randint : nat -> digit;
  update_raises : bool;     (* the invalidating UPDATE raises *)
  create_raises : bool;     (* the INSERT raises *)
  delete_raises : bool;     (* the DELETE of the rollback raises *)
  gateway : Gateway
}.

(** [OTPManager.create_otp]: the returned row ([None] on failure), the table
    afterwards and the channel calls made. *)
Definition create_otp (env : IssueEnv) (u : User) (tb : Table)
    : option OTPCode * Table * list Attempt :=
  if update_raises env then (None, tb, [])
  else
    let tb1 := orm_update_expires (id u) (now_filter env) (now_update env) tb in
    let otp_code := generate_otp (randint env) in
    let e := now_expiry env + timedelta_minutes 10 in
    if create_raises env then (None, tb1, [])
    else
      let '(otp, tb2) := orm_create (id u) otp_code (now_created env) e tb1 in
      let '(sent, calls) := send_otp (gateway env) u otp_code in
      if sent then (Some otp, tb2, calls)
      else if delete_raises env then (None, tb2, calls)
      else (None, orm_delete otp tb2, calls).

(** The environment of one [verify_otp]. *)
Record CheckEnv := mkCheckEnv {
  now_lookup : timestamp;
  lookup_raises : bool;
  save_raises : bool
}.

(** [OTPManager.verify_otp] *)
Definition verify_otp (env : CheckEnv) (u : User) (c : string) (tb : Table)
    : bool * Table :=
  if lookup_raises env then (false, tb)
  else
    match orm_first (matches (id u) c (now_lookup env)) tb with
    | None => (false, tb)
    | Some otp =>
        if save_raises env then (false, tb)
        else (true, orm_save (set_is_used true otp) tb)
    end.

(** [OTPManager.cleanup_old_otps] *)
Definition cleanup_old_otps (now : timestamp) (raises : bool) (tb : Table)
    : Z * Table :=
  if raises then (0, tb) else orm_delete_expired now tb.

(** The number of live codes of a user at a given time. *)
Definition live_count (u : Z) (now : timestamp) (tb : Table) : nat :=
  length (List.filter (live_for u now) (rows tb)).

(** ** The cache (django.core.cache), as far as the OTP views use it *)

(** The values the OTP views store: [True] under a cooldown key, an integer
    under an attempt key. *)
Inductive CacheValue := CTrue | CInt (n : Z).

Record CacheEntry := mkEntry {
  value : CacheValue;
  expiry : timestamp        (* the entry is gone from this time on *)
}.

(** Python truthiness and integer value ([True] is the integer 1). *)
Definition value_truthy (v : CacheValue) : bool :=
  match v with CTrue => true | CInt n => negb (n =? 0) end.

Definition value_int (v : CacheValue) : Z :=
  match v with CTrue => 1 | CInt n => n end.

Definition cache_get (now : timestamp) (key : string)
    (c : gmap string CacheEntry) : option CacheValue :=
  match c !! key with
  | Some e => if now <? expiry e then Some (value e) else None
  | None => None
  end.

Definition cache_set (now : timestamp) (key : string) (v : CacheValue)
    (timeout : Z) (c : gmap string CacheEntry) : gmap string CacheEntry :=
  <[key := mkEntry v (now + seconds timeout)]> c.

Definition cache_delete (key : string) (c : gmap string CacheEntry)
    : gmap string CacheEntry :=
  delete key c.

(** ** serializers.py *)

(** A request field is absent ([None]) or holds a string. *)
Definition truthy_opt (o : option string) : bool :=
  match o with Some s => truthy s | None => false end.

(** [a or b] *)
Definition py_or (a b : option string) : option string :=
  if truthy_opt a then a else b.

(** [str(x)] of a string or [None] *)
Definition py_str (o : option string) : string :=
  match o with Some s => s | None => "None" end.

Inductive ValidationError :=
| NonFieldError (message : string)
| FieldErrors (errors : list (string * string)).

(** [attrs] of [RequestOTPSerializer]: both fields are [required=False].
    The format checks of [EmailField] belong to the framework; a present
    field holds a value that passed them. *)
Record RequestAttrs := mkRequestAttrs {
  req_email : option string;
  req_phone_number : option string
}.

(** [RequestOTPSerializer.validate] *)
Definition RequestOTPSerializer_validate (attrs : RequestAttrs)
    : ValidationError + RequestAttrs :=
  let email := req_email attrs in
  let phone_number := req_phone_number attrs in
  if negb (truthy_opt email) && negb (truthy_opt phone_number)
  then inl (NonFieldError "Either email or phone number must be provided")
  else inr attrs.

(** The data posted to a verify endpoint. *)
Record VerifyData := mkVerifyData {
  data_email : option string;
  data_phone_number : option string;
  data_code : option string
}.

(** [validated_data] of [VerifyOTPSerializer]: its declared fields only. *)
Record VerifyAttrs := mkVerifyAttrs {
  ver_email : string;
  ver_code : string
}.

Definition is_ascii_digit (a : ascii) : bool :=
  let n := nat_of_ascii a in (48 <=? n)%nat && (n <=? 57)%nat.

Fixpoint all_digits (s : string) : bool :=
  match s with
  | EmptyString => true
  | String a s' => is_ascii_digit a && all_digits s'
  end.

(** [value.isdigit()]: at least one character, and digits only. *)
Definition isdigit (s : string) : bool := truthy s && all_digits s.

(** [email = serializers.EmailField(required=True)], on values whose format
    the field accepts: the presence and the blank checks only.  The format
    check of the field is Django's [EmailValidator], which is not part of
    the repository; [EmailField_errors] below has it as a parameter. *)
Definition check_email (o : option string) : list (string * string) :=
  match o with
  | None => [("email", "This field is required.")]
  | Some s =>
      if truthy s then [] else [("email", "This field may not be blank.")]
  end%string.

(** [email = serializers.EmailField(required=True)] with its format check:
    [email_ok] stands for Django's [EmailValidator].  The field passes a
    value that is present, not blank and accepted by the validator. *)
Definition EmailField_errors (email_ok : string -> bool) (o : option string)
    : list (string * string) :=
  match o with
  | None => [("email", "This field is required.")]
  | Some s =>
      if truthy s
      then if email_ok s then [] else [("email", "Enter a valid email address.")]
      else [("email", "This field may not be blank.")]
  end%string.

(** [code = serializers.CharField(min_length=6, max_length=6)] followed by
    [validate_code]; the length validators run first, [validate_code] only
    when they pass.  The value is the one the field hands on, that is after
    its trimming of surrounding whitespace, and is taken to be ASCII: the
    length is the number of bytes and only [0]..[9] count as digits. *)
Definition check_code (o : option string) : list (string * string) :=
  match o with
  | None => [("code", "This field is required.")]
  | Some s =>
      if negb (truthy s) then [("code", "This field may not be blank.")]
      else if (String.length s <? 6)%nat
      then [("code", "Ensure this field has at least 6 characters.")]
      else if (6 <? String.length s)%nat
      then [("code", "Ensure this field has no more than 6 characters.")]
      else if negb (isdigit s)
      then [("code", "OTP code must contain only digits.")]
      else []
  end%string.

(** [VerifyOTPSerializer(data=...).is_valid(raise_exception=True)]: the
    serializer declares [email] and [code]; any other key of the data,
    [phone_number] included, is ignored. *)
Definition VerifyOTPSerializer_validate (data : VerifyData)
    : ValidationError + VerifyAttrs :=
  match check_email (data_email data) ++ check_code (data_code data) with
  | [] =>
      match data_email data, data_code data with
      | Some e, Some c => inr (mkVerifyAttrs e c)
      | _, _ => inl (FieldErrors [])
      end
  | errs => inl (FieldErrors errs)
  end.

(** ** views.py: RequestOTPView and VerifyOTPView *)

Record World := mkWorld {
  users : list User;
  otps : Table;
  cache : gmap string CacheEntry
}.

Inductive Body :=
| WaitBeforeRequesting (wait_time : string)
| UserNotFoundPleaseRegister
| FailedToSendOTP
| OTPSent (expires_in contact delivery_method : string)
| UnexpectedError
| TooManyFailedAttempts
| UserNotFound
| OTPVerified                     (* with the session tokens *)
| InvalidOrExpiredOTP (attempts_left : Z).

Record Response := mkResponse {
  status : Z;
  body : Body
}.

(** [User.objects.filter(email=e).first()] *)
Definition user_by_email (e : string) (us : list User) : option User :=
  head (List.filter (fun u => String.eqb (email u) e) us).

(** [User.objects.filter(phone_number=p).first()] *)
Definition user_by_phone (p : string) (us : list User) : option User :=
  head (List.filter (fun u => String.eqb (phone_number u) p) us).

(** The user lookup shared by both views:
    [if email: ... elif phone_number: ...] *)
Definition find_user (email phone_number : option string) (us : list User)
    : option User :=
  if truthy_opt email then user_by_email (default EmptyString email) us
  else if truthy_opt phone_number
       then user_by_phone (default EmptyString phone_number) us
       else None.

(** [user.save()] *)
Definition save_user (u : User) (us : list User) : list User :=
  map (fun x => if id x =? id u then u else x) us.

Definition request_key (identifier : string) : string :=
  ("otp_request_" +:+ identifier)%string.

Definition attempt_key (identifier : string) : string :=
  ("otp_attempts_" +:+ identifier)%string.

(** The environment of one [RequestOTPView.post]. *)
Record RequestEnv := mkRequestEnv {
  now_cache_get : timestamp;
  issue : IssueEnv;
  now_cache_set : timestamp
}.

(** [RequestOTPView.post]: the response, the world afterwards and the
    channel calls made.  A [ValidationError] of [is_valid] is raised inside
    the [try] and reaches the generic handler. *)
Definition RequestOTPView_post (env : RequestEnv) (attrs : RequestAttrs)
    (w : World) : Response * World * list Attempt :=
  match RequestOTPSerializer_validate attrs with
  | inl _ => (mkResponse 500 UnexpectedError, w, [])
  | inr validated_data =>
      let email := req_email validated_data in
      let phone_number := req_phone_number validated_data in
      let identifier := py_str (py_or email phone_number) in
      let cache_key := request_key identifier in
      if match cache_get (now_cache_get env) cache_key (cache w) with
         | Some v => value_truthy v
         | None => false
         end
      then (mkResponse 429 (WaitBeforeRequesting "60 seconds"), w, [])
      else
        match find_user email phone_number (users w) with
        | None => (mkResponse 404 UserNotFoundPleaseRegister, w, [])
        | Some u =>
            let '(otp, tb, calls) := create_otp (issue env) u (otps w) in
            match otp with
            | None =>
                (mkResponse 500 FailedToSendOTP,
                 mkWorld (users w) tb (cache w), calls)
            | Some _ =>
                (mkResponse 200
                   (OTPSent "10 minutes"
                      (py_str (py_or email phone_number))
                      (if truthy_opt email then "email" else "sms")),
                 mkWorld (users w) tb
                   (cache_set (now_cache_set env) cache_key CTrue 60 (cache w)),
                 calls)
            end
        end
  end.

Definition max_attempts : Z := 3.

Definition set_is_verified (b : bool) (u : User) : User :=
  mkUser (id u) (email u) (phone_number u) b.

(** The environment of one [VerifyOTPView.post]. *)
Record VerifyEnv := mkVerifyEnv {
  now_attempts_get : timestamp;
  check : CheckEnv;
  now_attempts_set : timestamp
}.

(** [VerifyOTPView.post].  [validated_data] has no [phone_number] key, so
    [validated_data.get('phone_number')] is [None]. *)
Definition VerifyOTPView_post (env : VerifyEnv) (data : VerifyData)
    (w : World) : Response * World :=
  match VerifyOTPSerializer_validate data with
  | inl _ => (mkResponse 500 UnexpectedError, w)
  | inr validated_data =>
      let email := Some (ver_email validated_data) in
      let phone_number : option string := None in
      let code := ver_code validated_data in
      let identifier := py_str (py_or email phone_number) in
      let key := attempt_key identifier in
      let attempts :=
        match cache_get (now_attempts_get env) key (cache w) with
        | Some v => value_int v
        | None => 0
        end in
      if max_attempts <=? attempts
      then (mkResponse 429 TooManyFailedAttempts, w)
      else
        match find_user email phone_number (users w) with
        | None => (mkResponse 404 UserNotFound, w)
        | Some u =>
            let '(ok, tb) := verify_otp (check env) u code (otps w) in
            if ok
            then (mkResponse 200 OTPVerified,
                  mkWorld (save_user (set_is_verified true u) (users w)) tb
                          (cache_delete key (cache w)))
            else (mkResponse 400
                    (InvalidOrExpiredOTP (max_attempts - (attempts + 1))),
                  mkWorld (users w) tb
                    (cache_set (now_attempts_set env) key
                               (CInt (attempts + 1)) 300 (cache w)))
        end
  end.

(** ** Concurrent callers of [verify_otp]

    [verify_otp] talks to the store twice: the SELECT of
    [filter(...).first()] and the UPDATE of [otp.save()].  Requests run
    independently, so the store calls of several callers interleave; a
    schedule lists which caller makes its next store call, and the clock
    reading of that call. *)

Inductive Caller :=
| Waiting                       (* has not looked up yet *)
| Fetched (otp : OTPCode)       (* holds the row it read, not yet saved *)
| Returned (result : bool).

Definition step_caller (u : User) (c : string) (now : timestamp)
    (st : Caller) (tb : Table) : Caller * Table :=
  match st with
  | Waiting =>
      match orm_first (matches (id u) c now) tb with
      | None => (Returned false, tb)
      | Some otp => (Fetched otp, tb)
      end
  | Fetched otp => (Returned true, orm_save (set_is_used true otp) tb)
  | Returned b => (Returned b, tb)
  end.

Definition step_at (u : User) (c : string) (cfg : list Caller * Table)
    (ev : nat * timestamp) : list Caller * Table :=
  match fst cfg !! fst ev with
  | Some st =>
      let '(st', tb') := step_caller u c (snd ev) st (snd cfg) in
      (<[fst ev := st']> (fst cfg), tb')
  | None => cfg
  end.

Definition run (u : User) (c : string) (sched : list (nat * timestamp))
    (cfg : list Caller * Table) : list Caller * Table :=
  fold_left (step_at u c) sched cfg.

Definition succeeded (st : Caller) : bool :=
  match st with Returned true => true | _ => false end.

Definition successes (cs : list Caller) : nat :=
  length (List.filter succeeded cs).

(** The schedule without interleaving: caller [i], then caller [i+1], ...,
    each making both of its store calls before the next one starts. *)
Fixpoint serial (i : nat) (ts : list timestamp) : list (nat * timestamp) :=
  match ts with
  | [] => []
  | t :: ts' => (i, t) :: (i, t) :: serial (S i) ts'
  end.

(** Accessors for the triple returned by [create_otp]. *)
Definition issued {A B C} (x : A * B * C) : A := fst (fst x).
Definition table_after {A B C} (x : A * B * C) : B := snd (fst x).
Definition calls_of {A B C} (x : A * B * C) : C := snd x.

(** The row an issuance inserts. *)
Definition new_row (env : IssueEnv) (u : User) (tb : Table) : OTPCode :=
  mkOTPCode (next_pk tb) (id u) (generate_otp (randint env)) false
            (now_created env) (now_expiry env + timedelta_minutes 10).

(** What the invalidating UPDATE does to one row. *)
Definition collapse (env : IssueEnv) (u : User) (r : OTPCode) : OTPCode :=
  if live_for (id u) (now_filter env) r
  then set_expires_at (now_update env) r else r.

(** Primary keys come from the auto-increment counter. *)
Definition pk_fresh (tb : Table) : Prop :=
  Forall (fun r => pk r < next_pk tb) (rows tb).

(** ** Sample data: the scenario of the specification *)

Definition alice : User :=
  mkUser 1 "alice@example.com" "+15551234567" false.

Definition gw_up : Gateway := mkGateway false false false.
Definition gw_down : Gateway := mkGateway false true true.
Definition gw_no_client : Gateway := mkGateway true false false.

(** The draws that give the code 042917. *)
Definition draws_042917 (i : nat) : digit :=
  match i with
  | 0 => D0 | 1 => D4 | 2 => D2 | 3 => D9 | 4 => D1 | _ => D7
  end%nat.

(** An issuance at time [t] during which no storage call raises. *)
Definition issue_at (t : timestamp) (gw : Gateway) : IssueEnv :=
  mkIssueEnv t t t t draws_042917 false false false gw.

Definition empty_table : Table := mkTable [] 1.

(** The table after alice was issued 042917 at time 0. *)
Definition table_042917 : Table :=
  table_after (create_otp (issue_at 0 gw_up) alice empty_table).

Definition check_at (t : timestamp) : CheckEnv := mkCheckEnv t false false.

(** ** The delivery contract, as the specification words it

    SMS is attempted first, to the phone number of the user; the email
    fallback is attempted exactly when the SMS attempt failed and the user
    has an email address; failure is returned only when the SMS attempt
    failed and the email address is absent or the email attempt failed. *)
Definition delivery_as_specified (gw : Gateway) (u : User) (otp_code : string)
    : Prop :=
  let res := send_otp gw u otp_code in
  head (snd res) = Some (SmsAttempt (phone_number u) (otp_text otp_code))
  /\ (existsb is_mail (snd res) = true <->
        sms_raises gw = true /\ truthy (email u) = true)
  /\ (fst res = false ->
        sms_raises gw = true
        /\ (truthy (email u) = false
            \/ (mail_raises gw = true /\ existsb is_mail (snd res) = true))).

(** Accessors for the triple returned by [RequestOTPView_post]. *)
Definition response_of (x : Response * World * list Attempt) : Response :=
  fst (fst x).
Definition world_after (x : Response * World * list Attempt) : World :=
  snd (fst x).

(** [identifier = str(email or phone_number)] *)
Definition identifier_of (attrs : RequestAttrs) : string :=
  py_str (py_or (req_email attrs) (req_phone_number attrs)).

(** ** The input contract of Request OTP, as the specification words it

    Exactly one of [email] and [phone_number] is present; otherwise the
    request is a validation failure.  (A present field is non-empty: the
    field classes reject a blank value.) *)
Definition exactly_one_identifier (attrs : RequestAttrs) : Prop :=
  (exists a, RequestOTPSerializer_validate attrs = inr a) <->
  xorb (truthy_opt (req_email attrs)) (truthy_opt (req_phone_number attrs)) = true.

Definition by_email : RequestAttrs :=
  mkRequestAttrs (Some "alice@example.com") None.

Definition by_both : RequestAttrs :=
  mkRequestAttrs (Some "alice@example.com") (Some "+15551234567").

(** A request at time [t] during which no storage call raises. *)
Definition request_at (t : timestamp) (gw : Gateway) : RequestEnv :=
  mkRequestEnv t (issue_at t gw) t.

Definition world0 : World := mkWorld [alice] empty_table ∅.

(** [if cache.get(cache_key):] *)
Definition in_cooldown (now : timestamp) (identifier : string)
    (c : gmap string CacheEntry) : bool :=
  match cache_get now (request_key identifier) c with
  | Some v => value_truthy v
  | None => false
  end.

(** A verification at time [t] during which no storage call raises. *)
Definition verify_at (t : timestamp) : VerifyEnv :=
  mkVerifyEnv t (check_at t) t.

Definition wrong_code : VerifyData :=
  mkVerifyData (Some "alice@example.com") None (Some "000000").

Definition right_code : VerifyData :=
  mkVerifyData (Some "alice@example.com") None (Some "042917").

Definition right_code_by_phone : VerifyData :=
  mkVerifyData None (Some "+15551234567") (Some "042917").

(** alice requests a code at time 0 and gets 042917. *)
Definition world_issued : World :=
  world_after (RequestOTPView_post (request_at 0 gw_up) by_email world0).

(** Then three wrong codes, one, two and three seconds later. *)
Definition world_locked : World :=
  snd (VerifyOTPView_post (verify_at (seconds 3)) wrong_code
    (snd (VerifyOTPView_post (verify_at (seconds 2)) wrong_code
      (snd (VerifyOTPView_post (verify_at (seconds 1)) wrong_code
         world_issued))))).

(** Then, the cooldown over, a new code is requested and sent. *)
Definition world_reissued : World :=
  world_after (RequestOTPView_post (request_at (seconds 61) gw_up) by_email
                 world_locked).

(** ** Concurrent verification, as the specification words it

    Once every caller has returned, exactly one of them has observed
    success. *)
Definition all_returned (cs : list Caller) : bool :=
  forallb (fun st => match st with Returned _ => true | _ => false end) cs.

Definition single_winner (u : User) (c : string) (tb : Table) (n : nat)
    (sched : list (nat * timestamp)) : Prop :=
  let final := run u c sched (replicate n Waiting, tb) in
  all_returned (fst final) = true -> successes (fst final) = 1%nat.

(** Two callers whose lookups both come before the first write. *)
Definition interleaved : list (nat * timestamp) :=
  [(0%nat, seconds 5); (1%nat, seconds 5); (0%nat, seconds 5); (1%nat, seconds 5)].

(** ** The tables the OTP manager produces

    [reachable tb t]: the table [tb] results from calls of the manager on
    an empty table, made one after the other with a clock that does not run
    backwards, the last of them not after [t]. *)
Inductive reachable : Table -> timestamp -> Prop :=
| reach_empty (n : Z) (t : timestamp) :
    reachable (mkTable [] n) t
| reach_later (tb : Table) (t t' : timestamp) :
    reachable tb t -> t <= t' -> reachable tb t'
| reach_create (tb : Table) (t : timestamp) (env : IssueEnv) (u : User) :
    reachable tb t ->
    t <= now_filter env -> now_filter env <= now_update env ->
    reachable (table_after (create_otp env u tb)) (now_update env)
| reach_verify (tb : Table) (t : timestamp) (env : CheckEnv) (u : User)
    (c : string) :
    reachable tb t -> t <= now_lookup env ->
    reachable (snd (verify_otp env u c tb)) (now_lookup env)
| reach_cleanup (tb : Table) (t now : timestamp) (raises : bool) :
    reachable tb t -> t <= now ->
    reachable (snd (cleanup_old_otps now raises tb)) now.

(** ** What a channel call carries *)

Definition attempt_to (a : Attempt) : string :=
  match a with SmsAttempt to _ => to | MailAttempt to _ _ => to end.

Definition attempt_body (a : Attempt) : string :=
  match a with SmsAttempt _ b => b | MailAttempt _ _ b => b end.

(** The draws that give a code with the given six digits. *)
Definition draws_of (d0 d1 d2 d3 d4 d5 : digit) (i : nat) : digit :=
  match i with
  | 0 => d0 | 1 => d1 | 2 => d2 | 3 => d3 | 4 => d4 | _ => d5
  end%nat.

(** A second user, and the table in which alice and bob both hold a live
    code. *)
Definition bob : User :=
  mkUser 2 "bob@example.com" "+15557654321" false.

Definition table_two_users : Table :=
  table_after (create_otp (issue_at 0 gw_up) bob table_042917).

(** [attempts = cache.get(attempt_key, 0)] *)
Definition attempts_read (now : timestamp) (identifier : string)
    (c : gmap string CacheEntry) : Z :=
  match cache_get now (attempt_key identifier) c with
  | Some v => value_int v
  | None => 0
  end.

(** ** The profile-update flow: UserProfileUpdateSerializer,
    UserProfileView.update and VerifyProfileUpdateOTPView.post *)

Module Profile.

(** models.py: UserProfile.  The three names are nullable columns. *)
Record UserProfile := mkUserProfile {
  user : Z;                       (* one-to-one: the [id] of the user *)
  first_name : option string;
  last_name : option string;
  phone_number : option string;
  created_at : timestamp;
  updated_at : timestamp
}.

(** The writable fields of [UserProfileUpdateSerializer], in the order the
    code lists them. *)
Inductive Field := FirstName | LastName | PhoneNumber.

Definition fields : list Field := [FirstName; LastName; PhoneNumber].

Definition field_name (f : Field) : string :=
  match f with
  | FirstName => "first_name"
  | LastName => "last_name"
  | PhoneNumber => "phone_number"
  end.

(** [getattr(instance, field)] *)
Definition getattr (p : UserProfile) (f : Field) : option string :=
  match f with
  | FirstName => first_name p
  | LastName => last_name p
  | PhoneNumber => phone_number p
  end.

(** [setattr(instance, field, value)] *)
Definition setattr (f : Field) (v : string) (p : UserProfile) : UserProfile :=
  match f with
  | FirstName =>
      mkUserProfile (user p) (Some v) (last_name p) (phone_number p)
                    (created_at p) (updated_at p)
  | LastName =>
      mkUserProfile (user p) (first_name p) (Some v) (phone_number p)
                    (created_at p) (updated_at p)
  | PhoneNumber =>
      mkUserProfile (user p) (first_name p) (last_name p) (Some v)
                    (created_at p) (updated_at p)
  end.

(** [instance.save()]: [updated_at] is [auto_now]. *)
Definition touch (now : timestamp) (p : UserProfile) : UserProfile :=
  mkUserProfile (user p) (first_name p) (last_name p) (phone_number p)
                (created_at p) now.

(** The dictionary over the three writable fields: the data of a request,
    and [validated_data].  All three fields are [required=False], so each
    key is present or not. *)
Record ProfileData := mkProfileData {
  data_first_name : option string;
  data_last_name : option string;
  data_phone_number : option string
}.

(** [field in validated_data] is [is_Some (data_get d field)];
    [validated_data[field]] is its value. *)
Definition data_get (d : ProfileData) (f : Field) : option string :=
  match f with
  | FirstName => data_first_name d
  | LastName => data_last_name d
  | PhoneNumber => data_phone_number d
  end.

(** Truthiness of the dictionary: [if not profile_data]. *)
Definition data_truthy (d : ProfileData) : bool :=
  existsb (fun f => match data_get d f with Some _ => true | None => false end)
          fields.

(** [a == b] on values that are a string or [None]. *)
Definition py_eq (a b : option string) : bool :=
  match a, b with
  | Some x, Some y => String.eqb x y
  | None, None => true
  | _, _ => false
  end.

(** [UserProfileUpdateSerializer.validate_phone_number] *)
Definition validate_phone_number (value : string) : ValidationError + string :=
  if truthy value && negb (isdigit value)
  then inl (NonFieldError "Phone number must contain only digits")
  else inr value.

(** A [CharField(required=False)]: an absent key is skipped, a blank value
    is an error. *)
Definition check_char (f : Field) (o : option string) : list (string * string) :=
  match o with
  | None => []
  | Some s => if truthy s then []
              else [(field_name f, "This field may not be blank."%string)]
  end.

Definition check_phone (o : option string) : list (string * string) :=
  match check_char PhoneNumber o, o with
  | [], Some s =>
      match validate_phone_number s with
      | inl _ => [(field_name PhoneNumber,
                   "Phone number must contain only digits"%string)]
      | inr _ => []
      end
  | errs, _ => errs
  end.

(** The errors of [serializer.is_valid()]; none means [validated_data] is
    the data.  The values are the ones the fields hand on, that is after
    their trimming of surrounding whitespace, and are taken to be ASCII. *)
Definition errors (d : ProfileData) : list (string * string) :=
  check_char FirstName (data_first_name d)
  ++ check_char LastName (data_last_name d)
  ++ check_phone (data_phone_number d).

(** The loop of [UserProfileView.update]:
    [for field in [...]: if field in validated_data:
       if getattr(instance, field) != validated_data[field]:
         has_changes = True; break] *)
Fixpoint changes_loop (instance : UserProfile) (d : ProfileData)
    (fs : list Field) : bool :=
  match fs with
  | [] => false
  | f :: rest =>
      match data_get d f with
      | Some v =>
          if negb (py_eq (getattr instance f) (Some v)) then true
          else changes_loop instance d rest
      | None => changes_loop instance d rest
      end
  end.

Definition view_has_changes (instance : UserProfile) (d : ProfileData) : bool :=
  changes_loop instance d fields.

(** [validated_data.get(field, getattr(instance, field))] *)
Definition get_or_attr (instance : UserProfile) (d : ProfileData) (f : Field)
    : option string :=
  match data_get d f with
  | Some v => Some v
  | None => getattr instance f
  end.

(** The test of [UserProfileUpdateSerializer.update]:
    [any(getattr(instance, field) != validated_data.get(field, ...)
         for field in [...])] *)
Definition serializer_has_changes (instance : UserProfile) (d : ProfileData)
    : bool :=
  existsb (fun f => negb (py_eq (getattr instance f) (get_or_attr instance d f)))
          fields.

(** [for attr, value in validated_data.items(): setattr(instance, attr, value)] *)
Definition apply_data (d : ProfileData) (p : UserProfile) : UserProfile :=
  fold_left (fun q f => match data_get d f with
                        | Some v => setattr f v q
                        | None => q
                        end) fields p.

(** [UserProfileUpdateSerializer.update]: the saved instance, and whether
    the attribute [is_verified] was set to [False] on the Python object
    (the model has no such column, so it is not stored). *)
Definition serializer_update (instance : UserProfile) (d : ProfileData)
    (now : timestamp) : UserProfile * bool :=
  (touch now (apply_data d instance), serializer_has_changes instance d).

(** A pending change in the cache, under [profile_update_<user id>]. *)
Record Pending := mkPending {
  pending_data : ProfileData;
  pending_expiry : timestamp
}.

(** The profiles by user id, the table of codes, and the cache entries
    under the keys [profile_update_<user id>], by user id. *)
Record State := mkState {
  profiles : gmap Z UserProfile;
  codes : Table;
  pending : gmap Z Pending
}.

Inductive Body :=
| ValidationFailed (errs : list (string * string))
| VerificationRequired
| ProfileRepresentation (email : string) (first last phone : option string)
| SessionExpired
| InvalidOTP
| ProfileUpdated (email : string) (first last phone : option string)
| ServerError.

Record Response := mkResponse {
  status : Z;
  body : Body
}.

(** [UserProfile.objects.get_or_create(user=..., defaults={...: ''})] *)
Definition get_or_create (u : User) (now : timestamp)
    (ps : gmap Z UserProfile) : UserProfile * gmap Z UserProfile :=
  match ps !! id u with
  | Some p => (p, ps)
  | None =>
      let p := mkUserProfile (id u) (Some EmptyString) (Some EmptyString)
                             (Some EmptyString) now now in
      (p, <[id u := p]> ps)
  end.

Definition representation (u : User) (p : UserProfile) : Body :=
  ProfileRepresentation (email u) (first_name p) (last_name p) (phone_number p).

(** [cache.get(cache_key)] *)
Definition pending_get (now : timestamp) (u : User) (m : gmap Z Pending)
    : option ProfileData :=
  match m !! id u with
  | Some e => if now <? pending_expiry e then Some (pending_data e) else None
  | None => None
  end.

Record UpdateEnv := mkUpdateEnv {
  now_get_object : timestamp;
  now_cache_set : timestamp;
  issue : IssueEnv;
  now_save : timestamp
}.

(** [UserProfileView.update] for the authenticated user [u].  The
    validation error of [is_valid] is answered by the framework with 400.
    [create_otp] returns [None] on failure and does not raise, and its
    result is not looked at. *)
Definition UserProfileView_update (env : UpdateEnv) (u : User)
    (data : ProfileData) (st : State) : Response * State * list Attempt :=
  let '(instance, ps) := get_or_create u (now_get_object env) (profiles st) in
  match errors data with
  | e :: errs =>
      (mkResponse 400 (ValidationFailed (e :: errs)),
       mkState ps (codes st) (pending st), [])
  | [] =>
      if view_has_changes instance data
      then
        let pend := <[id u := mkPending data (now_cache_set env + seconds 300)]>
                      (pending st) in
        let '(otp, tb, calls) := create_otp (issue env) u (codes st) in
        (mkResponse 200 VerificationRequired, mkState ps tb pend, calls)
      else
        let saved := fst (serializer_update instance data (now_save env)) in
        (mkResponse 200 (representation u saved),
         mkState (<[id u := saved]> ps) (codes st) (pending st), [])
  end.

Record ConfirmEnv := mkConfirmEnv {
  now_cache_get : timestamp;
  check : CheckEnv;
  now_profile_save : timestamp
}.

(** [VerifyProfileUpdateOTPView.post] for the authenticated user [u].
    [request.user.profile] raises when the user has no profile, which the
    framework answers with 500. *)
Definition VerifyProfileUpdateOTPView_post (env : ConfirmEnv) (u : User)
    (data : VerifyData) (st : State) : Response * State :=
  match VerifyOTPSerializer_validate data with
  | inl (FieldErrors errs) => (mkResponse 400 (ValidationFailed errs), st)
  | inl (NonFieldError m) =>
      (mkResponse 400 (ValidationFailed [("non_field_errors"%string, m)]), st)
  | inr validated_data =>
      match pending_get (now_cache_get env) u (pending st) with
      | None => (mkResponse 400 SessionExpired, st)
      | Some profile_data =>
          if negb (data_truthy profile_data)
          then (mkResponse 400 SessionExpired, st)
          else
            let '(ok, tb) :=
              verify_otp (check env) u (ver_code validated_data) (codes st) in
            if negb ok
            then (mkResponse 400 InvalidOTP,
                  mkState (profiles st) tb (pending st))
            else
              match profiles st !! id u with
              | None => (mkResponse 500 ServerError,
                         mkState (profiles st) tb (pending st))
              | Some profile =>
                  let saved := touch (now_profile_save env)
                                     (apply_data profile_data profile) in
                  (mkResponse 200
                     (ProfileUpdated (email u) (first_name saved)
                        (last_name saved) (phone_number saved)),
                   mkState (<[id u := saved]> (profiles st)) tb
                           (delete (id u) (pending st)))
              end
      end
  end.

(** The three stored names of a profile. *)
Definition names (p : UserProfile) : option string * option string * option string :=
  (first_name p, last_name p, phone_number p).

End Profile.

(** ** Trips: TripSerializer and the trip views *)

Module Trips.

(** models.py: Trip.TripStatus *)
Inductive TripStatus := SCHEDULED | ONGOING | COMPLETED | CANCELLED.

Definition status_eqb (a b : TripStatus) : bool :=
  match a, b with
  | SCHEDULED, SCHEDULED | ONGOING, ONGOING
  | COMPLETED, COMPLETED | CANCELLED, CANCELLED => true
  | _, _ => false
  end.

(** models.py: Trip *)
Record Trip := mkTrip {
  pk : Z;
  user : Z;
  route : Z;
  status : TripStatus;
  scheduled_time : timestamp;
  estimated_arrival_time : option timestamp;
  actual_arrival_time : option timestamp;
  created_at : timestamp;
  updated_at : timestamp
}.

(** The dictionary over the fields of [TripSerializer]: the data of a
    request with its values parsed, and [validated_data]; a key is present
    with a value or not present (an explicit null for an arrival time is
    not among the data modelled here). *)
Record TripData := mkTripData {
  data_route : option Z;
  data_status : option TripStatus;
  data_scheduled_time : option timestamp;
  data_estimated_arrival_time : option timestamp;
  data_actual_arrival_time : option timestamp
}.

(** [a and a < b] for a time that may be [None] *)
Definition and_lt (a : option timestamp) (b : timestamp) : bool :=
  match a with Some t => t <? b | None => false end.

(** [a and a > b] *)
Definition and_gt (a : option timestamp) (b : timestamp) : bool :=
  match a with Some t => b <? t | None => false end.

Definition is_set (a : option timestamp) : bool :=
  match a with Some _ => true | None => false end.

(** [TripSerializer.validate]; [now] is its one clock reading. *)
Definition validate (now : timestamp) (data : TripData) : string + TripData :=
  let status := data_status data in
  let scheduled_time := data_scheduled_time data in
  let estimated_time := data_estimated_arrival_time data in
  let actual_time := data_actual_arrival_time data in
  match status with
  | Some SCHEDULED =>
      if and_lt scheduled_time now
      then inl "Scheduled time must be in the future"
      else if is_set actual_time
      then inl "Actual arrival time should not be set for scheduled trips"
      else inr data
  | Some ONGOING =>
      if and_gt scheduled_time now
      then inl "Scheduled time must be in the past for ongoing trips"
      else if and_lt estimated_time now
      then inl "Estimated arrival time must be in the future for ongoing trips"
      else if is_set actual_time
      then inl "Actual arrival time should not be set for ongoing trips"
      else inr data
  | Some COMPLETED =>
      match actual_time with
      | None => inl "Actual arrival time is required for completed trips"
      | Some actual =>
          if (now <? actual)%Z
          then inl "Actual arrival time must be in the past for completed trips"
          else if and_gt scheduled_time actual
          then inl "Scheduled time must be before actual arrival time"
          else inr data
      end
  | Some CANCELLED =>
      if is_set actual_time
      then inl "Actual arrival time should not be set for cancelled trips"
      else inr data
  | None => inr data
  end%string.

(** The table of trips with its counter, and the keys of the routes. *)
Record Store := mkStore {
  trips : list Trip;
  next_pk : Z;
  routes : gset Z
}.

(** The checks of the fields before [validate]: [route] and
    [scheduled_time] are required unless the update is partial, and a
    route must exist; [status] has a default and the two arrival times are
    nullable, so they may be left out. *)
Definition field_errors (partial : bool) (st : Store) (data : TripData)
    : list (string * string) :=
  match data_route data with
  | None => if partial then []
            else [("route"%string, "This field is required."%string)]
  | Some r => if bool_decide (r ∈ routes st) then []
              else [("route"%string, "Invalid pk - object does not exist."%string)]
  end
  ++ match data_scheduled_time data with
     | None => if partial then []
               else [("scheduled_time"%string, "This field is required."%string)]
     | Some _ => []
     end.

Inductive Body :=
| TripCreated (t : Trip)
| TripList (ts : list Trip)
| TripDetail (t : Trip)
| TripCancelled
| NoOngoingTrip
| NotFound
| ValidationFailed
| UnexpectedError.

Record Response := mkResponse {
  code : Z;
  body : Body
}.

(** [serializer.save(user=request.user)] on create: the keys left out take
    the defaults of the model. *)
Definition new_trip (st : Store) (u : User) (now : timestamp) (d : TripData)
    (r : Z) (s : timestamp) : Trip :=
  mkTrip (next_pk st) (id u) r (default SCHEDULED (data_status d)) s
         (data_estimated_arrival_time d) (data_actual_arrival_time d) now now.

(** [TripListCreateView.post]: every exception, the validation error
    included, is answered by the generic handler. *)
Definition TripListCreateView_post (now now_save : timestamp) (u : User)
    (data : TripData) (st : Store) : Response * Store :=
  match field_errors false st data with
  | _ :: _ => (mkResponse 500 UnexpectedError, st)
  | [] =>
      match validate now data with
      | inl _ => (mkResponse 500 UnexpectedError, st)
      | inr d =>
          match data_route d, data_scheduled_time d with
          | Some r, Some s =>
              let t := new_trip st u now_save d r s in
              (mkResponse 201 (TripCreated t),
               mkStore (trips st ++ [t]) (next_pk st + 1) (routes st))
          | _, _ => (mkResponse 500 UnexpectedError, st)
          end
      end
  end.

(** [order_by(key)]: rows with equal keys stay in table order. *)
Fixpoint insert_by (key : Trip -> Z) (t : Trip) (l : list Trip) : list Trip :=
  match l with
  | [] => [t]
  | x :: rest => if key t <=? key x then t :: x :: rest
                 else x :: insert_by key t rest
  end.

Definition order_by (key : Trip -> Z) (l : list Trip) : list Trip :=
  fold_right (insert_by key) [] l.

(** [UpcomingTripsView.get_queryset] *)
Definition upcoming (now : timestamp) (u : User) (st : Store) : list Trip :=
  order_by scheduled_time
    (List.filter (fun t => (user t =? id u) && status_eqb (status t) SCHEDULED
                           && (now <=? scheduled_time t)) (trips st)).

(** [PastTripsView.get_queryset]: ordered by [-scheduled_time] *)
Definition past (u : User) (st : Store) : list Trip :=
  order_by (fun t => - scheduled_time t)
    (List.filter (fun t => (user t =? id u) && status_eqb (status t) COMPLETED)
                 (trips st)).

(** [OngoingTripView.get] *)
Definition OngoingTripView_get (u : User) (st : Store) : Response :=
  match head (List.filter (fun t => (user t =? id u)
                                    && status_eqb (status t) ONGOING) (trips st)) with
  | None => mkResponse 404 NoOngoingTrip
  | Some t => mkResponse 200 (TripDetail t)
  end.

(** [TripDetailView.get_object]: the trip with that key among the trips of
    the user, or [Http404]. *)
Definition get_object (u : User) (k : Z) (st : Store) : option Trip :=
  head (List.filter (fun t => (user t =? id u) && (pk t =? k)) (trips st)).

Definition set_status (s : TripStatus) (now : timestamp) (t : Trip) : Trip :=
  mkTrip (pk t) (user t) (route t) s (scheduled_time t)
         (estimated_arrival_time t) (actual_arrival_time t) (created_at t) now.

(** [instance.save()] of a fetched trip *)
Definition save (t : Trip) (st : Store) : Store :=
  mkStore (map (fun x => if pk x =? pk t then t else x) (trips st))
          (next_pk st) (routes st).

(** [TripDetailView.destroy]: [get_object] is inside the [try], so its
    [Http404] reaches the generic handler. *)
Definition TripDetailView_destroy (now : timestamp) (u : User) (k : Z)
    (st : Store) : Response * Store :=
  match get_object u k st with
  | None => (mkResponse 500 UnexpectedError, st)
  | Some instance =>
      (mkResponse 200 TripCancelled, save (set_status CANCELLED now instance) st)
  end.

(** [ModelSerializer.update]: the keys of the data overwrite the
    instance. *)
Definition apply_data (d : TripData) (now : timestamp) (t : Trip) : Trip :=
  mkTrip (pk t) (user t)
         (default (route t) (data_route d))
         (default (status t) (data_status d))
         (default (scheduled_time t) (data_scheduled_time d))
         (match data_estimated_arrival_time d with
          | Some e => Some e | None => estimated_arrival_time t end)
         (match data_actual_arrival_time d with
          | Some a => Some a | None => actual_arrival_time t end)
         (created_at t) now.

(** [TripDetailView.update] (PUT, and PATCH with [partial]): here
    [get_object] and [is_valid] are outside any [try], so the framework
    answers 404 and 400. *)
Definition TripDetailView_update (partial : bool) (now now_save : timestamp)
    (u : User) (k : Z) (data : TripData) (st : Store) : Response * Store :=
  match get_object u k st with
  | None => (mkResponse 404 NotFound, st)
  | Some instance =>
      match field_errors partial st data with
      | _ :: _ => (mkResponse 400 ValidationFailed, st)
      | [] =>
          match validate now data with
          | inl _ => (mkResponse 400 ValidationFailed, st)
          | inr d =>
              let saved := apply_data d now_save instance in
              (mkResponse 200 (TripDetail saved), save saved st)
          end
      end
  end.

(** The stored trip as data, every key present. *)
Definition data_of (t : Trip) : TripData :=
  mkTripData (Some (route t)) (Some (status t)) (Some (scheduled_time t))
             (estimated_arrival_time t) (actual_arrival_time t).

End Trips.

(** ** Sample data of the profile-update flow *)

Definition alice_profile : Profile.UserProfile :=
  Profile.mkUserProfile 1 (Some "Alice") (Some "A") (Some "0711000111") 0 0.

Definition profile_state : Profile.State :=
  Profile.mkState {[ 1 := alice_profile ]} empty_table ∅.

(** A new last name and a new phone number. *)
Definition new_names : Profile.ProfileData :=
  Profile.mkProfileData None (Some "B") (Some "0722000222").

Definition update_at (t : timestamp) (gw : Gateway) : Profile.UpdateEnv :=
  Profile.mkUpdateEnv t t (issue_at t gw) t.

Definition confirm_at (t : timestamp) : Profile.ConfirmEnv :=
  Profile.mkConfirmEnv t (check_at t) t.

Definition profile_state_pending : Profile.State :=
  snd (fst (Profile.UserProfileView_update (update_at 0 gw_up) alice new_names
              profile_state)).

(** ** Sample data of the trips *)

Definition trip_store : Trips.Store := Trips.mkStore [] 1 {[ 7 ]}.

(** A trip on route 7 scheduled at second 50, with no status given. *)
Definition past_trip_data : Trips.TripData :=
  Trips.mkTripData (Some 7) None (Some (seconds 50)) None None.

(** A trip completed at second 90. *)
Definition completed_data : Trips.TripData :=
  Trips.mkTripData (Some 7) (Some Trips.COMPLETED) (Some (seconds 50)) None
                   (Some (seconds 90)).

Definition trip_store_completed : Trips.Store :=
  snd (Trips.TripListCreateView_post (seconds 100) (seconds 100) alice
         completed_data trip_store).

(** alice's completed trip has the key 1. *)
Definition completed_trip : Trips.Trip :=
  Trips.mkTrip 1 1 7 Trips.COMPLETED (seconds 50) None (Some (seconds 90))
               (seconds 100) (seconds 100).

Definition status_only (s : Trips.TripStatus) : Trips.TripData :=
  Trips.mkTripData None (Some s) None None None.

(** ** Sample data of the email field *)

Fixpoint count_at (s : string) : nat :=
  match s with
  | EmptyString => 0
  | String a s' => (if Ascii.eqb a "@" then 1 else 0) + count_at s'
  end.

(** A stand-in for the format validator in the examples: exactly one [@]. *)
Definition sample_email_ok (s : string) : bool := (count_at s =? 1)%nat.

(** * Properties *)

(** ** Liveness of rows *)

Lemma live_for_true (u : Z) (t : timestamp) (r : OTPCode) :
  live_for u t r = true <-> user r = u /\ is_used r = false /\ t < expires_at r.
Proof.
  unfold live_for. rewrite !andb_true_iff, negb_true_iff, Z.eqb_eq, Z.ltb_lt.
  tauto.
Qed.

Lemma live_for_earlier (u : Z) (t t' : timestamp) (r : OTPCode) :
  t <= t' -> live_for u t' r = true -> live_for u t r = true.
Proof. rewrite !live_for_true. intros Ht (Hu & Hused & Hexp). repeat split; auto; lia. Qed.

Lemma matches_true (u : Z) (c : string) (t : timestamp) (r : OTPCode) :
  matches u c t r = true <-> live_for u t r = true /\ code r = c.
Proof.
  unfold matches, live_for.
  rewrite !andb_true_iff, String.eqb_eq. tauto.
Qed.

Lemma collapse_not_live (env : IssueEnv) (u : User) (t : timestamp) (r : OTPCode) :
  now_filter env <= t -> now_update env <= t ->
  live_for (id u) t (collapse env u r) = false.
Proof.
  intros Hf Hu. unfold collapse.
  destruct (live_for (id u) (now_filter env) r) eqn:Hlive.
  - unfold live_for, set_expires_at; simpl.
    replace (t <? now_update env) with false by (symmetry; apply Z.ltb_ge; lia).
    apply andb_false_r.
  - destruct (live_for (id u) t r) eqn:Hlater; [|reflexivity].
    apply (live_for_earlier _ (now_filter env)) in Hlater; [congruence | exact Hf].
Qed.

Lemma update_rows (env : IssueEnv) (u : User) (tb : Table) :
  rows (orm_update_expires (id u) (now_filter env) (now_update env) tb)
  = map (collapse env u) (rows tb).
Proof. reflexivity. Qed.

Lemma filter_none {A} (p : A -> bool) (l : list A) :
  (forall x, In x l -> p x = false) -> List.filter p l = [].
Proof.
  induction l as [|a l IH]; intros H; simpl; [reflexivity|].
  rewrite (H a) by (left; reflexivity). apply IH. intros x Hx. apply H. right; exact Hx.
Qed.

Lemma update_no_live (env : IssueEnv) (u : User) (tb : Table) (t : timestamp) :
  now_filter env <= t -> now_update env <= t ->
  List.filter (live_for (id u) t)
    (rows (orm_update_expires (id u) (now_filter env) (now_update env) tb)) = [].
Proof.
  intros Hf Hu. rewrite update_rows. apply filter_none.
  intros x Hx. apply in_map_iff in Hx. destruct Hx as (r & <- & _).
  now apply collapse_not_live.
Qed.

(** The table [create_otp] leaves behind, case by case. *)
Lemma create_otp_rows (env : IssueEnv) (u : User) (tb : Table) :
  update_raises env = false ->
  let old := map (collapse env u) (rows tb) in
  let new := new_row env u tb in
  rows (table_after (create_otp env u tb)) =
    if create_raises env then old
    else if fst (send_otp (gateway env) u (generate_otp (randint env)))
         then old ++ [new]
         else if delete_raises env then old ++ [new]
         else List.filter (fun x => negb (pk x =? next_pk tb)) (old ++ [new]).
Proof.
  intros Hup. unfold create_otp, table_after. rewrite Hup.
  destruct (create_raises env); [reflexivity|].
  unfold orm_create.
  destruct (send_otp (gateway env) u (generate_otp (randint env))) as [sent calls].
  simpl. destruct sent; [reflexivity|].
  destruct (delete_raises env); reflexivity.
Qed.

Lemma create_otp_issued (env : IssueEnv) (u : User) (tb : Table) :
  issued (create_otp env u tb) =
    if update_raises env then None
    else if create_raises env then None
    else if fst (send_otp (gateway env) u (generate_otp (randint env)))
         then Some (new_row env u tb)
         else None.
Proof.
  unfold create_otp, issued.
  destruct (update_raises env); [reflexivity|].
  destruct (create_raises env); [reflexivity|].
  unfold orm_create.
  destruct (send_otp (gateway env) u (generate_otp (randint env))) as [sent calls].
  simpl. destruct sent; [reflexivity|].
  destruct (delete_raises env); reflexivity.
Qed.

Lemma create_otp_next_pk (env : IssueEnv) (u : User) (tb : Table) :
  next_pk (table_after (create_otp env u tb)) =
    if update_raises env then next_pk tb
    else if create_raises env then next_pk tb else next_pk tb + 1.
Proof.
  unfold create_otp, table_after.
  destruct (update_raises env); [reflexivity|].
  destruct (create_raises env); [reflexivity|].
  unfold orm_create.
  destruct (send_otp (gateway env) u (generate_otp (randint env))) as [sent calls].
  simpl. destruct sent; [reflexivity|].
  destruct (delete_raises env); reflexivity.
Qed.

(** After an issuance, a row of the table is a collapsed old row or the
    new row. *)
Lemma create_otp_row_origin (env : IssueEnv) (u : User) (tb : Table) (r : OTPCode) :
  update_raises env = false ->
  In r (rows (table_after (create_otp env u tb))) ->
  r = new_row env u tb \/ exists r0, In r0 (rows tb) /\ r = collapse env u r0.
Proof.
  intros Hup Hin. rewrite (create_otp_rows env u tb Hup) in Hin.
  assert (Happ : In r (map (collapse env u) (rows tb) ++ [new_row env u tb]) ->
                 r = new_row env u tb \/ exists r0, In r0 (rows tb) /\ r = collapse env u r0).
  { intros H. apply in_app_or in H. destruct H as [H|[H|[]]]; [|left; congruence].
    apply in_map_iff in H. destruct H as (r0 & <- & H0). right; eauto. }
  destruct (create_raises env).
  - apply in_map_iff in Hin. destruct Hin as (r0 & <- & H0). right; eauto.
  - destruct (fst (send_otp _ _ _)); [auto|].
    destruct (delete_raises env); [auto|].
    apply filter_In in Hin. tauto.
Qed.

(** After an issuance, the only row of the user that can be live is the new
    row. *)
Lemma create_otp_live_is_new (env : IssueEnv) (u : User) (tb : Table)
    (t : timestamp) (r : OTPCode) :
  update_raises env = false ->
  now_filter env <= t -> now_update env <= t ->
  In r (rows (table_after (create_otp env u tb))) ->
  live_for (id u) t r = true ->
  r = new_row env u tb.
Proof.
  intros Hup Hf Hu Hin Hlive.
  destruct (create_otp_row_origin env u tb r Hup Hin) as [?|(r0 & _ & ->)]; [assumption|].
  rewrite collapse_not_live in Hlive by assumption. discriminate.
Qed.

Lemma filter_length_le {A} (p q : A -> bool) (l : list A) :
  (length (List.filter p (List.filter q l)) <= length (List.filter p l))%nat.
Proof.
  induction l as [|a l IH]; simpl; [lia|].
  destruct (q a); simpl; destruct (p a); simpl; lia.
Qed.

Lemma create_otp_live_count (env : IssueEnv) (u : User) (tb : Table) (t : timestamp) :
  update_raises env = false ->
  now_filter env <= t -> now_update env <= t ->
  (live_count (id u) t (table_after (create_otp env u tb)) <= 1)%nat.
Proof.
  intros Hup Hf Hu. unfold live_count.
  rewrite (create_otp_rows env u tb Hup).
  pose proof (update_no_live env u tb t Hf Hu) as Hold. rewrite update_rows in Hold.
  assert (Happ : (length (List.filter (live_for (id u) t)
             (map (collapse env u) (rows tb) ++ [new_row env u tb])) <= 1)%nat).
  { rewrite List.filter_app, Hold. simpl.
    destruct (live_for (id u) t (new_row env u tb)); simpl; lia. }
  destruct (create_raises env); [rewrite Hold; simpl; lia|].
  destruct (fst (send_otp _ _ _)); [exact Happ|].
  destruct (delete_raises env); [exact Happ|].
  etransitivity; [apply filter_length_le | exact Happ].
Qed.

Lemma filter_all {A} (p : A -> bool) (l : list A) :
  (forall x, In x l -> p x = true) -> List.filter p l = l.
Proof.
  induction l as [|a l IH]; intros H; simpl; [reflexivity|].
  rewrite (H a) by (left; reflexivity). f_equal. apply IH.
  intros x Hx. apply H. right; exact Hx.
Qed.

Lemma collapse_pk (env : IssueEnv) (u : User) (r : OTPCode) :
  pk (collapse env u r) = pk r.
Proof. unfold collapse. destruct (live_for _ _ r); reflexivity. Qed.

(** Deleting the row just inserted gives back the collapsed old rows. *)
Lemma rollback_rows (env : IssueEnv) (u : User) (tb : Table) :
  pk_fresh tb ->
  List.filter (fun x => negb (pk x =? next_pk tb))
              (map (collapse env u) (rows tb) ++ [new_row env u tb])
  = map (collapse env u) (rows tb).
Proof.
  intros Hfresh. rewrite List.filter_app. simpl.
  rewrite Z.eqb_refl. simpl. rewrite app_nil_r.
  apply filter_all. intros x Hx. apply in_map_iff in Hx.
  destruct Hx as (r & <- & Hr). rewrite collapse_pk.
  unfold pk_fresh in Hfresh. rewrite List.Forall_forall in Hfresh.
  specialize (Hfresh r Hr). apply negb_true_iff, Z.eqb_neq. lia.
Qed.

Lemma live_count_zero (u : Z) (t : timestamp) (tb : Table) :
  (forall r, In r (rows tb) -> live_for u t r = false) ->
  live_count u t tb = 0%nat.
Proof. intros H. unfold live_count. now rewrite filter_none. Qed.

(** ** Issuance *)

(** C1. After a call of [create_otp] that reaches the issuance step (the
    invalidating update did not raise), the user has at most one live code
    at any time [t] not before the clock readings of the invalidation.
    When the call returns a code, that code is the one row added to the
    collapsed old rows, unused and with [expires_at] ten minutes after the
    clock reading of the issuance; every other row is an old row whose
    [expires_at] was set to the reading of the update if it was live.  A
    second issuance for the same user leaves the code of the first one
    non-live. *)
Theorem create_otp_at_most_one_live
    (env : IssueEnv) (u : User) (tb : Table) (t : timestamp) :
  update_raises env = false ->
  now_filter env <= t -> now_update env <= t ->
  let after := create_otp env u tb in
  (live_count (id u) t (table_after after) <= 1)%nat
  /\ (forall otp, issued after = Some otp ->
        rows (table_after after) =
          map (fun r => if live_for (id u) (now_filter env) r
                        then set_expires_at (now_update env) r else r)
              (rows tb) ++ [otp]
        /\ user otp = id u /\ is_used otp = false
        /\ expires_at otp = now_expiry env + timedelta_minutes 10)
  /\ (forall otp env2 t2, issued after = Some otp ->
        update_raises env2 = false ->
        now_filter env2 <= t2 -> now_update env2 <= t2 ->
        let after2 := create_otp env2 u (table_after after) in
        (live_count (id u) t2 (table_after after2) <= 1)%nat
        /\ forall r, In r (rows (table_after after2)) ->
                     pk r = pk otp -> live_for (id u) t2 r = false).
Proof.
  intros Hup Hf Hu after. split; [|split].
  - now apply create_otp_live_count.
  - intros otp Hotp. subst after.
    rewrite create_otp_issued, Hup in Hotp.
    rewrite (create_otp_rows env u tb Hup).
    destruct (create_raises env); [discriminate|].
    destruct (fst (send_otp _ _ _)); [|discriminate].
    injection Hotp as <-. repeat split.
  - intros otp env2 t2 Hotp Hup2 Hf2 Hu2 after2. split.
    + now apply create_otp_live_count.
    + intros r Hin Hpk.
      destruct (live_for (id u) t2 r) eqn:Hlive; [|reflexivity].
      apply (create_otp_live_is_new env2 u (table_after after) t2 r Hup2 Hf2 Hu2 Hin) in Hlive.
      subst after. rewrite create_otp_issued, Hup in Hotp.
      assert (Hnext := create_otp_next_pk env u tb). rewrite Hup in Hnext.
      destruct (create_raises env); [discriminate|].
      destruct (fst (send_otp _ _ _)); [|discriminate].
      injection Hotp as <-. subst r. unfold new_row in Hpk; simpl in Hpk. lia.
Qed.

Lemma create_otp_at_most_one_live_witness :
  let after := create_otp (issue_at 0 gw_up) alice empty_table in
  (live_count 1 (seconds 5) (table_after after) <= 1)%nat
  /\ issued after = Some (mkOTPCode 1 1 "042917" false 0 600000000).
Proof.
  split.
  - apply (create_otp_at_most_one_live (issue_at 0 gw_up) alice empty_table (seconds 5));
      [reflexivity | vm_compute; discriminate | vm_compute; discriminate].
  - reflexivity.
Defined.

(** C3. When delivery fails (on both channels, or in any other way) and the
    storage calls do not raise, [create_otp] returns [None] and the row it
    created, the one with the key the counter gave out, is deleted: no row
    of the table has that key, the new row is not in the table, the user
    has no live code, and with keys from the counter the table holds the
    collapsed old rows and nothing else. *)
Theorem create_otp_failed_delivery_rolls_back
    (env : IssueEnv) (u : User) (tb : Table) :
  update_raises env = false -> create_raises env = false ->
  delete_raises env = false ->
  fst (send_otp (gateway env) u (generate_otp (randint env))) = false ->
  let after := create_otp env u tb in
  issued after = None
  /\ (forall r, In r (rows (table_after after)) -> pk r <> next_pk tb)
  /\ ~ In (new_row env u tb) (rows (table_after after))
  /\ (forall t, now_filter env <= t -> now_update env <= t ->
        live_count (id u) t (table_after after) = 0%nat)
  /\ (pk_fresh tb ->
        rows (table_after after) =
          map (fun r => if live_for (id u) (now_filter env) r
                        then set_expires_at (now_update env) r else r)
              (rows tb)).
Proof.
  intros Hup Hcr Hdel Hsend after.
  assert (Hrows := create_otp_rows env u tb Hup).
  simpl in Hrows. rewrite Hcr, Hsend, Hdel in Hrows. fold after in Hrows.
  assert (Hkey : forall r, In r (rows (table_after after)) -> pk r <> next_pk tb).
  { intros r Hin. rewrite Hrows in Hin. apply filter_In in Hin.
    destruct Hin as [_ Hne]. now apply negb_true_iff, Z.eqb_neq in Hne. }
  split; [|split; [|split; [|split]]].
  - subst after. now rewrite create_otp_issued, Hup, Hcr, Hsend.
  - exact Hkey.
  - intros Hin. now apply (Hkey _ Hin).
  - intros t Hf Hu. apply live_count_zero. intros r Hin.
    destruct (live_for (id u) t r) eqn:Hlive; [|reflexivity].
    apply (create_otp_live_is_new env u tb t r Hup Hf Hu Hin) in Hlive.
    subst r. now elim (Hkey _ Hin).
  - intros Hfresh. rewrite Hrows. now apply rollback_rows.
Qed.

Lemma create_otp_failed_delivery_rolls_back_witness :
  issued (create_otp (issue_at 0 gw_down) alice empty_table) = None
  /\ rows (table_after (create_otp (issue_at 0 gw_down) alice empty_table)) = [].
Proof.
  split.
  - apply (create_otp_failed_delivery_rolls_back (issue_at 0 gw_down) alice empty_table);
      reflexivity.
  - reflexivity.
Defined.

(** C10. A [create_otp] that got past the invalidation and then failed (the
    insert raised, or delivery failed) returns [None] and leaves the prior
    live codes collapsed: with keys from the counter, each code that was
    live is in the table with [expires_at] set to the clock reading of the
    update, no old row is live afterwards, and unless the rollback delete
    itself raised the user has no live code at all. *)
Theorem create_otp_failure_keeps_invalidation
    (env : IssueEnv) (u : User) (tb : Table) (t : timestamp) :
  update_raises env = false ->
  issued (create_otp env u tb) = None ->
  pk_fresh tb ->
  now_filter env <= t -> now_update env <= t ->
  let after := table_after (create_otp env u tb) in
  (forall r, In r (rows tb) -> live_for (id u) (now_filter env) r = true ->
     In (set_expires_at (now_update env) r) (rows after)
     /\ live_for (id u) t (set_expires_at (now_update env) r) = false)
  /\ (forall r, In r (rows after) -> live_for (id u) t r = true ->
        r = new_row env u tb /\ create_raises env = false
        /\ delete_raises env = true)
  /\ (create_raises env = true \/ delete_raises env = false ->
        live_count (id u) t after = 0%nat).
Proof.
  intros Hup Hnone Hfresh Hf Hu after.
  assert (Hrows := create_otp_rows env u tb Hup). simpl in Hrows. fold after in Hrows.
  rewrite create_otp_issued, Hup in Hnone.
  assert (Hcases :
    (create_raises env = true \/ delete_raises env = false) /\
      rows after = map (collapse env u) (rows tb)
    \/ (create_raises env = false /\ delete_raises env = true) /\
      rows after = map (collapse env u) (rows tb) ++ [new_row env u tb]).
  { destruct (create_raises env); [left; auto|].
    destruct (fst (send_otp _ _ _)); [discriminate|].
    destruct (delete_raises env); [right; auto|].
    left. split; [auto|]. rewrite Hrows. now apply rollback_rows. }
  assert (Hold : forall r, In r (map (collapse env u) (rows tb)) ->
                           live_for (id u) t r = false).
  { intros r Hin. apply in_map_iff in Hin. destruct Hin as (r0 & <- & _).
    now apply collapse_not_live. }
  split; [|split].
  - intros r Hin Hlive. split.
    + assert (Hc : In (collapse env u r) (map (collapse env u) (rows tb)))
        by now apply in_map.
      unfold collapse in Hc at 1. rewrite Hlive in Hc.
      destruct Hcases as [[_ ->]|[_ ->]]; [exact Hc | apply in_or_app; now left].
    + pose proof (collapse_not_live env u t r Hf Hu) as Hc.
      unfold collapse in Hc. now rewrite Hlive in Hc.
  - intros r Hin Hlive.
    destruct Hcases as [[_ Hr]|[[Hc Hd] Hr]]; rewrite Hr in Hin.
    + rewrite (Hold r Hin) in Hlive. discriminate.
    + apply in_app_or in Hin. destruct Hin as [Hin|[<-|[]]]; [|auto].
      rewrite (Hold r Hin) in Hlive. discriminate.
  - intros Hor. apply live_count_zero. intros r Hin.
    destruct Hcases as [[_ Hr]|[[Hc Hd] Hr]].
    + rewrite Hr in Hin. now apply Hold.
    + destruct Hor; congruence.
Qed.

Lemma create_otp_failure_keeps_invalidation_witness :
  let tb1 := table_after (create_otp (issue_at 0 gw_up) alice empty_table) in
  let after := create_otp (issue_at (seconds 30) gw_down) alice tb1 in
  live_count 1 (seconds 30) tb1 = 1%nat
  /\ issued after = None
  /\ live_count 1 (seconds 30) (table_after after) = 0%nat.
Proof.
  split; [reflexivity | split; [reflexivity|]].
  apply (create_otp_failure_keeps_invalidation
           (issue_at (seconds 30) gw_down) alice
           (table_after (create_otp (issue_at 0 gw_up) alice empty_table))
           (seconds 30)).
  - reflexivity.
  - reflexivity.
  - repeat constructor.
  - vm_compute; discriminate.
  - vm_compute; discriminate.
  - right; reflexivity.
Defined.

(** ** Verification *)

Lemma head_filter_Some {A} (p : A -> bool) (l : list A) (x : A) :
  head (List.filter p l) = Some x -> In x l /\ p x = true.
Proof.
  intros H. apply filter_In.
  destruct (List.filter p l) as [|y l'] eqn:E; [discriminate|].
  simpl in H. injection H as ->. left; reflexivity.
Qed.

Lemma head_filter_None {A} (p : A -> bool) (l : list A) :
  head (List.filter p l) = None <-> forall x, In x l -> p x = false.
Proof.
  split.
  - intros H x Hx. destruct (p x) eqn:Hp; [|reflexivity].
    assert (Hin : In x (List.filter p l)) by (apply filter_In; auto).
    destruct (List.filter p l); [destruct Hin | discriminate].
  - intros H. now rewrite filter_none.
Qed.

Lemma filter_le1_unique {A} (p : A -> bool) (l : list A) (a b : A) :
  (length (List.filter p l) <= 1)%nat ->
  In a l -> p a = true -> In b l -> p b = true -> a = b.
Proof.
  intros Hlen Ha Hpa Hb Hpb.
  assert (Ia : In a (List.filter p l)) by (apply filter_In; auto).
  assert (Ib : In b (List.filter p l)) by (apply filter_In; auto).
  destruct (List.filter p l) as [|y [|z l']]; simpl in *; [tauto | | lia].
  destruct Ia as [<-|[]], Ib as [<-|[]]. reflexivity.
Qed.

Lemma orm_save_rows (r : OTPCode) (tb : Table) (r0 : OTPCode) :
  In r0 (rows tb) -> pk r0 = pk r ->
  rows (orm_save r tb) = map (fun x => if pk x =? pk r then r else x) (rows tb).
Proof.
  intros Hin Hpk. unfold orm_save.
  replace (existsb (fun x => pk x =? pk r) (rows tb)) with true; [reflexivity|].
  symmetry. apply existsb_exists. exists r0. split; [exact Hin|].
  now apply Z.eqb_eq.
Qed.

(** Marking the one live code of a user as used leaves that user without a
    live code, now and later. *)
Lemma mark_used_no_live (u : Z) (t0 t : timestamp) (tb : Table) (otp x : OTPCode) :
  (live_count u t0 tb <= 1)%nat ->
  In otp (rows tb) -> live_for u t0 otp = true -> t0 <= t ->
  In x (rows (orm_save (set_is_used true otp) tb)) ->
  live_for u t x = false.
Proof.
  intros Hcount Hin Hlive Ht Hx.
  rewrite (orm_save_rows (set_is_used true otp) tb otp Hin eq_refl) in Hx.
  apply in_map_iff in Hx. destruct Hx as (y & <- & Hy).
  simpl. destruct (pk y =? pk otp) eqn:Hpk.
  - unfold live_for; simpl. now rewrite andb_false_r.
  - destruct (live_for u t y) eqn:Hly; [|reflexivity].
    apply (live_for_earlier u t0 t y Ht) in Hly.
    assert (y = otp) by (apply (filter_le1_unique (live_for u t0) (rows tb)); auto).
    subst y. rewrite Z.eqb_refl in Hpk. discriminate.
Qed.

(** C2. When the store calls do not raise, [verify_otp] returns [True]
    exactly when the table holds a row of that user with that code, unused
    and not yet expired at the lookup.  On success the row found is saved
    with [is_used] set, and the other rows are kept.  On failure the table
    is unchanged and the result is the bare [False], whether the cause is a
    wrong code, an expired code or a used code.  When the user has at most
    one live code, a second verification with the same code, at the same
    time or later, fails and changes nothing. *)
Theorem verify_otp_iff_live_match
    (env : CheckEnv) (u : User) (c : string) (tb : Table) :
  lookup_raises env = false -> save_raises env = false ->
  let now := now_lookup env in
  let res := verify_otp env u c tb in
  (fst res = true <->
     exists r, In r (rows tb) /\ user r = id u /\ code r = c
               /\ is_used r = false /\ now < expires_at r)
  /\ (fst res = true ->
        exists otp, In otp (rows tb) /\ matches (id u) c now otp = true
          /\ rows (snd res) =
               map (fun x => if pk x =? pk otp then set_is_used true otp else x)
                   (rows tb)
          /\ In (set_is_used true otp) (rows (snd res))
          /\ next_pk (snd res) = next_pk tb)
  /\ (fst res = false -> snd res = tb)
  /\ ((forall r, In r (rows tb) -> user r = id u ->
         code r <> c \/ is_used r = true \/ expires_at r <= now) ->
      res = (false, tb))
  /\ ((live_count (id u) now tb <= 1)%nat -> fst res = true ->
      forall env2, now <= now_lookup env2 ->
        verify_otp env2 u c (snd res) = (false, snd res)).
Proof.
  intros Hlk Hsv now res.
  assert (Hres : res = match orm_first (matches (id u) c now) tb with
                       | None => (false, tb)
                       | Some otp => (true, orm_save (set_is_used true otp) tb)
                       end).
  { subst res now. unfold verify_otp. rewrite Hlk.
    destruct (orm_first _ tb); [now rewrite Hsv | reflexivity]. }
  assert (Hspec : forall r, matches (id u) c now r = true <->
            user r = id u /\ code r = c /\ is_used r = false /\ now < expires_at r).
  { intros r. rewrite matches_true, live_for_true. tauto. }
  destruct (orm_first (matches (id u) c now) tb) as [otp|] eqn:Hfirst.
  - apply head_filter_Some in Hfirst. destruct Hfirst as [Hin Hm].
    assert (Hrows := orm_save_rows (set_is_used true otp) tb otp Hin eq_refl).
    simpl in Hrows.
    rewrite Hres; simpl. split; [|split; [|split; [|split]]].
    + split; [intros _|reflexivity]. exists otp. split; [exact Hin|]. now apply Hspec.
    + intros _. exists otp. repeat split; auto.
      * rewrite Hrows. apply in_map_iff. exists otp. now rewrite Z.eqb_refl.
      * unfold orm_save. now destruct (existsb _ _).
    + discriminate.
    + intros Hall. exfalso. apply Hspec in Hm.
      destruct Hm as (Hu & Hc & Hused & Hexp).
      destruct (Hall otp Hin Hu) as [?|[?|?]]; [congruence | congruence | lia].
    + intros Hcount _ env2 Ht. unfold verify_otp.
      destruct (lookup_raises env2); [reflexivity|].
      replace (orm_first (matches (id u) c (now_lookup env2))
                 (orm_save (set_is_used true otp) tb)) with (@None OTPCode);
        [reflexivity|].
      symmetry. apply head_filter_None. intros x Hx.
      apply matches_true in Hm. destruct Hm as [Hlive _].
      pose proof (mark_used_no_live (id u) now (now_lookup env2) tb otp x
                    Hcount Hin Hlive Ht Hx) as Hdead.
      destruct (matches (id u) c (now_lookup env2) x) eqn:Hmx; [|reflexivity].
      apply matches_true in Hmx. destruct Hmx. congruence.
  - rewrite Hres; simpl. pose proof (proj1 (head_filter_None _ _) Hfirst) as Hnone.
    split; [|split; [|split; [|split]]]; try discriminate; try reflexivity.
    split; [discriminate|]. intros (r & Hin & Hr). apply Hspec in Hr.
    rewrite (Hnone r Hin) in Hr. discriminate.
Qed.

Lemma verify_otp_iff_live_match_witness :
  let first := verify_otp (check_at (seconds 5)) alice "042917" table_042917 in
  fst first = true
  /\ verify_otp (check_at (seconds 6)) alice "042917" (snd first)
     = (false, snd first).
Proof.
  destruct (verify_otp_iff_live_match (check_at (seconds 5)) alice "042917"
              table_042917 eq_refl eq_refl) as (Hiff & _ & _ & _ & Hagain).
  split.
  - apply Hiff. exists (mkOTPCode 1 1 "042917" false 0 600000000).
    repeat split; [left; reflexivity].
  - apply Hagain.
    + vm_compute. lia.
    + reflexivity.
    + vm_compute; discriminate.
Defined.

(** ** Delivery *)

(** [send_otp], case by case. *)
Lemma send_otp_cases (gw : Gateway) (u : User) (otp_code : string) :
  client_raises gw = false ->
  let sms := SmsAttempt (phone_number u) (otp_text otp_code) in
  let mail := MailAttempt (email u) "Your OTP Code" (otp_text otp_code) in
  send_otp gw u otp_code =
    if sms_raises gw
    then if truthy (email u)
         then (negb (mail_raises gw), [sms; mail])
         else (false, [sms])
    else (true, [sms]).
Proof.
  intros Hc. unfold send_otp. rewrite Hc.
  destruct (sms_raises gw); simpl; [|reflexivity].
  destruct (truthy (email u)); [|reflexivity].
  destruct (mail_raises gw); reflexivity.
Qed.

(** When the SMS client cannot be built, nothing is attempted. *)
Lemma send_otp_no_client (gw : Gateway) (u : User) (otp_code : string) :
  client_raises gw = true -> send_otp gw u otp_code = (false, []).
Proof. intros Hc. unfold send_otp. now rewrite Hc. Qed.

(** Once the SMS client is built, [send_otp] attempts the
    SMS first, to the phone number of the user; it attempts the email
    fallback, to the email address of the user and after the SMS, exactly
    when the SMS call raised and the address is non-empty; no other call is
    made; and it returns failure exactly when the SMS call raised and the
    address is empty or the email call raised too. *)
Theorem send_otp_sms_then_email_fallback
    (gw : Gateway) (u : User) (otp_code : string) :
  client_raises gw = false ->
  let sms := SmsAttempt (phone_number u) (otp_text otp_code) in
  let mail := MailAttempt (email u) "Your OTP Code" (otp_text otp_code) in
  let res := send_otp gw u otp_code in
  delivery_as_specified gw u otp_code
  /\ (snd res = [sms] \/ snd res = [sms; mail])
  /\ (fst res = false <->
        sms_raises gw = true
        /\ (truthy (email u) = false \/ mail_raises gw = true)).
Proof.
  intros Hc sms mail res. unfold delivery_as_specified. fold res.
  assert (Hres := send_otp_cases gw u otp_code Hc). simpl in Hres.
  fold sms mail res in Hres.
  destruct (sms_raises gw), (truthy (email u)), (mail_raises gw);
    rewrite Hres; simpl; intuition congruence.
Qed.

Lemma send_otp_sms_then_email_fallback_witness :
  delivery_as_specified gw_down alice "042917"
  /\ send_otp gw_down alice "042917" =
       (false,
        [SmsAttempt "+15551234567"
           "Your verification code is: 042917. Valid for 10 minutes.";
         MailAttempt "alice@example.com" "Your OTP Code"
           "Your verification code is: 042917. Valid for 10 minutes."]).
Proof.
  split.
  - apply (send_otp_sms_then_email_fallback gw_down alice "042917"). reflexivity.
  - reflexivity.
Defined.

(** C7, on the code.  [Client(...)] is built inside the outer [try] of
    [send_otp] but outside the inner one, whose handler holds the email
    fallback.  So when building the client raises, whatever the user and
    the code, [send_otp] returns [False] having attempted neither the SMS
    nor the email.  For alice, who has an email address, this is not the
    delivery the claim describes: no SMS is attempted first and no email
    fallback follows, although the same user is served by email when it is
    the SMS call that raises.  Her request for a code is then answered 500
    with no channel called, and no code is left in the table. *)
Theorem send_otp_no_fallback_without_client :
  (forall gw u otp_code,
      client_raises gw = true -> send_otp gw u otp_code = (false, []))
  /\ send_otp gw_no_client alice "042917" = (false, [])
  /\ truthy (email alice) = true
  /\ ~ delivery_as_specified gw_no_client alice "042917"
  /\ send_otp (mkGateway false true false) alice "042917" =
       (true,
        [SmsAttempt "+15551234567"
           "Your verification code is: 042917. Valid for 10 minutes.";
         MailAttempt "alice@example.com" "Your OTP Code"
           "Your verification code is: 042917. Valid for 10 minutes."])
  /\ (let out := RequestOTPView_post (request_at 0 gw_no_client) by_email world0 in
      fst (fst out) = mkResponse 500 FailedToSendOTP
      /\ snd out = []
      /\ rows (otps (snd (fst out))) = []).
Proof.
  split; [exact send_otp_no_client|].
  split; [reflexivity|]. split; [reflexivity|]. split.
  - intros (Hhead & _). simpl in Hhead. discriminate.
  - split; [reflexivity|]. vm_compute. repeat split.
Qed.

(** ** Request OTP *)

(** C9, as amended.  [RequestOTPSerializer.validate] accepts the attributes
    exactly when at least one of [email] and [phone_number] is present; with
    neither it raises its validation error; with both it accepts, and the
    view then takes the email as the identifier and looks the user up by
    email. *)
Theorem RequestOTPSerializer_at_least_one (attrs : RequestAttrs) :
  (RequestOTPSerializer_validate attrs = inr attrs <->
     truthy_opt (req_email attrs) = true
     \/ truthy_opt (req_phone_number attrs) = true)
  /\ (truthy_opt (req_email attrs) = false ->
      truthy_opt (req_phone_number attrs) = false ->
      RequestOTPSerializer_validate attrs =
        inl (NonFieldError "Either email or phone number must be provided"))
  /\ (truthy_opt (req_email attrs) = true ->
      truthy_opt (req_phone_number attrs) = true ->
      RequestOTPSerializer_validate attrs = inr attrs
      /\ Some (identifier_of attrs) = req_email attrs
      /\ forall us, find_user (req_email attrs) (req_phone_number attrs) us
                    = user_by_email (identifier_of attrs) us).
Proof.
  unfold RequestOTPSerializer_validate, identifier_of, find_user, py_or.
  destruct attrs as [[e|] p]; simpl.
  - destruct (truthy e), (truthy_opt p); simpl;
      intuition (try discriminate; try reflexivity).
  - destruct (truthy_opt p); simpl; intuition discriminate.
Qed.

(** C9 as stated fails: a request with both an email and a phone number is
    accepted. *)
Lemma RequestOTPSerializer_accepts_both :
  RequestOTPSerializer_validate by_both = inr by_both
  /\ ~ exactly_one_identifier by_both.
Proof.
  split; [reflexivity|].
  intros [Honly _]. specialize (Honly (ex_intro _ by_both eq_refl)).
  discriminate.
Qed.

Lemma cache_get_set (t t0 : timestamp) (k : string) (v : CacheValue)
    (d : Z) (c : gmap string CacheEntry) :
  cache_get t k (cache_set t0 k v d c)
  = if t <? t0 + seconds d then Some v else None.
Proof. unfold cache_get, cache_set. now rewrite lookup_insert_eq. Qed.

Lemma cache_get_set_other (t t0 : timestamp) (k k' : string) (v : CacheValue)
    (d : Z) (c : gmap string CacheEntry) :
  k <> k' -> cache_get t k' (cache_set t0 k v d c) = cache_get t k' c.
Proof. intros Hk. unfold cache_get, cache_set. now rewrite lookup_insert_ne. Qed.

(** The outcome of [RequestOTPView.post] on a valid request that is not in
    cooldown and whose user exists, from the outcome of [create_otp]. *)
Lemma RequestOTPView_post_issue (env : RequestEnv) (attrs : RequestAttrs)
    (w : World) (u : User) :
  RequestOTPSerializer_validate attrs = inr attrs ->
  in_cooldown (now_cache_get env) (identifier_of attrs) (cache w) = false ->
  find_user (req_email attrs) (req_phone_number attrs) (users w) = Some u ->
  let made := create_otp (issue env) u (otps w) in
  RequestOTPView_post env attrs w =
    match issued made with
    | None => (mkResponse 500 FailedToSendOTP,
               mkWorld (users w) (table_after made) (cache w), calls_of made)
    | Some _ =>
        (mkResponse 200
           (OTPSent "10 minutes" (identifier_of attrs)
              (if truthy_opt (req_email attrs) then "email" else "sms")),
         mkWorld (users w) (table_after made)
           (cache_set (now_cache_set env) (request_key (identifier_of attrs))
                      CTrue 60 (cache w)),
         calls_of made)
    end.
Proof.
  intros Hvalid Hcool Huser made. unfold RequestOTPView_post.
  rewrite Hvalid. fold (identifier_of attrs).
  unfold in_cooldown in Hcool. rewrite Hcool, Huser.
  subst made. unfold issued, table_after, calls_of.
  destruct (create_otp (issue env) u (otps w)) as [[otp tb] calls]. simpl.
  destruct otp; reflexivity.
Qed.

Lemma RequestOTPView_post_blocked (env : RequestEnv) (attrs : RequestAttrs)
    (w : World) :
  RequestOTPSerializer_validate attrs = inr attrs ->
  in_cooldown (now_cache_get env) (identifier_of attrs) (cache w) = true ->
  RequestOTPView_post env attrs w =
    (mkResponse 429 (WaitBeforeRequesting "60 seconds"), w, []).
Proof.
  intros Hvalid Hcool. unfold RequestOTPView_post.
  rewrite Hvalid. fold (identifier_of attrs).
  unfold in_cooldown in Hcool. now rewrite Hcool.
Qed.

Lemma RequestOTPView_post_no_user (env : RequestEnv) (attrs : RequestAttrs)
    (w : World) :
  RequestOTPSerializer_validate attrs = inr attrs ->
  in_cooldown (now_cache_get env) (identifier_of attrs) (cache w) = false ->
  find_user (req_email attrs) (req_phone_number attrs) (users w) = None ->
  RequestOTPView_post env attrs w =
    (mkResponse 404 UserNotFoundPleaseRegister, w, []).
Proof.
  intros Hvalid Hcool Huser. unfold RequestOTPView_post.
  rewrite Hvalid. fold (identifier_of attrs).
  unfold in_cooldown in Hcool. now rewrite Hcool, Huser.
Qed.

(** The cooldown entry written by a successful request blocks until 60
    seconds after it was written, and no longer. *)
Lemma in_cooldown_after_set (t t0 : timestamp) (ident : string)
    (c : gmap string CacheEntry) :
  in_cooldown t ident (cache_set t0 (request_key ident) CTrue 60 c)
  = (t <? t0 + seconds 60).
Proof.
  unfold in_cooldown. rewrite cache_get_set.
  now destruct (t <? t0 + seconds 60).
Qed.

(** C5. For a request that passes validation: (1) while a cooldown entry of
    its identifier is in the cache, the answer is 429 with the wait hint
    "60 seconds", and neither the users, the codes nor the cache change and
    nothing is sent; (2) the cache changes only in a request answered 200,
    where [create_otp] returned a code, and then exactly by the cooldown
    entry, which lasts 60 seconds; (3) a request whose [create_otp] fails
    is answered 500 and leaves the cache as it was; (4) after a request
    answered 200, a request for the same identifier is answered 429 until
    60 seconds have passed since the entry was written, and from then on it
    is not answered 429 and is answered 200 when its [create_otp]
    succeeds. *)
Theorem RequestOTPView_cooldown
    (env : RequestEnv) (attrs : RequestAttrs) (w : World) :
  RequestOTPSerializer_validate attrs = inr attrs ->
  let key := request_key (identifier_of attrs) in
  let lookup := find_user (req_email attrs) (req_phone_number attrs) in
  let out := RequestOTPView_post env attrs w in
  (forall e, cache w !! key = Some e -> value_truthy (value e) = true ->
             now_cache_get env < expiry e ->
     out = (mkResponse 429 (WaitBeforeRequesting "60 seconds"), w, []))
  /\ ((status (response_of out) <> 200 /\ cache (world_after out) = cache w)
      \/ (status (response_of out) = 200
          /\ (exists u otp, lookup (users w) = Some u
                /\ issued (create_otp (issue env) u (otps w)) = Some otp)
          /\ cache (world_after out) =
               <[key := mkEntry CTrue (now_cache_set env + seconds 60)]> (cache w)))
  /\ (forall u,
        in_cooldown (now_cache_get env) (identifier_of attrs) (cache w) = false ->
        lookup (users w) = Some u ->
        issued (create_otp (issue env) u (otps w)) = None ->
        status (response_of out) = 500 /\ cache (world_after out) = cache w)
  /\ (status (response_of out) = 200 ->
      forall env2,
        let out2 := RequestOTPView_post env2 attrs (world_after out) in
        (now_cache_get env2 < now_cache_set env + seconds 60 ->
           out2 = (mkResponse 429 (WaitBeforeRequesting "60 seconds"),
                   world_after out, []))
        /\ (now_cache_set env + seconds 60 <= now_cache_get env2 ->
             status (response_of out2) <> 429
             /\ forall u otp,
                  lookup (users w) = Some u ->
                  issued (create_otp (issue env2) u (otps (world_after out)))
                    = Some otp ->
                  status (response_of out2) = 200)).
Proof.
  intros Hvalid key lookup out.
  assert (Hshape :
    (status (response_of out) <> 200 /\ world_after out = w /\
       (in_cooldown (now_cache_get env) (identifier_of attrs) (cache w) = true
        \/ lookup (users w) = None))
    \/ (exists u, in_cooldown (now_cache_get env) (identifier_of attrs) (cache w) = false
          /\ lookup (users w) = Some u
          /\ out = match issued (create_otp (issue env) u (otps w)) with
                   | None => (mkResponse 500 FailedToSendOTP,
                              mkWorld (users w)
                                (table_after (create_otp (issue env) u (otps w)))
                                (cache w),
                              calls_of (create_otp (issue env) u (otps w)))
                   | Some _ =>
                       (mkResponse 200
                          (OTPSent "10 minutes" (identifier_of attrs)
                             (if truthy_opt (req_email attrs) then "email" else "sms")),
                        mkWorld (users w)
                          (table_after (create_otp (issue env) u (otps w)))
                          (cache_set (now_cache_set env) key CTrue 60 (cache w)),
                        calls_of (create_otp (issue env) u (otps w)))
                   end)).
  { destruct (in_cooldown (now_cache_get env) (identifier_of attrs) (cache w)) eqn:Hcool.
    - left. subst out. rewrite (RequestOTPView_post_blocked env attrs w Hvalid Hcool).
      simpl. repeat split; [discriminate | now left].
    - destruct (lookup (users w)) as [u|] eqn:Huser.
      + right. exists u. repeat split.
        subst out. now rewrite (RequestOTPView_post_issue env attrs w u Hvalid Hcool Huser).
      + left. subst out. rewrite (RequestOTPView_post_no_user env attrs w Hvalid Hcool Huser).
        simpl. repeat split; [discriminate | now right]. }
  split; [|split; [|split]].
  - intros e He Hv Hexp. apply RequestOTPView_post_blocked; [exact Hvalid|].
    unfold in_cooldown, cache_get. fold key. rewrite He.
    replace (now_cache_get env <? expiry e) with true; [exact Hv|].
    symmetry. now apply Z.ltb_lt.
  - destruct Hshape as [(Hst & Hw & _)|(u & Hcool & Huser & Hout)].
    + left. split; [exact Hst | now rewrite Hw].
    + destruct (issued (create_otp (issue env) u (otps w))) as [otp|] eqn:Hmade;
        rewrite Hout; simpl.
      * right. repeat split. exists u, otp. now split.
      * left. split; [discriminate | reflexivity].
  - intros u Hcool Huser Hmade.
    destruct Hshape as [(_ & _ & [Hc|Hn])|(u' & _ & Huser' & Hout)]; try congruence.
    assert (u' = u) by congruence. subst u'.
    rewrite Hout, Hmade. simpl. now split.
  - intros H200 env2 out2.
    destruct Hshape as [(Hst & _)|(u & Hcool & Huser & Hout)]; [contradiction|].
    destruct (issued (create_otp (issue env) u (otps w))) as [otp|] eqn:Hmade;
      [|rewrite Hout in H200; simpl in H200; discriminate].
    assert (Hw : world_after out =
                 mkWorld (users w) (table_after (create_otp (issue env) u (otps w)))
                         (cache_set (now_cache_set env) key CTrue 60 (cache w)))
      by now rewrite Hout.
    assert (Hcool2 : in_cooldown (now_cache_get env2) (identifier_of attrs)
                       (cache (world_after out))
                     = (now_cache_get env2 <? now_cache_set env + seconds 60)).
    { rewrite Hw. simpl. apply in_cooldown_after_set. }
    split.
    + intros Hearly. apply RequestOTPView_post_blocked; [exact Hvalid|].
      rewrite Hcool2. now apply Z.ltb_lt.
    + intros Hlate.
      assert (Hfree : in_cooldown (now_cache_get env2) (identifier_of attrs)
                        (cache (world_after out)) = false).
      { rewrite Hcool2. apply Z.ltb_ge. lia. }
      assert (Husers : users (world_after out) = users w) by now rewrite Hw.
      split.
      * destruct (lookup (users (world_after out))) as [u2|] eqn:Hu2.
        -- subst out2.
           rewrite (RequestOTPView_post_issue env2 attrs _ u2 Hvalid Hfree Hu2).
           destruct (issued (create_otp (issue env2) u2 (otps (world_after out))));
             unfold response_of; simpl; discriminate.
        -- subst out2.
           rewrite (RequestOTPView_post_no_user env2 attrs _ Hvalid Hfree Hu2).
           unfold response_of; simpl. discriminate.
      * intros u2 otp2 Hu2 Hmade2. rewrite <- Husers in Hu2. subst out2.
        rewrite (RequestOTPView_post_issue env2 attrs _ u2 Hvalid Hfree Hu2).
        simpl. now rewrite Hmade2.
Qed.

Lemma RequestOTPView_cooldown_witness :
  let out := RequestOTPView_post (request_at 0 gw_up) by_email world0 in
  status (response_of out) = 200
  /\ RequestOTPView_post (request_at (seconds 30) gw_up) by_email (world_after out)
     = (mkResponse 429 (WaitBeforeRequesting "60 seconds"), world_after out, [])
  /\ status (response_of
               (RequestOTPView_post (request_at (seconds 60) gw_up) by_email
                  (world_after out))) <> 429.
Proof.
  destruct (RequestOTPView_cooldown (request_at 0 gw_up) by_email world0 eq_refl)
    as (_ & _ & _ & Hnext).
  split; [reflexivity|]. split.
  - apply (Hnext eq_refl (request_at (seconds 30) gw_up)). reflexivity.
  - apply (Hnext eq_refl (request_at (seconds 60) gw_up)). vm_compute; discriminate.
Defined.

(** ** Verify OTP *)

Lemma request_key_not_attempt_key (a b : string) :
  request_key a <> attempt_key b.
Proof.
  unfold request_key, attempt_key. intros H.
  apply (f_equal (String.get 4)) in H. vm_compute in H. discriminate.
Qed.

(** [RequestOTPView.post] never writes an attempt counter. *)
Lemma RequestOTPView_post_keeps_attempts (env : RequestEnv)
    (attrs : RequestAttrs) (w : World) (ident : string) :
  cache (world_after (RequestOTPView_post env attrs w)) !! attempt_key ident
  = cache w !! attempt_key ident.
Proof.
  unfold RequestOTPView_post, world_after.
  destruct (RequestOTPSerializer_validate attrs) as [err|a]; [reflexivity|].
  destruct (match cache_get _ _ _ with Some v => value_truthy v | None => false end);
    [reflexivity|].
  destruct (find_user _ _ _) as [u|]; [|reflexivity].
  destruct (create_otp (issue env) u (otps w)) as [[otp tb] calls].
  destruct otp; [|reflexivity]. simpl. unfold cache_set.
  apply lookup_insert_ne, request_key_not_attempt_key.
Qed.

Lemma VerifyOTPSerializer_valid (data : VerifyData) (a : VerifyAttrs) :
  VerifyOTPSerializer_validate data = inr a <->
  data_email data = Some (ver_email a) /\ truthy (ver_email a) = true
  /\ data_code data = Some (ver_code a)
  /\ String.length (ver_code a) = 6%nat /\ isdigit (ver_code a) = true.
Proof.
  unfold VerifyOTPSerializer_validate, check_email, check_code.
  destruct data as [[e|] p [c|]]; destruct a as [e' c']; simpl;
    try (split; [discriminate | intros (H1 & _ & H2 & _); discriminate]).
  - destruct (truthy e) eqn:He; simpl.
    + destruct (truthy c) eqn:Hc; simpl;
        [|split; [discriminate | intros (_ & _ & H & Hl & _); injection H as ->;
                                  destruct c'; simpl in *; discriminate]].
      destruct (String.length c <? 6)%nat eqn:Hmin; simpl;
        [split; [discriminate | intros (_ & _ & H & Hl & _); injection H as ->;
                                 apply Nat.ltb_lt in Hmin; lia]|].
      destruct (6 <? String.length c)%nat eqn:Hmax; simpl;
        [split; [discriminate | intros (_ & _ & H & Hl & _); injection H as ->;
                                 apply Nat.ltb_lt in Hmax; lia]|].
      apply Nat.ltb_ge in Hmin, Hmax.
      destruct (isdigit c) eqn:Hd; simpl.
      * split.
        -- intros H. injection H as <- <-. repeat split; auto. lia.
        -- intros (H1 & _ & H2 & _). now injection H1 as <-; injection H2 as <-.
      * split; [discriminate|]. intros (_ & _ & H & _ & Hd'). injection H as ->. congruence.
    + split; [discriminate|].
      intros (H & Ht & _). injection H as ->. congruence.
  - split; [destruct (truthy e); discriminate|].
    intros (_ & _ & H & _). discriminate.
Qed.

Lemma VerifyOTPView_post_blocked (env : VerifyEnv) (data : VerifyData)
    (w : World) (a : VerifyAttrs) (e : CacheEntry) :
  VerifyOTPSerializer_validate data = inr a ->
  cache w !! attempt_key (ver_email a) = Some e ->
  now_attempts_get env < expiry e ->
  max_attempts <= value_int (value e) ->
  VerifyOTPView_post env data w = (mkResponse 429 TooManyFailedAttempts, w).
Proof.
  intros Hvalid He Hexp Hmax.
  pose proof (proj1 (VerifyOTPSerializer_valid data a) Hvalid) as (_ & Htruthy & _).
  unfold VerifyOTPView_post. rewrite Hvalid.
  unfold py_or, truthy_opt. rewrite Htruthy. simpl. unfold cache_get. rewrite He.
  replace (now_attempts_get env <? expiry e) with true
    by (symmetry; now apply Z.ltb_lt).
  replace (max_attempts <=? value_int (value e)) with true
    by (symmetry; now apply Z.leb_le).
  reflexivity.
Qed.

(** C4, on the code.  Issuing a new code does not reset the attempt
    counter: [RequestOTPView.post] leaves every attempt entry of the cache
    as it was.  In the scenario, alice has three failed attempts on record
    (at 1, 2 and 3 seconds), requests a new code at 61 seconds, is answered
    200 and holds a new live code; her verification of that code at 62
    seconds is still answered 429, and the table of codes is not touched.
    The refusal ends when the counter entry expires, 300 seconds after the
    last failure. *)
Theorem lockout_survives_new_code :
  (forall env attrs w ident,
     cache (world_after (RequestOTPView_post env attrs w)) !! attempt_key ident
     = cache w !! attempt_key ident)
  /\ cache_get (seconds 4) (attempt_key "alice@example.com") (cache world_locked)
     = Some (CInt 3)
  /\ status (response_of (RequestOTPView_post (request_at (seconds 61) gw_up)
                            by_email world_locked)) = 200
  /\ orm_first (matches 1 "042917" (seconds 62)) (otps world_reissued)
     = Some (mkOTPCode 2 1 "042917" false (seconds 61)
                       (seconds 61 + timedelta_minutes 10))
  /\ VerifyOTPView_post (verify_at (seconds 62)) right_code world_reissued
     = (mkResponse 429 TooManyFailedAttempts, world_reissued)
  /\ fst (VerifyOTPView_post (verify_at (seconds 302)) right_code world_reissued)
     = mkResponse 429 TooManyFailedAttempts
  /\ fst (VerifyOTPView_post (verify_at (seconds 303)) right_code world_reissued)
     = mkResponse 200 OTPVerified.
Proof.
  split; [exact RequestOTPView_post_keeps_attempts|].
  repeat split; vm_compute; reflexivity.
Qed.

(** C8, on the code.  [VerifyOTPSerializer] declares [email] as required
    and no [phone_number]: data without an email is a validation error
    whatever else it holds, and the view answers a validation error from
    its generic handler, with status 500 and no change.  In the scenario
    alice holds the live code 042917: verifying it with her phone number
    as the identifier is refused that way, with her email it succeeds. *)
Theorem VerifyOTPSerializer_rejects_phone_number :
  (forall data, data_email data = None ->
     exists errs, VerifyOTPSerializer_validate data = inl (FieldErrors errs)
                  /\ In ("email", "This field is required.")%string errs)
  /\ (forall env data w err,
        VerifyOTPSerializer_validate data = inl err ->
        VerifyOTPView_post env data w = (mkResponse 500 UnexpectedError, w))
  /\ VerifyOTPSerializer_validate right_code_by_phone
     = inl (FieldErrors [("email", "This field is required.")%string])
  /\ VerifyOTPView_post (verify_at (seconds 5)) right_code_by_phone world_issued
     = (mkResponse 500 UnexpectedError, world_issued)
  /\ fst (VerifyOTPView_post (verify_at (seconds 5)) right_code world_issued)
     = mkResponse 200 OTPVerified.
Proof.
  split; [|split; [|repeat split; vm_compute; reflexivity]].
  - intros [e p c] He. simpl in He. subst e.
    unfold VerifyOTPSerializer_validate. simpl.
    eexists. split; [reflexivity | left; reflexivity].
  - intros env data w err Herr. unfold VerifyOTPView_post. now rewrite Herr.
Qed.

(** ** Concurrent verification *)

Lemma insert_middle {A} (l1 l2 : list A) (x y : A) :
  <[length l1 := x]> (l1 ++ y :: l2) = l1 ++ x :: l2.
Proof. induction l1 as [|a l1 IH]; simpl; [reflexivity | now rewrite IH]. Qed.

Lemma step_at_middle (u : User) (c : string) (t : timestamp)
    (done rest : list Caller) (st : Caller) (tb : Table) :
  step_at u c (done ++ st :: rest, tb) (length done, t)
  = (done ++ fst (step_caller u c t st tb) :: rest,
     snd (step_caller u c t st tb)).
Proof.
  unfold step_at. simpl.
  rewrite (list_lookup_middle done rest st (length done) eq_refl).
  destruct (step_caller u c t st tb) as [st' tb']. simpl.
  now rewrite insert_middle.
Qed.

Lemma step_at_head (u : User) (c : string) (t : timestamp)
    (rest : list Caller) (st : Caller) (tb : Table) :
  step_at u c (st :: rest, tb) (0%nat, t)
  = (fst (step_caller u c t st tb) :: rest, snd (step_caller u c t st tb)).
Proof. exact (step_at_middle u c t [] rest st tb). Qed.

(** One caller making both of its store calls in a row is [verify_otp]. *)
Lemma run_one_caller (env : CheckEnv) (u : User) (c : string) (tb : Table) :
  lookup_raises env = false -> save_raises env = false ->
  run u c [(0%nat, now_lookup env); (0%nat, now_lookup env)] ([Waiting], tb)
  = ([Returned (fst (verify_otp env u c tb))], snd (verify_otp env u c tb)).
Proof.
  intros Hlk Hsv. unfold run, verify_otp. rewrite Hlk. simpl.
  unfold step_at. simpl.
  destruct (orm_first (matches (id u) c (now_lookup env)) tb) as [otp|];
    simpl; [now rewrite Hsv | reflexivity].
Qed.

(** Callers that start after the code is gone all observe the failure. *)
Lemma run_serial_after (u : User) (c : string) (tb : Table) (t0 : timestamp)
    (ts : list timestamp) :
  (forall t, t0 <= t -> orm_first (matches (id u) c t) tb = None) ->
  Forall (fun t => t0 <= t) ts ->
  forall done : list Caller,
    run u c (serial (length done) ts) (done ++ replicate (length ts) Waiting, tb)
    = (done ++ replicate (length ts) (Returned false), tb).
Proof.
  intros Hgone Hts. induction Hts as [|t ts Ht Hts IH]; intros done.
  - reflexivity.
  - simpl. unfold run in *. simpl.
    rewrite step_at_middle. simpl. rewrite (Hgone t Ht). simpl.
    rewrite step_at_middle. simpl.
    specialize (IH (done ++ [Returned false])).
    rewrite length_app in IH. simpl in IH.
    replace (length done + 1)%nat with (S (length done)) in IH by lia.
    rewrite <- !app_assoc in IH. simpl in IH. exact IH.
Qed.

(** C6, as amended.  When the callers do not interleave, each making its
    lookup and its write before the next one starts, and the user has at
    most one live code, the first caller observes success, marks the code
    used, and every later caller observes the not-found failure: exactly
    one success.  The lookup and the write are two store calls, though:
    when the lookups of two callers both find the code before either has
    written, both callers return success. *)
Theorem verify_otp_single_success_when_serial
    (u : User) (c : string) (tb : Table) (t0 : timestamp)
    (ts : list timestamp) (otp : OTPCode) :
  (live_count (id u) t0 tb <= 1)%nat ->
  orm_first (matches (id u) c t0) tb = Some otp ->
  Forall (fun t => t0 <= t) ts ->
  let final := run u c (serial 0 (t0 :: ts))
                 (replicate (S (length ts)) Waiting, tb) in
  final = (Returned true :: replicate (length ts) (Returned false),
           orm_save (set_is_used true otp) tb)
  /\ successes (fst final) = 1%nat
  /\ single_winner u c tb (S (length ts)) (serial 0 (t0 :: ts))
  /\ (forall t1 t2 t3 otp1,
        orm_first (matches (id u) c t1) tb = Some otp1 ->
        run u c [(0%nat, t0); (1%nat, t1); (0%nat, t2); (1%nat, t3)]
            ([Waiting; Waiting], tb)
        = ([Returned true; Returned true],
           orm_save (set_is_used true otp1) (orm_save (set_is_used true otp) tb))).
Proof.
  intros Hcount Hfirst Hts final.
  assert (Hfinal : final = (Returned true :: replicate (length ts) (Returned false),
                            orm_save (set_is_used true otp) tb)).
  { subst final. unfold run. simpl.
    rewrite step_at_head. simpl. rewrite Hfirst. simpl.
    rewrite step_at_head. simpl.
    apply (run_serial_after u c (orm_save (set_is_used true otp) tb) t0 ts)
      with (done := [Returned true]); [|exact Hts].
    intros t Ht. apply head_filter_None. intros x Hx.
    pose proof (head_filter_Some _ _ _ Hfirst) as [Hin Hm].
    apply matches_true in Hm. destruct Hm as [Hlive _].
    pose proof (mark_used_no_live (id u) t0 t tb otp x Hcount Hin Hlive Ht Hx) as Hdead.
    destruct (matches (id u) c t x) eqn:Hmx; [|reflexivity].
    apply matches_true in Hmx. destruct Hmx. congruence. }
  assert (Hone : successes (fst final) = 1%nat).
  { rewrite Hfinal. unfold successes. simpl. f_equal.
    rewrite filter_none; [reflexivity|].
    intros x Hx. apply list_elem_of_In, elem_of_replicate in Hx.
    destruct Hx as [-> _]. reflexivity. }
  split; [exact Hfinal | split; [exact Hone | split]].
  - intros _. exact Hone.
  - intros t1 t2 t3 otp1 Hsecond. unfold run. simpl.
    unfold step_at. simpl. rewrite Hfirst. simpl. rewrite Hsecond. reflexivity.
Qed.

Lemma verify_otp_single_success_when_serial_witness :
  run alice "042917" (serial 0 [seconds 5; seconds 5; seconds 6])
      ([Waiting; Waiting; Waiting], table_042917)
  = ([Returned true; Returned false; Returned false],
     orm_save (mkOTPCode 1 1 "042917" true 0 600000000) table_042917).
Proof.
  apply (verify_otp_single_success_when_serial alice "042917" table_042917
           (seconds 5) [seconds 5; seconds 6]
           (mkOTPCode 1 1 "042917" false 0 600000000)).
  - vm_compute. lia.
  - reflexivity.
  - repeat constructor; vm_compute; discriminate.
Defined.

(** C6 as stated fails: two callers whose lookups both precede the first
    write both observe success. *)
Lemma verify_otp_interleaved_two_successes :
  fst (run alice "042917" interleaved ([Waiting; Waiting], table_042917))
  = [Returned true; Returned true]
  /\ ~ single_winner alice "042917" table_042917 2 interleaved.
Proof.
  split; [reflexivity|].
  intros H. specialize (H eq_refl). vm_compute in H. discriminate.
Qed.

(** ** The invariant of the store *)

Lemma filter_map_length_le {A} (p : A -> bool) (f : A -> A) (l : list A) :
  (forall x, In x l -> p (f x) = true -> p x = true) ->
  (length (List.filter p (map f l)) <= length (List.filter p l))%nat.
Proof.
  induction l as [|a l IH]; intros H; simpl; [lia|].
  assert (IH' := IH (fun x Hx => H x (or_intror Hx))).
  destruct (p (f a)) eqn:Hfa.
  - rewrite (H a (or_introl eq_refl) Hfa). simpl. lia.
  - destruct (p a); simpl; lia.
Qed.

Lemma live_count_later (u : Z) (t t' : timestamp) (tb : Table) :
  t <= t' -> (live_count u t' tb <= live_count u t tb)%nat.
Proof.
  intros Ht. unfold live_count.
  induction (rows tb) as [|a l IH]; simpl; [lia|].
  destruct (live_for u t' a) eqn:Hl.
  - rewrite (live_for_earlier u t t' a Ht Hl). simpl. lia.
  - destruct (live_for u t a); simpl; lia.
Qed.

(** An issuance for one user leaves the live codes of the others alone. *)
Lemma collapse_other_user (env : IssueEnv) (u : User) (v : Z) (t : timestamp)
    (r : OTPCode) :
  v <> id u -> live_for v t (collapse env u r) = live_for v t r.
Proof.
  intros Hv. unfold collapse.
  destruct (live_for (id u) (now_filter env) r) eqn:Hl; [|reflexivity].
  apply live_for_true in Hl. destruct Hl as (Hu & _).
  unfold live_for, set_expires_at; simpl.
  replace (user r =? v) with false by (symmetry; apply Z.eqb_neq; congruence).
  reflexivity.
Qed.

Lemma create_otp_other_user (env : IssueEnv) (u : User) (tb : Table) (v : Z)
    (t : timestamp) :
  v <> id u ->
  (live_count v t (table_after (create_otp env u tb)) <= live_count v t tb)%nat.
Proof.
  intros Hv. unfold live_count.
  destruct (update_raises env) eqn:Hup.
  { unfold create_otp, table_after. rewrite Hup. simpl. lia. }
  rewrite (create_otp_rows env u tb Hup).
  assert (Hold : (length (List.filter (live_for v t) (map (collapse env u) (rows tb)))
                  <= length (List.filter (live_for v t) (rows tb)))%nat).
  { apply filter_map_length_le. intros x _. now rewrite collapse_other_user. }
  assert (Happ : (length (List.filter (live_for v t)
                    (map (collapse env u) (rows tb) ++ [new_row env u tb]))
                  <= length (List.filter (live_for v t) (rows tb)))%nat).
  { rewrite List.filter_app, length_app. simpl.
    replace (live_for v t (new_row env u tb)) with false; [simpl; lia|].
    symmetry. unfold live_for, new_row; simpl.
    replace (id u =? v) with false by (symmetry; apply Z.eqb_neq; congruence).
    reflexivity. }
  destruct (create_raises env); [exact Hold|].
  destruct (fst (send_otp _ _ _)); [exact Happ|].
  destruct (delete_raises env); [exact Happ|].
  etransitivity; [apply filter_length_le | exact Happ].
Qed.

Lemma orm_save_used_live_count (v : Z) (t : timestamp) (otp : OTPCode) (tb : Table) :
  In otp (rows tb) ->
  (live_count v t (orm_save (set_is_used true otp) tb) <= live_count v t tb)%nat.
Proof.
  intros Hin. unfold live_count.
  rewrite (orm_save_rows (set_is_used true otp) tb otp Hin eq_refl).
  apply filter_map_length_le. intros x _. simpl.
  destruct (pk x =? pk otp); [|auto].
  unfold live_for; simpl. rewrite andb_false_r. discriminate.
Qed.

Lemma verify_otp_live_count (env : CheckEnv) (u : User) (c : string)
    (tb : Table) (v : Z) (t : timestamp) :
  (live_count v t (snd (verify_otp env u c tb)) <= live_count v t tb)%nat.
Proof.
  unfold verify_otp. destruct (lookup_raises env); [simpl; lia|].
  destruct (orm_first _ tb) as [otp|] eqn:Hfirst; [|simpl; lia].
  destruct (save_raises env); [simpl; lia|]. simpl.
  apply orm_save_used_live_count. now apply head_filter_Some in Hfirst.
Qed.

Lemma cleanup_live_count (now : timestamp) (raises : bool) (tb : Table)
    (v : Z) (t : timestamp) :
  (live_count v t (snd (cleanup_old_otps now raises tb)) <= live_count v t tb)%nat.
Proof.
  unfold cleanup_old_otps, live_count. destruct raises; simpl; [lia|].
  apply filter_length_le.
Qed.

(** In every table the manager produces, each user has at most one live
    code: the premise of the second-verification parts of C2 and C6. *)
Lemma reachable_one_live (tb : Table) (t : timestamp) :
  reachable tb t ->
  forall (v : Z) (t' : timestamp), t <= t' -> (live_count v t' tb <= 1)%nat.
Proof.
  induction 1 as [n t | tb t t1 _ IH Ht | tb t env u _ IH Hf Hu
                  | tb t env u c _ IH Ht | tb t now raises _ IH Ht];
    intros v t' Hle.
  - unfold live_count; simpl; lia.
  - apply IH. lia.
  - destruct (Z.eq_dec v (id u)) as [->|Hv].
    + destruct (update_raises env) eqn:Hup.
      * unfold create_otp, table_after. rewrite Hup. simpl. apply IH. lia.
      * apply create_otp_live_count; [exact Hup | lia | lia].
    + etransitivity; [now apply create_otp_other_user|]. apply IH. lia.
  - etransitivity; [apply verify_otp_live_count|]. apply IH. lia.
  - etransitivity; [apply cleanup_live_count|]. apply IH. lia.
Qed.

(** In every table the manager produces, the keys are below the counter:
    the premise on keys in C3 and C10. *)
Lemma reachable_pk_fresh (tb : Table) (t : timestamp) :
  reachable tb t -> pk_fresh tb.
Proof.
  unfold pk_fresh.
  induction 1 as [n t | tb t t1 _ IH Ht | tb t env u _ IH Hf Hu
                  | tb t env u c _ IH Ht | tb t now raises _ IH Ht].
  - constructor.
  - exact IH.
  - rewrite List.Forall_forall in IH. apply List.Forall_forall. intros r Hin.
    destruct (update_raises env) eqn:Hup.
    { unfold create_otp, table_after in *. rewrite Hup in *. simpl in *. auto. }
    assert (Hold : forall x, In x (map (collapse env u) (rows tb)) ->
                             pk x < next_pk tb).
    { intros x Hx. apply in_map_iff in Hx. destruct Hx as (r0 & <- & H0).
      rewrite collapse_pk. auto. }
    assert (Happ : forall x,
              In x (map (collapse env u) (rows tb) ++ [new_row env u tb]) ->
              pk x < next_pk tb + 1).
    { intros x Hx. apply in_app_or in Hx. destruct Hx as [Hx|[<-|[]]].
      - specialize (Hold x Hx). lia.
      - simpl. lia. }
    rewrite (create_otp_rows env u tb Hup) in Hin.
    rewrite create_otp_next_pk, Hup.
    destruct (create_raises env); [auto|].
    destruct (fst (send_otp _ _ _)); [auto|].
    destruct (delete_raises env); [auto|].
    apply filter_In in Hin. destruct Hin as [Hin _]. auto.
  - rewrite List.Forall_forall in IH. apply List.Forall_forall. intros r Hin.
    unfold verify_otp in *. destruct (lookup_raises env); [simpl in *; auto|].
    destruct (orm_first _ tb) as [otp|] eqn:Hfirst; [|simpl in *; auto].
    destruct (save_raises env); [simpl in *; auto|]. simpl in *.
    apply head_filter_Some in Hfirst. destruct Hfirst as [Hotp _].
    rewrite (orm_save_rows (set_is_used true otp) tb otp Hotp eq_refl) in Hin.
    replace (next_pk (orm_save (set_is_used true otp) tb)) with (next_pk tb)
      by (unfold orm_save; now destruct (existsb _ _)).
    apply in_map_iff in Hin. destruct Hin as (x & <- & Hx). simpl.
    destruct (pk x =? pk otp); simpl; auto.
  - rewrite List.Forall_forall in IH. apply List.Forall_forall. intros r Hin.
    unfold cleanup_old_otps in *. destruct raises; simpl in *; [auto|].
    apply filter_In in Hin. destruct Hin as [Hin _]. auto.
Qed.

(** ** The code generator *)

Lemma str_digit_shape (d : digit) :
  exists a, str_digit d = String a EmptyString /\ is_ascii_digit a = true.
Proof. destruct d; eexists; split; reflexivity. Qed.

(** A generated code is six digits long, so it passes the checks of
    [VerifyOTPSerializer] on [code]. *)
Lemma generate_otp_shape (randint : nat -> digit) :
  String.length (generate_otp randint) = 6%nat
  /\ isdigit (generate_otp randint) = true
  /\ check_code (Some (generate_otp randint)) = [].
Proof.
  unfold generate_otp. simpl.
  destruct (str_digit_shape (randint 0%nat)) as (a0 & -> & H0).
  destruct (str_digit_shape (randint 1%nat)) as (a1 & -> & H1).
  destruct (str_digit_shape (randint 2%nat)) as (a2 & -> & H2).
  destruct (str_digit_shape (randint 3%nat)) as (a3 & -> & H3).
  destruct (str_digit_shape (randint 4%nat)) as (a4 & -> & H4).
  destruct (str_digit_shape (randint 5%nat)) as (a5 & -> & H5).
  cbv [String.append]. unfold check_code, isdigit.
  cbn [truthy String.length all_digits negb].
  rewrite H0, H1, H2, H3, H4, H5. repeat split.
Qed.

(** * Further properties of the OTP manager *)

(** ** The range of the generator *)

Lemma ascii_digit_str (a : ascii) :
  is_ascii_digit a = true -> exists d, str_digit d = String a EmptyString.
Proof.
  intros H.
  destruct a as [[] [] [] [] [] [] [] []]; vm_compute in H; try discriminate H;
    first [ exists D0; reflexivity | exists D1; reflexivity
          | exists D2; reflexivity | exists D3; reflexivity
          | exists D4; reflexivity | exists D5; reflexivity
          | exists D6; reflexivity | exists D7; reflexivity
          | exists D8; reflexivity | exists D9; reflexivity ].
Qed.

(** X1. [generate_otp] produces exactly the strings of six decimal digits:
    whatever the draws, the code has length 6 and digits only, and every
    such string, leading zeros included, is the code of some draws. *)
Theorem generate_otp_range (s : string) :
  (exists randint, generate_otp randint = s)
  <-> String.length s = 6%nat /\ all_digits s = true.
Proof.
  split.
  - intros (randint & <-).
    destruct (generate_otp_shape randint) as (Hlen & Hdig & _).
    split; [exact Hlen|]. unfold isdigit in Hdig.
    apply andb_true_iff in Hdig. tauto.
  - intros (Hlen & Hdig).
    destruct s as [|a0 [|a1 [|a2 [|a3 [|a4 [|a5 [|a6 s]]]]]]]; try discriminate Hlen.
    simpl in Hdig. repeat (apply andb_true_iff in Hdig; destruct Hdig as [? Hdig]).
    destruct (ascii_digit_str a0) as (d0 & E0); [assumption|].
    destruct (ascii_digit_str a1) as (d1 & E1); [assumption|].
    destruct (ascii_digit_str a2) as (d2 & E2); [assumption|].
    destruct (ascii_digit_str a3) as (d3 & E3); [assumption|].
    destruct (ascii_digit_str a4) as (d4 & E4); [assumption|].
    destruct (ascii_digit_str a5) as (d5 & E5); [assumption|].
    exists (draws_of d0 d1 d2 d3 d4 d5).
    unfold generate_otp. simpl. rewrite E0, E1, E2, E3, E4, E5. reflexivity.
Qed.

(** ** Issuance and verification together *)

(** When [verify_otp] returns [True]. *)
Lemma verify_otp_true (env : CheckEnv) (u : User) (c : string) (tb : Table) :
  fst (verify_otp env u c tb) = true <->
  lookup_raises env = false /\ save_raises env = false
  /\ exists r, In r (rows tb) /\ matches (id u) c (now_lookup env) r = true.
Proof.
  unfold verify_otp.
  destruct (lookup_raises env); simpl; [intuition discriminate|].
  destruct (orm_first _ tb) as [otp|] eqn:Hfirst.
  - apply head_filter_Some in Hfirst. destruct Hfirst as [Hin Hm].
    destruct (save_raises env); simpl; [intuition discriminate|].
    intuition eauto.
  - simpl. split; [discriminate|]. intros (_ & _ & r & Hin & Hm).
    rewrite (proj1 (head_filter_None _ _) Hfirst r Hin) in Hm. discriminate.
Qed.

Lemma create_otp_calls (env : IssueEnv) (u : User) (tb : Table) :
  calls_of (create_otp env u tb) =
    if update_raises env then []
    else if create_raises env then []
    else snd (send_otp (gateway env) u (generate_otp (randint env))).
Proof.
  unfold create_otp, calls_of.
  destruct (update_raises env); [reflexivity|].
  destruct (create_raises env); [reflexivity|].
  unfold orm_create.
  destruct (send_otp (gateway env) u (generate_otp (randint env))) as [sent calls].
  simpl. destruct sent; [reflexivity|].
  destruct (delete_raises env); reflexivity.
Qed.

Lemma issued_Some (env : IssueEnv) (u : User) (tb : Table) (otp : OTPCode) :
  issued (create_otp env u tb) = Some otp <->
  update_raises env = false /\ create_raises env = false
  /\ fst (send_otp (gateway env) u (generate_otp (randint env))) = true
  /\ otp = new_row env u tb.
Proof.
  rewrite create_otp_issued.
  destruct (update_raises env); [intuition discriminate|].
  destruct (create_raises env); [intuition discriminate|].
  destruct (fst (send_otp _ _ _)); [|intuition discriminate].
  split; [intros H; injection H as <-; auto | intros (_ & _ & _ & ->); reflexivity].
Qed.

(** X2. After [create_otp] has returned a code, a [verify_otp] for the same
    user whose store calls do not raise, made not before the clock readings
    of the invalidation, returns [True] exactly when the submitted code is
    the generated one and the lookup happens less than ten minutes after
    the clock reading of the issuance: no older code of the user verifies
    any more, and the new one does until it expires. *)
Theorem issued_code_is_the_one_that_verifies
    (env : IssueEnv) (cenv : CheckEnv) (u : User) (tb : Table)
    (otp : OTPCode) (c : string) :
  issued (create_otp env u tb) = Some otp ->
  lookup_raises cenv = false -> save_raises cenv = false ->
  now_filter env <= now_lookup cenv -> now_update env <= now_lookup cenv ->
  (fst (verify_otp cenv u c (table_after (create_otp env u tb))) = true
   <-> c = code otp
       /\ now_lookup cenv < now_expiry env + timedelta_minutes 10).
Proof.
  intros Hotp Hlk Hsv Hf Hu.
  apply issued_Some in Hotp. destruct Hotp as (Hup & Hcr & Hsent & ->).
  assert (Hrows := create_otp_rows env u tb Hup). simpl in Hrows.
  rewrite Hcr, Hsent in Hrows.
  rewrite verify_otp_true. split.
  - intros (_ & _ & r & Hin & Hm). apply matches_true in Hm.
    destruct Hm as [Hlive Hc].
    assert (r = new_row env u tb)
      by (apply (create_otp_live_is_new env u tb (now_lookup cenv)); assumption).
    subst r. apply live_for_true in Hlive. simpl in *. split; [congruence | tauto].
  - intros (-> & Hexp). repeat split; [assumption | assumption |].
    exists (new_row env u tb). split.
    + rewrite Hrows. apply in_or_app. right. left. reflexivity.
    + apply matches_true. split; [|reflexivity].
      apply live_for_true. simpl. auto.
Qed.

Lemma issued_code_is_the_one_that_verifies_witness :
  fst (verify_otp (check_at (seconds 599)) alice "042917" table_042917) = true
  /\ fst (verify_otp (check_at (seconds 600)) alice "042917" table_042917) = false.
Proof.
  split.
  - apply (issued_code_is_the_one_that_verifies (issue_at 0 gw_up)
             (check_at (seconds 599)) alice empty_table
             (mkOTPCode 1 1 "042917" false 0 600000000) "042917");
      try reflexivity; try (vm_compute; discriminate).
    split; reflexivity.
  - reflexivity.
Defined.

Lemma send_otp_calls (gw : Gateway) (u : User) (otp_code : string) (a : Attempt) :
  In a (snd (send_otp gw u otp_code)) ->
  attempt_body a = otp_text otp_code
  /\ (if is_sms a then attempt_to a = phone_number u
      else attempt_to a = email u /\ truthy (email u) = true
           /\ sms_raises gw = true).
Proof.
  unfold send_otp. destruct (client_raises gw); simpl; [tauto|].
  destruct (sms_raises gw); simpl.
  - destruct (truthy (email u)) eqn:He; [destruct (mail_raises gw)|]; simpl;
      intros H; repeat (destruct H as [<-|H]; [simpl; auto|]); destruct H.
  - intros [<-|[]]. simpl. auto.
Qed.

(** X3. [create_otp] never sends a code it did not store first: when the
    invalidating update or the insert raises, no channel is called; every
    call that is made carries the text with the generated code, an SMS to
    the phone number of the user or, only after the SMS call raised, a mail
    to the non-empty email address of the user; and a returned code is the
    generated one, six digits long, and is a row of the table. *)
Theorem create_otp_sends_the_stored_code
    (env : IssueEnv) (u : User) (tb : Table) :
  let out := create_otp env u tb in
  (update_raises env = true \/ create_raises env = true ->
     calls_of out = [] /\ issued out = None)
  /\ (forall a, In a (calls_of out) ->
        attempt_body a = otp_text (generate_otp (randint env))
        /\ (if is_sms a then attempt_to a = phone_number u
            else attempt_to a = email u /\ truthy (email u) = true
                 /\ sms_raises (gateway env) = true))
  /\ (forall otp, issued out = Some otp ->
        code otp = generate_otp (randint env)
        /\ check_code (Some (code otp)) = []
        /\ In otp (rows (table_after out))
        /\ exists a, In a (calls_of out) /\ attempt_body a = otp_text (code otp)).
Proof.
  intros out. subst out. rewrite create_otp_calls, create_otp_issued.
  split; [|split].
  - intros [H|H]; rewrite H; [auto|]. destruct (update_raises env); auto.
  - intros a Ha. destruct (update_raises env); [destruct Ha|].
    destruct (create_raises env); [destruct Ha|].
    now apply send_otp_calls in Ha.
  - intros otp Hotp.
    destruct (update_raises env) eqn:Hup; [discriminate|].
    destruct (create_raises env) eqn:Hcr; [discriminate|].
    destruct (fst (send_otp _ _ _)) eqn:Hsent; [|discriminate].
    injection Hotp as <-. simpl.
    split; [reflexivity|]. split; [apply generate_otp_shape|]. split.
    + rewrite (create_otp_rows env u tb Hup). simpl. rewrite Hcr, Hsent.
      apply in_or_app. right. left. reflexivity.
    + exists (SmsAttempt (phone_number u) (otp_text (generate_otp (randint env)))).
      split; [|reflexivity].
      unfold send_otp in *. destruct (client_raises (gateway env)); [discriminate|].
      destruct (negb (sms_raises (gateway env))); [left; reflexivity|].
      destruct (truthy (email u)); [|discriminate].
      destruct (mail_raises (gateway env)); left; reflexivity.
Qed.

Lemma collapse_user (env : IssueEnv) (u : User) (r : OTPCode) :
  user (collapse env u r) = user r.
Proof. unfold collapse. destruct (live_for _ _ r); reflexivity. Qed.

Lemma collapse_other_row (env : IssueEnv) (u : User) (r : OTPCode) :
  user r <> id u -> collapse env u r = r.
Proof.
  intros Hne. unfold collapse.
  destruct (live_for (id u) (now_filter env) r) eqn:Hl; [|reflexivity].
  apply live_for_true in Hl. tauto.
Qed.

(** X4. An issuance for one user leaves the codes of every other user as
    they are: with keys from the counter, the rows owned by other users are
    the same before and after [create_otp], whatever its outcome, and so is
    the result of any [verify_otp] for another user. *)
Theorem create_otp_leaves_other_users_alone
    (env : IssueEnv) (u : User) (tb : Table) :
  pk_fresh tb ->
  let after := table_after (create_otp env u tb) in
  (forall r, user r <> id u -> (In r (rows after) <-> In r (rows tb)))
  /\ (forall cenv v c, id v <> id u ->
        fst (verify_otp cenv v c after) = fst (verify_otp cenv v c tb)).
Proof.
  intros Hfresh after.
  assert (Hrows : forall r, user r <> id u -> (In r (rows after) <-> In r (rows tb))).
  { intros r Hr. subst after.
    destruct (update_raises env) eqn:Hup.
    { unfold create_otp, table_after. rewrite Hup. simpl. tauto. }
    rewrite (create_otp_rows env u tb Hup). simpl.
    assert (Hold : In r (map (collapse env u) (rows tb)) <-> In r (rows tb)).
    { rewrite in_map_iff. split.
      - intros (r0 & <- & H0). rewrite collapse_user in Hr.
        now rewrite collapse_other_row.
      - intros H0. exists r. split; [now apply collapse_other_row | exact H0]. }
    assert (Happ : In r (map (collapse env u) (rows tb) ++ [new_row env u tb])
                   <-> In r (rows tb)).
    { rewrite in_app_iff, Hold. simpl. split; [|auto].
      intros [H|[<-|[]]]; [exact H|]. now elim Hr. }
    destruct (create_raises env); [exact Hold|].
    destruct (fst (send_otp _ _ _)); [exact Happ|].
    destruct (delete_raises env); [exact Happ|].
    rewrite (rollback_rows env u tb Hfresh). exact Hold. }
  split; [exact Hrows|].
  intros cenv v c Hv.
  assert (Hex : (exists r, In r (rows after) /\ matches (id v) c (now_lookup cenv) r = true)
                <-> (exists r, In r (rows tb) /\ matches (id v) c (now_lookup cenv) r = true)).
  { split; intros (r & Hin & Hm); exists r; (split; [|exact Hm]);
      apply matches_true in Hm; destruct Hm as [Hl _];
      apply live_for_true in Hl; destruct Hl as (Hu & _);
      apply (Hrows r); congruence. }
  destruct (fst (verify_otp cenv v c after)) eqn:Ha;
    destruct (fst (verify_otp cenv v c tb)) eqn:Hb; try reflexivity.
  - apply verify_otp_true in Ha. rewrite Hex in Ha.
    apply verify_otp_true in Ha. congruence.
  - apply verify_otp_true in Hb. rewrite <- Hex in Hb.
    apply verify_otp_true in Hb. congruence.
Qed.

Lemma create_otp_leaves_other_users_alone_witness :
  fst (verify_otp (check_at (seconds 5)) bob "042917"
         (table_after (create_otp (issue_at (seconds 1) gw_down) alice
                         table_two_users)))
  = fst (verify_otp (check_at (seconds 5)) bob "042917" table_two_users).
Proof.
  apply (create_otp_leaves_other_users_alone (issue_at (seconds 1) gw_down)
           alice table_two_users).
  - repeat constructor.
  - discriminate.
Defined.

(** ** Housekeeping *)

Lemma filter_filter_implied {A} (p q : A -> bool) (l : list A) :
  (forall x, In x l -> p x = true -> q x = true) ->
  List.filter p (List.filter q l) = List.filter p l.
Proof.
  induction l as [|a l IH]; intros H; simpl; [reflexivity|].
  assert (IH' := IH (fun x Hx => H x (or_intror Hx))).
  destruct (q a) eqn:Hq; simpl.
  - destruct (p a); [f_equal|]; exact IH'.
  - destruct (p a) eqn:Hp; [|exact IH'].
    rewrite (H a (or_introl eq_refl) Hp) in Hq. discriminate.
Qed.

Lemma cleanup_rows (now : timestamp) (raises : bool) (tb : Table) :
  rows (snd (cleanup_old_otps now raises tb)) =
    if raises then rows tb
    else List.filter (fun x => negb (expires_at x <? now)) (rows tb).
Proof. unfold cleanup_old_otps. now destruct raises. Qed.

(** X5. [cleanup_old_otps] never touches a code that can still be used: for
    a lookup not before the clock reading of the cleanup, the row a
    verification finds, the result of [verify_otp] and the number of live
    codes of any user are the same with and without the cleanup. *)
Theorem cleanup_keeps_verification
    (now : timestamp) (raises : bool) (tb : Table)
    (cenv : CheckEnv) (u : User) (c : string) :
  now <= now_lookup cenv ->
  let cleaned := snd (cleanup_old_otps now raises tb) in
  orm_first (matches (id u) c (now_lookup cenv)) cleaned
  = orm_first (matches (id u) c (now_lookup cenv)) tb
  /\ fst (verify_otp cenv u c cleaned) = fst (verify_otp cenv u c tb)
  /\ forall v, live_count v (now_lookup cenv) cleaned
               = live_count v (now_lookup cenv) tb.
Proof.
  intros Hnow cleaned.
  assert (Hkeep : forall v x, live_for v (now_lookup cenv) x = true ->
                              negb (expires_at x <? now) = true).
  { intros v x Hl. apply live_for_true in Hl. destruct Hl as (_ & _ & Hexp).
    apply negb_true_iff, Z.ltb_ge. lia. }
  assert (Hfirst : orm_first (matches (id u) c (now_lookup cenv)) cleaned
                   = orm_first (matches (id u) c (now_lookup cenv)) tb).
  { unfold orm_first. subst cleaned. rewrite cleanup_rows.
    destruct raises; [reflexivity|]. f_equal.
    apply filter_filter_implied. intros x _ Hm.
    apply matches_true in Hm. destruct Hm as [Hl _]. now apply (Hkeep (id u)). }
  split; [exact Hfirst | split].
  - unfold verify_otp. rewrite Hfirst.
    destruct (lookup_raises cenv); [reflexivity|].
    destruct (orm_first _ tb); [|reflexivity].
    destruct (save_raises cenv); reflexivity.
  - intros v. unfold live_count. subst cleaned. rewrite cleanup_rows.
    destruct raises; [reflexivity|]. f_equal.
    apply filter_filter_implied. intros x _ Hl. now apply (Hkeep v).
Qed.

Lemma cleanup_keeps_verification_witness :
  fst (verify_otp (check_at (seconds 5)) alice "042917"
         (snd (cleanup_old_otps (seconds 4) false table_042917)))
  = fst (verify_otp (check_at (seconds 5)) alice "042917" table_042917).
Proof.
  apply (cleanup_keeps_verification (seconds 4) false table_042917
           (check_at (seconds 5)) alice "042917").
  vm_compute; discriminate.
Defined.

Lemma filter_partition_length {A} (p : A -> bool) (l : list A) :
  length l = (length (List.filter p l)
              + length (List.filter (fun x => negb (p x)) l))%nat.
Proof.
  induction l as [|a l IH]; simpl; [reflexivity|].
  destruct (p a); simpl; lia.
Qed.

(** X6. [cleanup_old_otps] deletes exactly the rows whose [expires_at] is
    before the clock reading, and returns their number: the count is the
    number of rows before minus the number after; a row is kept exactly
    when it does not expire before the reading, so a used code that has not
    expired, and a code that expires at the reading itself, stay; the
    counter of keys is not changed; when the delete raises the result is 0
    and the table is as before; and a second cleanup at the same or an
    earlier reading deletes nothing. *)
Theorem cleanup_old_otps_count (now : timestamp) (raises : bool) (tb : Table) :
  let out := cleanup_old_otps now raises tb in
  0 <= fst out
  /\ Z.of_nat (length (rows tb)) = fst out + Z.of_nat (length (rows (snd out)))
  /\ (forall r, In r (rows (snd out)) <->
                In r (rows tb) /\ (raises = true \/ now <= expires_at r))
  /\ next_pk (snd out) = next_pk tb
  /\ (raises = true -> out = (0, tb))
  /\ (raises = false -> forall now', now' <= now ->
        cleanup_old_otps now' false (snd out) = (0, snd out)).
Proof.
  intros out. subst out. unfold cleanup_old_otps.
  destruct raises; simpl.
  - repeat split; try lia; try tauto; try discriminate.
  - split; [lia|]. split.
    { rewrite (filter_partition_length (fun x => expires_at x <? now) (rows tb)). lia. }
    split.
    { intros r. rewrite filter_In, negb_true_iff, Z.ltb_ge. intuition discriminate. }
    split; [reflexivity|]. split; [discriminate|].
    intros _ now' Hle. unfold orm_delete_expired. simpl.
    assert (Hnone : List.filter (fun x => expires_at x <? now')
                      (List.filter (fun x => negb (expires_at x <? now)) (rows tb)) = []).
    { apply filter_none. intros x Hx. apply filter_In in Hx. destruct Hx as [_ Hx].
      apply negb_true_iff, Z.ltb_ge in Hx. apply Z.ltb_ge. lia. }
    rewrite Hnone. simpl. f_equal. f_equal.
    apply filter_all. intros x Hx. apply filter_In in Hx. destruct Hx as [_ Hx].
    apply negb_true_iff, Z.ltb_ge in Hx. apply negb_true_iff, Z.ltb_ge. lia.
Qed.

(** X7. A cleanup after an issuance removes the codes the issuance
    superseded: when the invalidating update ran and the cleanup reads the
    clock after that update, every row left in the table is the new row or
    an old row, unchanged, that was not live when the issuance looked for
    live codes; no collapsed row is left. *)
Theorem cleanup_purges_superseded
    (env : IssueEnv) (u : User) (tb : Table) (now : timestamp) :
  update_raises env = false -> now_update env < now ->
  let final := snd (cleanup_old_otps now false (table_after (create_otp env u tb))) in
  forall r, In r (rows final) ->
    r = new_row env u tb
    \/ (In r (rows tb) /\ live_for (id u) (now_filter env) r = false
        /\ now <= expires_at r).
Proof.
  intros Hup Hnow final r Hin. subst final.
  rewrite cleanup_rows in Hin. apply filter_In in Hin. destruct Hin as [Hin Hexp].
  apply negb_true_iff, Z.ltb_ge in Hexp.
  destruct (create_otp_row_origin env u tb r Hup Hin) as [?|(r0 & H0 & ->)]; [now left|].
  right. unfold collapse in *.
  destruct (live_for (id u) (now_filter env) r0) eqn:Hl.
  - simpl in Hexp. lia.
  - auto.
Qed.

Lemma cleanup_purges_superseded_witness :
  let r := mkOTPCode 2 1 "042917" false (seconds 30) (seconds 630) in
  r = new_row (issue_at (seconds 30) gw_up) alice table_042917
  \/ (In r (rows table_042917)
      /\ live_for 1 (seconds 30) r = false /\ seconds 31 <= expires_at r).
Proof.
  apply (cleanup_purges_superseded (issue_at (seconds 30) gw_up) alice
           table_042917 (seconds 31)).
  - reflexivity.
  - vm_compute; reflexivity.
  - left; reflexivity.
Defined.

(** * Further properties of the OTP views *)

(** [RequestOTPView.post] when it answers 200. *)
Lemma RequestOTPView_post_200 (env : RequestEnv) (attrs : RequestAttrs) (w : World) :
  RequestOTPSerializer_validate attrs = inr attrs ->
  status (response_of (RequestOTPView_post env attrs w)) = 200 ->
  exists u otp,
    in_cooldown (now_cache_get env) (identifier_of attrs) (cache w) = false
    /\ find_user (req_email attrs) (req_phone_number attrs) (users w) = Some u
    /\ issued (create_otp (issue env) u (otps w)) = Some otp
    /\ RequestOTPView_post env attrs w =
         (mkResponse 200
            (OTPSent "10 minutes" (identifier_of attrs)
               (if truthy_opt (req_email attrs) then "email" else "sms")),
          mkWorld (users w) (table_after (create_otp (issue env) u (otps w)))
            (cache_set (now_cache_set env) (request_key (identifier_of attrs))
                       CTrue 60 (cache w)),
          calls_of (create_otp (issue env) u (otps w))).
Proof.
  intros Hvalid H200.
  destruct (in_cooldown (now_cache_get env) (identifier_of attrs) (cache w)) eqn:Hcool.
  { rewrite (RequestOTPView_post_blocked env attrs w Hvalid Hcool) in H200.
    discriminate. }
  destruct (find_user (req_email attrs) (req_phone_number attrs) (users w))
    as [u|] eqn:Huser.
  2:{ rewrite (RequestOTPView_post_no_user env attrs w Hvalid Hcool Huser) in H200.
      discriminate. }
  rewrite (RequestOTPView_post_issue env attrs w u Hvalid Hcool Huser) in H200 |- *.
  destruct (issued (create_otp (issue env) u (otps w))) as [otp|] eqn:Hmade;
    [|discriminate].
  exists u, otp. auto.
Qed.

(** X8. The [delivery_method] that [RequestOTPView.post] reports is decided
    by the identifier of the request, not by the channel that delivered: a
    request answered 200 reports "email" when an email was given and "sms"
    otherwise, and echoes the identifier as contact, while the calls made
    are always the SMS to the phone number of the user first and, when that
    call raised, the mail that delivered the code. *)
Theorem RequestOTPView_reports_identifier_not_channel
    (env : RequestEnv) (attrs : RequestAttrs) (w : World) :
  RequestOTPSerializer_validate attrs = inr attrs ->
  status (response_of (RequestOTPView_post env attrs w)) = 200 ->
  let out := RequestOTPView_post env attrs w in
  let text := otp_text (generate_otp (randint (issue env))) in
  exists u,
    find_user (req_email attrs) (req_phone_number attrs) (users w) = Some u
    /\ body (response_of out) =
         OTPSent "10 minutes" (identifier_of attrs)
           (if truthy_opt (req_email attrs) then "email" else "sms")
    /\ calls_of out =
         (if sms_raises (gateway (issue env))
          then [SmsAttempt (phone_number u) text;
                MailAttempt (email u) "Your OTP Code" text]
          else [SmsAttempt (phone_number u) text]).
Proof.
  intros Hvalid H200 out text.
  destruct (RequestOTPView_post_200 env attrs w Hvalid H200)
    as (u & otp & _ & Huser & Hmade & Hout).
  exists u. split; [exact Huser|]. subst out. rewrite Hout.
  split; [reflexivity|]. unfold calls_of at 1. simpl.
  apply issued_Some in Hmade. destruct Hmade as (Hup & Hcr & Hsent & _).
  rewrite create_otp_calls, Hup, Hcr.
  destruct (client_raises (gateway (issue env))) eqn:Hc.
  { rewrite send_otp_no_client in Hsent by exact Hc. discriminate. }
  assert (Hcases := send_otp_cases (gateway (issue env)) u
                      (generate_otp (randint (issue env))) Hc).
  simpl in Hcases. rewrite Hcases in Hsent |- *.
  destruct (sms_raises (gateway (issue env))); [|reflexivity].
  destruct (truthy (email u)); [reflexivity | discriminate].
Qed.

Lemma RequestOTPView_reports_identifier_not_channel_witness :
  body (response_of (RequestOTPView_post (request_at 0 gw_up) by_email world0))
  = OTPSent "10 minutes" "alice@example.com" "email"
  /\ calls_of (RequestOTPView_post (request_at 0 gw_up) by_email world0)
     = [SmsAttempt "+15551234567"
          "Your verification code is: 042917. Valid for 10 minutes."].
Proof.
  destruct (RequestOTPView_reports_identifier_not_channel
              (request_at 0 gw_up) by_email world0 eq_refl eq_refl)
    as (u & Hu & Hbody & Hcalls).
  split; [exact Hbody|]. vm_compute in Hu. injection Hu as <-. exact Hcalls.
Defined.

(** [VerifyOTPView.post] on data that pass validation. *)
Lemma VerifyOTPView_post_valid (env : VerifyEnv) (data : VerifyData)
    (w : World) (a : VerifyAttrs) :
  VerifyOTPSerializer_validate data = inr a ->
  let k := attempts_read (now_attempts_get env) (ver_email a) (cache w) in
  let key := attempt_key (ver_email a) in
  VerifyOTPView_post env data w =
    if max_attempts <=? k then (mkResponse 429 TooManyFailedAttempts, w)
    else
      match user_by_email (ver_email a) (users w) with
      | None => (mkResponse 404 UserNotFound, w)
      | Some u =>
          let r := verify_otp (check env) u (ver_code a) (otps w) in
          if fst r
          then (mkResponse 200 OTPVerified,
                mkWorld (save_user (set_is_verified true u) (users w)) (snd r)
                        (cache_delete key (cache w)))
          else (mkResponse 400 (InvalidOrExpiredOTP (max_attempts - (k + 1))),
                mkWorld (users w) (snd r)
                  (cache_set (now_attempts_set env) key (CInt (k + 1)) 300
                             (cache w)))
      end.
Proof.
  intros Hvalid k key.
  pose proof (proj1 (VerifyOTPSerializer_valid data a) Hvalid) as (_ & Htruthy & _).
  unfold VerifyOTPView_post. rewrite Hvalid.
  unfold py_or, find_user, truthy_opt. rewrite Htruthy. simpl.
  fold key. unfold attempts_read in k. fold key in k. fold k.
  destruct (max_attempts <=? k); [reflexivity|].
  destruct (user_by_email (ver_email a) (users w)) as [u|]; [|reflexivity].
  destruct (verify_otp (check env) u (ver_code a) (otps w)) as [ok tb].
  reflexivity.
Qed.

Lemma verify_otp_false_table (env : CheckEnv) (u : User) (c : string) (tb : Table) :
  fst (verify_otp env u c tb) = false -> snd (verify_otp env u c tb) = tb.
Proof.
  unfold verify_otp. destruct (lookup_raises env); [reflexivity|].
  destruct (orm_first _ tb); [|reflexivity].
  destruct (save_raises env); [reflexivity | discriminate].
Qed.

(** [VerifyOTPView.post] when it answers 400. *)
Lemma VerifyOTPView_post_400 (env : VerifyEnv) (data : VerifyData) (w : World) :
  status (fst (VerifyOTPView_post env data w)) = 400 ->
  exists a u,
    VerifyOTPSerializer_validate data = inr a
    /\ user_by_email (ver_email a) (users w) = Some u
    /\ fst (verify_otp (check env) u (ver_code a) (otps w)) = false
    /\ attempts_read (now_attempts_get env) (ver_email a) (cache w) < max_attempts
    /\ VerifyOTPView_post env data w =
         (mkResponse 400
            (InvalidOrExpiredOTP
               (max_attempts
                - (attempts_read (now_attempts_get env) (ver_email a) (cache w) + 1))),
          mkWorld (users w) (otps w)
            (cache_set (now_attempts_set env) (attempt_key (ver_email a))
               (CInt (attempts_read (now_attempts_get env) (ver_email a) (cache w) + 1))
               300 (cache w))).
Proof.
  intros H400.
  destruct (VerifyOTPSerializer_validate data) as [err|a] eqn:Hvalid.
  { unfold VerifyOTPView_post in H400. rewrite Hvalid in H400. discriminate. }
  rewrite (VerifyOTPView_post_valid env data w a Hvalid) in H400 |- *. simpl in *.
  destruct (max_attempts <=? _) eqn:Hmax; [discriminate|].
  apply Z.leb_gt in Hmax.
  destruct (user_by_email (ver_email a) (users w)) as [u|] eqn:Hu; [|discriminate].
  destruct (fst (verify_otp (check env) u (ver_code a) (otps w))) eqn:Hok;
    [discriminate|].
  exists a, u. rewrite (verify_otp_false_table _ _ _ _ Hok). auto.
Qed.

Lemma attempts_read_set (t t0 : timestamp) (ident : string) (n : Z)
    (c : gmap string CacheEntry) :
  t < t0 + seconds 300 ->
  attempts_read t ident (cache_set t0 (attempt_key ident) (CInt n) 300 c) = n.
Proof.
  intros Ht. unfold attempts_read. rewrite cache_get_set.
  replace (t <? t0 + seconds 300) with true by (symmetry; now apply Z.ltb_lt).
  reflexivity.
Qed.

(** X9. A verification that [VerifyOTPView.post] answers 400 is counted
    once: the data were valid, the user exists and the code did not verify;
    with [k] failures on record, [k] below 3, the answer reports
    [2 - k] attempts left, never a negative number; users and codes are
    left as they were; and the counter of the identifier reads [k + 1] for
    the next 300 seconds, counted from this failure, and 0 afterwards. *)
Theorem VerifyOTPView_failure_is_counted
    (env : VerifyEnv) (data : VerifyData) (w : World) :
  status (fst (VerifyOTPView_post env data w)) = 400 ->
  let out := VerifyOTPView_post env data w in
  exists a u,
    VerifyOTPSerializer_validate data = inr a
    /\ user_by_email (ver_email a) (users w) = Some u
    /\ fst (verify_otp (check env) u (ver_code a) (otps w)) = false
    /\ let k := attempts_read (now_attempts_get env) (ver_email a) (cache w) in
       k < 3
       /\ fst out = mkResponse 400 (InvalidOrExpiredOTP (2 - k))
       /\ 0 <= 2 - k
       /\ users (snd out) = users w /\ otps (snd out) = otps w
       /\ (forall t, t < now_attempts_set env + seconds 300 ->
             attempts_read t (ver_email a) (cache (snd out)) = k + 1)
       /\ (forall t, now_attempts_set env + seconds 300 <= t ->
             attempts_read t (ver_email a) (cache (snd out)) = 0).
Proof.
  intros H400 out.
  destruct (VerifyOTPView_post_400 env data w H400) as (a & u & Hv & Hu & Hok & Hk & Hout).
  exists a, u. split; [exact Hv|]. split; [exact Hu|]. split; [exact Hok|].
  intros k. subst out. rewrite Hout. simpl. fold k. fold k in Hk.
  unfold max_attempts in *.
  split; [exact Hk|]. split; [do 2 f_equal; lia|]. split; [lia|].
  split; [reflexivity|]. split; [reflexivity|]. split.
  - intros t Ht. now apply attempts_read_set.
  - intros t Ht. unfold attempts_read. rewrite cache_get_set.
    replace (t <? now_attempts_set env + seconds 300) with false
      by (symmetry; apply Z.ltb_ge; lia).
    reflexivity.
Qed.

Lemma VerifyOTPView_failure_is_counted_witness :
  fst (VerifyOTPView_post (verify_at (seconds 1)) wrong_code world_issued)
  = mkResponse 400 (InvalidOrExpiredOTP 2).
Proof.
  destruct (VerifyOTPView_failure_is_counted (verify_at (seconds 1)) wrong_code
              world_issued eq_refl) as (a & u & Hv & _ & _ & _ & Hresp & _).
  vm_compute in Hv. injection Hv as <-. exact Hresp.
Defined.

(** X10. Three failures lock the identifier out: when three verifications
    in a row are answered 400, each made less than 300 seconds after the
    failure before it was recorded, and the counter was not negative to
    begin with, a fourth request made less than 300 seconds after the third
    failure is answered 429 and changes nothing, whatever code it
    submits. *)
Theorem three_failures_lock_out
    (env1 env2 env3 env4 : VerifyEnv) (d1 d2 d3 d4 : VerifyData)
    (e : string) (a4 : VerifyAttrs) (w : World) :
  data_email d1 = Some e -> data_email d2 = Some e ->
  data_email d3 = Some e -> data_email d4 = Some e ->
  VerifyOTPSerializer_validate d4 = inr a4 ->
  let o1 := VerifyOTPView_post env1 d1 w in
  let o2 := VerifyOTPView_post env2 d2 (snd o1) in
  let o3 := VerifyOTPView_post env3 d3 (snd o2) in
  status (fst o1) = 400 -> status (fst o2) = 400 -> status (fst o3) = 400 ->
  0 <= attempts_read (now_attempts_get env1) e (cache w) ->
  now_attempts_get env2 < now_attempts_set env1 + seconds 300 ->
  now_attempts_get env3 < now_attempts_set env2 + seconds 300 ->
  now_attempts_get env4 < now_attempts_set env3 + seconds 300 ->
  VerifyOTPView_post env4 d4 (snd o3)
  = (mkResponse 429 TooManyFailedAttempts, snd o3).
Proof.
  intros E1 E2 E3 E4 V4 o1 o2 o3 H1 H2 H3 H0 T2 T3 T4.
  destruct (VerifyOTPView_post_400 env1 d1 w H1) as (a1 & u1 & V1 & _ & _ & _ & O1).
  destruct (VerifyOTPView_post_400 env2 d2 (snd o1) H2) as (a2 & u2 & V2 & _ & _ & _ & O2).
  destruct (VerifyOTPView_post_400 env3 d3 (snd o2) H3) as (a3 & u3 & V3 & _ & _ & _ & O3).
  assert (A1 : ver_email a1 = e)
    by (apply VerifyOTPSerializer_valid in V1; destruct V1 as (V1 & _); congruence).
  assert (A2 : ver_email a2 = e)
    by (apply VerifyOTPSerializer_valid in V2; destruct V2 as (V2 & _); congruence).
  assert (A3 : ver_email a3 = e)
    by (apply VerifyOTPSerializer_valid in V3; destruct V3 as (V3 & _); congruence).
  rewrite A1 in O1. rewrite A2 in O2. rewrite A3 in O3.
  fold o1 in O1, O2. fold o2 in O2, O3. fold o3 in O3.
  assert (A4 : ver_email a4 = e)
    by (apply VerifyOTPSerializer_valid in V4; destruct V4 as (V4 & _); congruence).
  assert (K2 : attempts_read (now_attempts_get env2) e (cache (snd o1))
               = attempts_read (now_attempts_get env1) e (cache w) + 1).
  { rewrite O1. simpl. now apply attempts_read_set. }
  assert (K3 : attempts_read (now_attempts_get env3) e (cache (snd o2))
               = attempts_read (now_attempts_get env1) e (cache w) + 2).
  { rewrite O2. simpl. rewrite attempts_read_set by exact T3. lia. }
  assert (K4 : attempts_read (now_attempts_get env4) e (cache (snd o3))
               = attempts_read (now_attempts_get env1) e (cache w) + 3).
  { rewrite O3. simpl. rewrite attempts_read_set by exact T4. lia. }
  rewrite (VerifyOTPView_post_valid env4 d4 (snd o3) a4 V4). simpl.
  rewrite A4, K4.
  replace (max_attempts <=? attempts_read (now_attempts_get env1) e (cache w) + 3)
    with true; [reflexivity|].
  symmetry. apply Z.leb_le. unfold max_attempts. lia.
Qed.

Lemma three_failures_lock_out_witness :
  VerifyOTPView_post (verify_at (seconds 4)) right_code world_locked
  = (mkResponse 429 TooManyFailedAttempts, world_locked).
Proof.
  apply (three_failures_lock_out
           (verify_at (seconds 1)) (verify_at (seconds 2))
           (verify_at (seconds 3)) (verify_at (seconds 4))
           wrong_code wrong_code wrong_code right_code
           "alice@example.com" (mkVerifyAttrs "alice@example.com" "042917")
           world_issued);
    try reflexivity; vm_compute; first [reflexivity | discriminate].
Defined.

Lemma user_by_email_found (e : string) (us : list User) (u : User) :
  user_by_email e us = Some u -> In u us /\ email u = e.
Proof.
  intros H. apply head_filter_Some in H. destruct H as [Hin He].
  split; [exact Hin | now apply String.eqb_eq].
Qed.

(** Saving the user found by an email keeps that user the one found. *)
Lemma user_by_email_save (e : string) (us : list User) (u : User) (b : bool) :
  user_by_email e us = Some u ->
  user_by_email e (save_user (set_is_verified b u) us)
  = Some (set_is_verified b u).
Proof.
  intros Hfound.
  assert (He : email u = e) by (apply (user_by_email_found e us u Hfound)).
  unfold user_by_email in *.
  induction us as [|x us IH]; simpl in *; [discriminate|].
  destruct (String.eqb (email x) e) eqn:Hx.
  - simpl in Hfound. injection Hfound as ->. rewrite Z.eqb_refl. simpl.
    rewrite He, String.eqb_refl. reflexivity.
  - destruct (id x =? id u); simpl.
    + rewrite He, String.eqb_refl. reflexivity.
    + rewrite Hx. now apply IH.
Qed.

(** X11. A verification that [VerifyOTPView.post] answers 200 did verify
    the code with [verify_otp], whose table is kept; the user found by the
    email is saved as verified and is the user that email finds afterwards;
    every user with another id is unchanged; the attempt counter of the
    identifier is deleted, so it reads 0 at any time, and no other cache
    entry changes. *)
Theorem VerifyOTPView_success_marks_verified
    (env : VerifyEnv) (data : VerifyData) (w : World) :
  status (fst (VerifyOTPView_post env data w)) = 200 ->
  let out := VerifyOTPView_post env data w in
  exists a u,
    VerifyOTPSerializer_validate data = inr a
    /\ user_by_email (ver_email a) (users w) = Some u
    /\ fst (verify_otp (check env) u (ver_code a) (otps w)) = true
    /\ otps (snd out) = snd (verify_otp (check env) u (ver_code a) (otps w))
    /\ user_by_email (ver_email a) (users (snd out))
       = Some (set_is_verified true u)
    /\ users (snd out) =
         map (fun x => if id x =? id u then set_is_verified true u else x)
             (users w)
    /\ (forall t, attempts_read t (ver_email a) (cache (snd out)) = 0)
    /\ (forall k, k <> attempt_key (ver_email a) ->
                  cache (snd out) !! k = cache w !! k).
Proof.
  intros H200 out.
  destruct (VerifyOTPSerializer_validate data) as [err|a] eqn:Hvalid.
  { unfold VerifyOTPView_post in H200. rewrite Hvalid in H200. discriminate. }
  subst out. rewrite (VerifyOTPView_post_valid env data w a Hvalid) in H200 |- *.
  simpl in *.
  destruct (max_attempts <=? _); [discriminate|].
  destruct (user_by_email (ver_email a) (users w)) as [u|] eqn:Hu; [|discriminate].
  destruct (fst (verify_otp (check env) u (ver_code a) (otps w))) eqn:Hok;
    [|discriminate].
  exists a, u. simpl. repeat split; try reflexivity; try assumption.
  - now apply user_by_email_save.
  - intros t. unfold attempts_read, cache_get, cache_delete.
    now rewrite lookup_delete_eq.
  - intros k Hk. unfold cache_delete. now apply lookup_delete_ne.
Qed.

Lemma VerifyOTPView_success_marks_verified_witness :
  user_by_email "alice@example.com"
    (users (snd (VerifyOTPView_post (verify_at (seconds 5)) right_code world_issued)))
  = Some (set_is_verified true alice).
Proof.
  destruct (VerifyOTPView_success_marks_verified (verify_at (seconds 5))
              right_code world_issued eq_refl)
    as (a & u & Hv & Hu & _ & _ & Hfound & _).
  vm_compute in Hv. injection Hv as <-.
  vm_compute in Hu. injection Hu as <-. exact Hfound.
Defined.

(** X12. Request, then verify.  After a request by email that
    [RequestOTPView.post] answered 200, a verification with that email and
    the generated code is answered 200 when the identifier has fewer than
    three failures on record, the store calls do not raise and the lookup
    happens less than ten minutes after the clock reading of the
    issuance. *)
Theorem request_then_verify_succeeds
    (env : RequestEnv) (attrs : RequestAttrs) (w : World)
    (venv : VerifyEnv) (e : string) (p : option string) :
  req_email attrs = Some e -> truthy e = true ->
  status (response_of (RequestOTPView_post env attrs w)) = 200 ->
  lookup_raises (check venv) = false -> save_raises (check venv) = false ->
  attempts_read (now_attempts_get venv) e (cache w) < 3 ->
  now_lookup (check venv) < now_expiry (issue env) + timedelta_minutes 10 ->
  fst (VerifyOTPView_post venv
         (mkVerifyData (Some e) p (Some (generate_otp (randint (issue env)))))
         (world_after (RequestOTPView_post env attrs w)))
  = mkResponse 200 OTPVerified.
Proof.
  intros He Ht H200 Hlk Hsv Hk Hexp.
  assert (Hvalid : RequestOTPSerializer_validate attrs = inr attrs).
  { unfold RequestOTPSerializer_validate. rewrite He. simpl. now rewrite Ht. }
  destruct (RequestOTPView_post_200 env attrs w Hvalid H200)
    as (u & otp & _ & Huser & Hmade & Hout).
  assert (Hfind : user_by_email e (users w) = Some u).
  { unfold find_user in Huser. rewrite He in Huser. simpl in Huser.
    now rewrite Ht in Huser. }
  assert (Hdata : VerifyOTPSerializer_validate
                    (mkVerifyData (Some e) p (Some (generate_otp (randint (issue env)))))
                  = inr (mkVerifyAttrs e (generate_otp (randint (issue env))))).
  { apply VerifyOTPSerializer_valid. simpl.
    destruct (generate_otp_shape (randint (issue env))) as (Hlen & Hdig & _). auto. }
  rewrite (VerifyOTPView_post_valid venv _ _ _ Hdata). simpl.
  assert (Hsame : attempts_read (now_attempts_get venv) e
                    (cache (world_after (RequestOTPView_post env attrs w)))
                  = attempts_read (now_attempts_get venv) e (cache w)).
  { unfold attempts_read, cache_get.
    now rewrite RequestOTPView_post_keeps_attempts. }
  rewrite Hsame.
  replace (max_attempts <=? attempts_read (now_attempts_get venv) e (cache w))
    with false by (symmetry; apply Z.leb_gt; unfold max_attempts; lia).
  rewrite Hout. unfold world_after. simpl. rewrite Hfind.
  replace (fst (verify_otp (check venv) u (generate_otp (randint (issue env)))
                  (table_after (create_otp (issue env) u (otps w))))) with true;
    [reflexivity|].
  symmetry. apply verify_otp_true. split; [exact Hlk|]. split; [exact Hsv|].
  apply issued_Some in Hmade. destruct Hmade as (Hup & Hcr & Hsent & _).
  exists (new_row (issue env) u (otps w)). split.
  - rewrite (create_otp_rows (issue env) u (otps w) Hup). simpl.
    rewrite Hcr, Hsent. apply in_or_app. right. left. reflexivity.
  - apply matches_true. split; [|reflexivity]. apply live_for_true. simpl. auto.
Qed.

Lemma request_then_verify_succeeds_witness :
  fst (VerifyOTPView_post (verify_at (seconds 5)) right_code world_issued)
  = mkResponse 200 OTPVerified.
Proof.
  apply (request_then_verify_succeeds (request_at 0 gw_up) by_email world0
           (verify_at (seconds 5)) "alice@example.com" None);
    try reflexivity; vm_compute; reflexivity.
Defined.

(** * The profile-update flow *)

Lemma py_eq_true (a b : option string) : Profile.py_eq a b = true <-> a = b.
Proof.
  destruct a as [x|], b as [y|]; simpl; try (split; [discriminate|discriminate]);
    [|tauto].
  rewrite String.eqb_eq. split; congruence.
Qed.

Lemma py_eq_refl (a : option string) : Profile.py_eq a a = true.
Proof. now apply py_eq_true. Qed.

Lemma changes_loop_any (instance : Profile.UserProfile) (d : Profile.ProfileData)
    (fs : list Profile.Field) :
  existsb (fun f => negb (Profile.py_eq (Profile.getattr instance f)
                                        (Profile.get_or_attr instance d f))) fs
  = Profile.changes_loop instance d fs.
Proof.
  induction fs as [|f fs IH]; simpl; [reflexivity|].
  unfold Profile.get_or_attr at 1.
  destruct (Profile.data_get d f) as [v|].
  - destruct (negb (Profile.py_eq (Profile.getattr instance f) (Some v)));
      [reflexivity | exact IH].
  - rewrite py_eq_refl. exact IH.
Qed.

Lemma changes_loop_false (instance : Profile.UserProfile) (d : Profile.ProfileData)
    (fs : list Profile.Field) :
  Profile.changes_loop instance d fs = false <->
  forall f v, In f fs -> Profile.data_get d f = Some v ->
              Profile.getattr instance f = Some v.
Proof.
  induction fs as [|f fs IH]; simpl; [split; [intros _ ? ? []|reflexivity]|].
  destruct (Profile.data_get d f) as [v|] eqn:Hf.
  - destruct (Profile.py_eq (Profile.getattr instance f) (Some v)) eqn:Heq; simpl.
    + apply py_eq_true in Heq. rewrite IH. split.
      * intros H g w [<-|Hg] Hw; [congruence | eauto].
      * intros H g w Hg Hw. apply H; auto.
    + split; [discriminate|]. intros H.
      specialize (H f v (or_introl eq_refl) Hf). apply py_eq_true in H. congruence.
  - rewrite IH. split.
    + intros H g w [<-|Hg] Hw; [congruence | eauto].
    + intros H g w Hg Hw. apply H; auto.
Qed.

Lemma has_changes_agree_false (instance : Profile.UserProfile)
    (d : Profile.ProfileData) :
  Profile.view_has_changes instance d = false ->
  forall f v, Profile.data_get d f = Some v -> Profile.getattr instance f = Some v.
Proof.
  unfold Profile.view_has_changes. rewrite changes_loop_false.
  intros H f v. apply H. destruct f; simpl; auto.
Qed.

(** X13. The two change tests agree: the [any(...)] of
    [UserProfileUpdateSerializer.update] and the loop with [break] of
    [UserProfileView.update] give the same answer for every profile and
    every validated data, and they answer "no change" exactly when every
    field present in the data already has that value in the profile. *)
Theorem has_changes_tests_agree
    (instance : Profile.UserProfile) (d : Profile.ProfileData) :
  Profile.serializer_has_changes instance d = Profile.view_has_changes instance d
  /\ (Profile.view_has_changes instance d = false <->
      forall f v, Profile.data_get d f = Some v ->
                  Profile.getattr instance f = Some v).
Proof.
  split; [apply changes_loop_any|].
  unfold Profile.view_has_changes. rewrite changes_loop_false.
  split; intros H f v; [|intros _]; apply H.
  destruct f; simpl; auto.
Qed.

Lemma apply_data_getattr (d : Profile.ProfileData) (p : Profile.UserProfile)
    (f : Profile.Field) :
  Profile.getattr (Profile.apply_data d p) f = Profile.get_or_attr p d f.
Proof.
  unfold Profile.apply_data, Profile.get_or_attr. simpl.
  destruct d as [[a|] [b|] [c|]], f; reflexivity.
Qed.

Lemma names_getattr (p q : Profile.UserProfile) :
  (forall f, Profile.getattr p f = Profile.getattr q f) ->
  Profile.names p = Profile.names q.
Proof.
  intros H. unfold Profile.names.
  rewrite (H Profile.FirstName : Profile.first_name p = _).
  rewrite (H Profile.LastName : Profile.last_name p = _).
  rewrite (H Profile.PhoneNumber : Profile.phone_number p = _).
  reflexivity.
Qed.

Lemma get_or_create_lookup (u : User) (now : timestamp)
    (ps : gmap Z Profile.UserProfile) :
  snd (Profile.get_or_create u now ps) !! id u
  = Some (fst (Profile.get_or_create u now ps))
  /\ forall v, v <> id u ->
       snd (Profile.get_or_create u now ps) !! v = ps !! v.
Proof.
  unfold Profile.get_or_create.
  destruct (ps !! id u) as [p|] eqn:Hp; simpl.
  - auto.
  - split; [apply lookup_insert_eq|]. intros v Hv. now apply lookup_insert_ne.
Qed.

Lemma view_has_changes_truthy (p : Profile.UserProfile) (d : Profile.ProfileData) :
  Profile.view_has_changes p d = true -> Profile.data_truthy d = true.
Proof.
  unfold Profile.view_has_changes, Profile.data_truthy. simpl.
  destruct d as [[a|] [b|] [c|]]; simpl; auto.
Qed.

(** X14. [UserProfileView.update] never changes the stored names and phone
    number of a profile.  After the call the user has a profile whose three
    fields are those of the profile before (the blank defaults if it had
    to be created), and the profiles of other users are untouched.  When
    the validated data differ from the profile, the answer is 200
    "verification required" whatever [create_otp] returned, failure
    included, the data wait in the cache for 300 seconds and the table of
    codes is the one [create_otp] left.  Otherwise no code is issued,
    nothing is sent and the pending changes are as before. *)
Theorem UserProfileView_update_never_changes_names
    (env : Profile.UpdateEnv) (u : User) (data : Profile.ProfileData)
    (st : Profile.State) :
  let out := Profile.UserProfileView_update env u data st in
  let st' := snd (fst out) in
  let before := fst (Profile.get_or_create u (Profile.now_get_object env)
                       (Profile.profiles st)) in
  (exists p', Profile.profiles st' !! id u = Some p'
              /\ Profile.names p' = Profile.names before)
  /\ (forall v, v <> id u ->
        Profile.profiles st' !! v = Profile.profiles st !! v)
  /\ (Profile.errors data = [] ->
      Profile.view_has_changes before data = true ->
      fst (fst out) = Profile.mkResponse 200 Profile.VerificationRequired
      /\ (forall t, t < Profile.now_cache_set env + seconds 300 ->
            Profile.pending_get t u (Profile.pending st') = Some data)
      /\ Profile.codes st'
         = table_after (create_otp (Profile.issue env) u (Profile.codes st))
      /\ snd out = calls_of (create_otp (Profile.issue env) u (Profile.codes st)))
  /\ (Profile.errors data <> [] \/ Profile.view_has_changes before data = false ->
      Profile.codes st' = Profile.codes st
      /\ Profile.pending st' = Profile.pending st /\ snd out = []).
Proof.
  intros out st' before. subst out st'. unfold Profile.UserProfileView_update.
  destruct (get_or_create_lookup u (Profile.now_get_object env) (Profile.profiles st))
    as [Hself Hother].
  fold before in Hself.
  destruct (Profile.get_or_create u (Profile.now_get_object env) (Profile.profiles st))
    as [instance ps] eqn:Hgc.
  simpl in Hself, Hother, before. subst before.
  destruct (Profile.errors data) as [|e errs] eqn:Herr.
  2:{ simpl. split; [eauto|]. split; [exact Hother|].
      split; [discriminate|]. auto. }
  destruct (Profile.view_has_changes instance data) eqn:Hch.
  - destruct (create_otp (Profile.issue env) u (Profile.codes st)) as [[otp tb] calls].
    simpl. split; [eauto|]. split; [exact Hother|]. split.
    + intros _ _. repeat split.
      intros t Ht. unfold Profile.pending_get. rewrite lookup_insert_eq. simpl.
      replace (t <? Profile.now_cache_set env + seconds 300) with true
        by (symmetry; now apply Z.ltb_lt).
      reflexivity.
    + intros [H|H]; [now elim H | discriminate].
  - simpl. split; [|split; [|split]].
    + eexists. split; [apply lookup_insert_eq|].
      apply names_getattr. intros f. unfold Profile.touch.
      change (Profile.getattr (Profile.apply_data data instance) f
              = Profile.getattr instance f).
      rewrite apply_data_getattr. unfold Profile.get_or_attr.
      destruct (Profile.data_get data f) as [v|] eqn:Hf; [|reflexivity].
      symmetry. revert f v Hf. now apply has_changes_agree_false.
    + intros v Hv. rewrite lookup_insert_ne by congruence. now apply Hother.
    + discriminate.
    + auto.
Qed.

(** [UserProfileView.update] when the data are valid and differ from the
    profile. *)
Lemma UserProfileView_update_shape (env : Profile.UpdateEnv) (u : User)
    (data : Profile.ProfileData) (st : Profile.State) :
  Profile.errors data = [] ->
  Profile.view_has_changes
    (fst (Profile.get_or_create u (Profile.now_get_object env) (Profile.profiles st)))
    data = true ->
  let st1 := snd (fst (Profile.UserProfileView_update env u data st)) in
  Profile.profiles st1 !! id u
  = Some (fst (Profile.get_or_create u (Profile.now_get_object env)
                 (Profile.profiles st)))
  /\ Profile.codes st1
     = table_after (create_otp (Profile.issue env) u (Profile.codes st))
  /\ Profile.pending st1
     = <[id u := Profile.mkPending data (Profile.now_cache_set env + seconds 300)]>
         (Profile.pending st).
Proof.
  intros Herr Hch st1. subst st1. unfold Profile.UserProfileView_update.
  destruct (get_or_create_lookup u (Profile.now_get_object env) (Profile.profiles st))
    as [Hself _].
  destruct (Profile.get_or_create u (Profile.now_get_object env) (Profile.profiles st))
    as [instance ps].
  simpl in *. rewrite Herr, Hch.
  destruct (create_otp (Profile.issue env) u (Profile.codes st)) as [[otp tb] calls].
  simpl. auto.
Qed.

Lemma VerifyProfileUpdateOTPView_post_valid (env : Profile.ConfirmEnv) (u : User)
    (data : VerifyData) (st : Profile.State) (a : VerifyAttrs)
    (d : Profile.ProfileData) :
  VerifyOTPSerializer_validate data = inr a ->
  Profile.pending_get (Profile.now_cache_get env) u (Profile.pending st) = Some d ->
  Profile.data_truthy d = true ->
  Profile.VerifyProfileUpdateOTPView_post env u data st =
    let r := verify_otp (Profile.check env) u (ver_code a) (Profile.codes st) in
    if fst r
    then match Profile.profiles st !! id u with
         | None => (Profile.mkResponse 500 Profile.ServerError,
                    Profile.mkState (Profile.profiles st) (snd r) (Profile.pending st))
         | Some profile =>
             let saved := Profile.touch (Profile.now_profile_save env)
                            (Profile.apply_data d profile) in
             (Profile.mkResponse 200
                (Profile.ProfileUpdated (email u) (Profile.first_name saved)
                   (Profile.last_name saved) (Profile.phone_number saved)),
              Profile.mkState (<[id u := saved]> (Profile.profiles st)) (snd r)
                (delete (id u) (Profile.pending st)))
         end
    else (Profile.mkResponse 400 Profile.InvalidOTP,
          Profile.mkState (Profile.profiles st) (snd r) (Profile.pending st)).
Proof.
  intros Hv Hp Ht. unfold Profile.VerifyProfileUpdateOTPView_post.
  rewrite Hv, Hp, Ht. simpl.
  destruct (verify_otp (Profile.check env) u (ver_code a) (Profile.codes st))
    as [ok tb].
  destruct ok; reflexivity.
Qed.

(** X15. The round trip of a profile change.  After a
    [UserProfileView.update] whose data differ from the profile and whose
    [create_otp] returned a code, a [VerifyProfileUpdateOTPView.post] with
    valid data carrying that code, made less than 300 seconds after the
    change was cached and less than ten minutes after the issuance, with
    store calls that do not raise, is answered 200; the profile then has
    the value of the data in every field the data hold and its old value in
    every other field, and the cached change is gone. *)
Theorem profile_update_round_trip
    (env : Profile.UpdateEnv) (cenv : Profile.ConfirmEnv) (u : User)
    (data : Profile.ProfileData) (st : Profile.State)
    (vdata : VerifyData) (a : VerifyAttrs) (otp : OTPCode) :
  let before := fst (Profile.get_or_create u (Profile.now_get_object env)
                       (Profile.profiles st)) in
  let st1 := snd (fst (Profile.UserProfileView_update env u data st)) in
  Profile.errors data = [] ->
  Profile.view_has_changes before data = true ->
  issued (create_otp (Profile.issue env) u (Profile.codes st)) = Some otp ->
  VerifyOTPSerializer_validate vdata = inr a -> ver_code a = code otp ->
  lookup_raises (Profile.check cenv) = false ->
  save_raises (Profile.check cenv) = false ->
  Profile.now_cache_get cenv < Profile.now_cache_set env + seconds 300 ->
  now_lookup (Profile.check cenv)
    < now_expiry (Profile.issue env) + timedelta_minutes 10 ->
  let out := Profile.VerifyProfileUpdateOTPView_post cenv u vdata st1 in
  Profile.status (fst out) = 200
  /\ (exists p', Profile.profiles (snd out) !! id u = Some p'
         /\ Profile.user p' = Profile.user before
         /\ forall f, Profile.getattr p' f =
                      match Profile.data_get data f with
                      | Some v => Some v
                      | None => Profile.getattr before f
                      end)
  /\ Profile.pending (snd out) !! id u = None
  /\ (forall t, Profile.pending_get t u (Profile.pending (snd out)) = None).
Proof.
  intros before st1 Herr Hch Hotp Hv Hcode Hlk Hsv Ht Hexp out.
  destruct (UserProfileView_update_shape env u data st Herr Hch) as (Hps & Hcodes & Hpend).
  fold before st1 in Hps, Hcodes, Hpend.
  assert (Hget : Profile.pending_get (Profile.now_cache_get cenv) u
                   (Profile.pending st1) = Some data).
  { unfold Profile.pending_get. rewrite Hpend, lookup_insert_eq. simpl.
    replace (Profile.now_cache_get cenv <? Profile.now_cache_set env + seconds 300)
      with true by (symmetry; now apply Z.ltb_lt).
    reflexivity. }
  assert (Hok : fst (verify_otp (Profile.check cenv) u (ver_code a)
                       (Profile.codes st1)) = true).
  { rewrite Hcodes, Hcode. apply verify_otp_true.
    split; [exact Hlk|]. split; [exact Hsv|].
    apply issued_Some in Hotp. destruct Hotp as (Hup & Hcr & Hsent & ->).
    exists (new_row (Profile.issue env) u (Profile.codes st)). split.
    - rewrite (create_otp_rows _ u _ Hup). simpl.
      rewrite Hcr, Hsent. apply in_or_app. right. left. reflexivity.
    - apply matches_true. split; [|reflexivity]. apply live_for_true. simpl. auto. }
  subst out.
  rewrite (VerifyProfileUpdateOTPView_post_valid cenv u vdata st1 a data Hv Hget
             (view_has_changes_truthy _ _ Hch)).
  simpl. rewrite Hok, Hps. simpl.
  split; [reflexivity|]. split; [|split].
  - eexists. split; [apply lookup_insert_eq|]. split.
    + unfold Profile.apply_data. simpl.
      destruct data as [[x|] [y|] [z|]]; reflexivity.
    + intros f.
      transitivity (Profile.getattr (Profile.apply_data data before) f);
        [destruct f; reflexivity | now rewrite apply_data_getattr].
  - apply lookup_delete_eq.
  - intros t. unfold Profile.pending_get. now rewrite lookup_delete_eq.
Qed.

Lemma profile_update_round_trip_witness :
  let out := Profile.VerifyProfileUpdateOTPView_post (confirm_at (seconds 5)) alice
               right_code profile_state_pending in
  Profile.status (fst out) = 200
  /\ Profile.names <$> (Profile.profiles (snd out) !! 1)
     = Some (Some "Alice", Some "B", Some "0722000222").
Proof.
  split.
  - apply (profile_update_round_trip (update_at 0 gw_up) (confirm_at (seconds 5))
             alice new_names profile_state right_code
             (mkVerifyAttrs "alice@example.com" "042917")
             (mkOTPCode 1 1 "042917" false 0 600000000));
      try reflexivity; vm_compute; reflexivity.
  - vm_compute. reflexivity.
Defined.

(** X16. A refused confirmation changes nothing.  Whenever
    [VerifyProfileUpdateOTPView.post] answers 400, the profiles, the table
    of codes and the cached changes are exactly as before.  It answers 400
    when the data do not pass the serializer; when they pass and there is
    no cached change, or it has expired: the answer is then
    "Profile update session expired" whatever the code is, so that even the
    right code is left unused in the table; and when the code does not
    verify. *)
Theorem profile_confirmation_failure_changes_nothing
    (env : Profile.ConfirmEnv) (u : User) (data : VerifyData)
    (st : Profile.State) :
  (Profile.status (fst (Profile.VerifyProfileUpdateOTPView_post env u data st)) = 400 ->
   snd (Profile.VerifyProfileUpdateOTPView_post env u data st) = st)
  /\ (forall e, VerifyOTPSerializer_validate data = inl e ->
        Profile.status (fst (Profile.VerifyProfileUpdateOTPView_post env u data st)) = 400)
  /\ (forall a, VerifyOTPSerializer_validate data = inr a ->
        Profile.pending_get (Profile.now_cache_get env) u (Profile.pending st) = None ->
        Profile.VerifyProfileUpdateOTPView_post env u data st
        = (Profile.mkResponse 400 Profile.SessionExpired, st))
  /\ (forall a, VerifyOTPSerializer_validate data = inr a ->
        fst (verify_otp (Profile.check env) u (ver_code a) (Profile.codes st)) = false ->
        Profile.status (fst (Profile.VerifyProfileUpdateOTPView_post env u data st)) = 400).
Proof.
  unfold Profile.VerifyProfileUpdateOTPView_post.
  split; [|split; [|split]].
  - destruct (VerifyOTPSerializer_validate data) as [[m|errs]|a]; try reflexivity.
    destruct (Profile.pending_get _ u _) as [d|]; [|reflexivity].
    destruct (negb (Profile.data_truthy d)); [reflexivity|].
    destruct (verify_otp (Profile.check env) u (ver_code a) (Profile.codes st))
      as [ok tb] eqn:Hver.
    destruct ok; simpl.
    + destruct (Profile.profiles st !! id u); simpl; discriminate.
    + intros _. assert (Htb := verify_otp_false_table (Profile.check env) u
                                 (ver_code a) (Profile.codes st)).
      rewrite Hver in Htb. simpl in Htb. rewrite (Htb eq_refl).
      now destruct st.
  - intros e He. rewrite He. now destruct e.
  - intros a Ha Hp. now rewrite Ha, Hp.
  - intros a Ha Hv. rewrite Ha.
    destruct (Profile.pending_get _ u _) as [d|]; [|reflexivity].
    destruct (negb (Profile.data_truthy d)); [reflexivity|].
    destruct (verify_otp (Profile.check env) u (ver_code a) (Profile.codes st))
      as [ok tb].
    simpl in Hv. subst ok. reflexivity.
Qed.

(** A wrong code five seconds after the change was cached; and the right
    code, still live, one second after the cached change has expired. *)
Lemma profile_confirmation_failure_changes_nothing_witness :
  Profile.VerifyProfileUpdateOTPView_post (confirm_at (seconds 5)) alice
    wrong_code profile_state_pending
  = (Profile.mkResponse 400 Profile.InvalidOTP, profile_state_pending)
  /\ Profile.VerifyProfileUpdateOTPView_post (confirm_at (seconds 301)) alice
       right_code profile_state_pending
     = (Profile.mkResponse 400 Profile.SessionExpired, profile_state_pending)
  /\ fst (verify_otp (check_at (seconds 301)) alice "042917"
            (Profile.codes profile_state_pending)) = true.
Proof.
  split; [|split].
  - apply injective_projections; [reflexivity|].
    apply (proj1 (profile_confirmation_failure_changes_nothing
                    (confirm_at (seconds 5)) alice wrong_code
                    profile_state_pending)).
    reflexivity.
  - apply (proj1 (proj2 (proj2 (profile_confirmation_failure_changes_nothing
                    (confirm_at (seconds 301)) alice right_code
                    profile_state_pending)))
             (mkVerifyAttrs "alice@example.com" "042917"));
      reflexivity.
  - reflexivity.
Defined.

(** X17. [VerifyProfileUpdateOTPView.post] requires an email in the data
    but never reads it: the code is verified against the authenticated
    user.  Two requests with the same code whose emails both pass the email
    field of the serializer, whatever these emails are and whatever else
    the data hold, have the same answer and the same effect. *)
Theorem profile_confirmation_ignores_email
    (email_ok : string -> bool)
    (env : Profile.ConfirmEnv) (u : User) (st : Profile.State)
    (d1 d2 : VerifyData) :
  EmailField_errors email_ok (data_email d1) = [] ->
  EmailField_errors email_ok (data_email d2) = [] ->
  data_code d1 = data_code d2 ->
  Profile.VerifyProfileUpdateOTPView_post env u d1 st
  = Profile.VerifyProfileUpdateOTPView_post env u d2 st.
Proof.
  intros H1 H2 Hc. unfold Profile.VerifyProfileUpdateOTPView_post,
    VerifyOTPSerializer_validate.
  rewrite <- Hc.
  unfold EmailField_errors in H1, H2.
  destruct (data_email d1) as [e1|]; [|discriminate].
  destruct (data_email d2) as [e2|]; [|discriminate].
  simpl. destruct (truthy e1); [|discriminate].
  destruct (truthy e2); [|discriminate]. simpl.
  destruct (check_code (data_code d1)); reflexivity
    || (destruct (data_code d1); reflexivity).
Qed.

Lemma profile_confirmation_ignores_email_witness :
  Profile.VerifyProfileUpdateOTPView_post (confirm_at (seconds 5)) alice
    (mkVerifyData (Some "mallory@example.com") (Some "+15550000000")
                  (Some "042917"))
    profile_state_pending
  = Profile.VerifyProfileUpdateOTPView_post (confirm_at (seconds 5)) alice
      right_code profile_state_pending.
Proof.
  apply (profile_confirmation_ignores_email sample_email_ok
           (confirm_at (seconds 5)) alice profile_state_pending);
    reflexivity.
Defined.

(** * Trips *)

(** X18. The trips [TripSerializer.validate] accepts have times that fit
    their status.  The data are returned as they are; and when a status is
    given, an actual arrival time is present exactly for COMPLETED, it is
    then not after the clock reading and not before the scheduled time; a
    SCHEDULED trip is not scheduled before the clock reading; an ONGOING
    trip is not scheduled after it and is not expected to arrive before
    it. *)
Theorem accepted_trip_times_fit_status
    (now : timestamp) (d d' : Trips.TripData) :
  Trips.validate now d = inr d' ->
  d' = d
  /\ forall s, Trips.data_status d = Some s ->
       (Trips.is_set (Trips.data_actual_arrival_time d) = true
          <-> s = Trips.COMPLETED)
       /\ (forall a, Trips.data_actual_arrival_time d = Some a ->
              a <= now
              /\ forall sch, Trips.data_scheduled_time d = Some sch -> sch <= a)
       /\ (s = Trips.SCHEDULED ->
             forall sch, Trips.data_scheduled_time d = Some sch -> now <= sch)
       /\ (s = Trips.ONGOING ->
             (forall sch, Trips.data_scheduled_time d = Some sch -> sch <= now)
             /\ (forall e, Trips.data_estimated_arrival_time d = Some e ->
                           now <= e)).
Proof.
  unfold Trips.validate, Trips.and_lt, Trips.and_gt, Trips.is_set.
  destruct d as [r st sch est act]; simpl.
  destruct st as [[| | |]|]; intros H;
    repeat match type of H with
    | context [match ?o with Some _ => _ | None => _ end] => destruct o eqn:?
    | context [if ?b then _ else _] => destruct b eqn:?
    end; try discriminate H; injection H as <-;
    (split; [reflexivity|]); intros s Hs;
    (first [discriminate Hs | injection Hs as <-]);
    repeat split; intros; subst; try discriminate; try congruence;
    repeat match goal with
    | H : Some _ = Some _ |- _ => injection H as <-
    | H : (_ <? _) = false |- _ => apply Z.ltb_ge in H
    end; try lia.
Qed.

Lemma accepted_trip_times_fit_status_witness :
  seconds 90 <= seconds 100
  /\ forall sch, Trips.data_scheduled_time completed_data = Some sch ->
                 sch <= seconds 90.
Proof.
  apply (proj2 (accepted_trip_times_fit_status (seconds 100) completed_data
                  completed_data eq_refl) Trips.COMPLETED eq_refl).
  reflexivity.
Defined.

Lemma field_errors_none (partial : bool) (st : Trips.Store) (d : Trips.TripData)
    (r : Z) (s : timestamp) :
  Trips.data_route d = Some r -> r ∈ Trips.routes st ->
  Trips.data_scheduled_time d = Some s ->
  Trips.field_errors partial st d = [].
Proof.
  intros Hr Hin Hs. unfold Trips.field_errors. rewrite Hr, Hs.
  now rewrite bool_decide_eq_true_2.
Qed.

(** X19. Leaving the status out skips every check on the times.  A POST to
    [TripListCreateView] with an existing route, a scheduled time and no
    status is answered 201 and stores a SCHEDULED trip, the default of the
    model, with the times as given, whatever they are; the same data with
    the status SCHEDULED spelled out are refused when the scheduled time is
    before the clock reading or an actual arrival time is given, and the
    store is then unchanged. *)
Theorem trip_without_status_is_not_checked
    (now now_save : timestamp) (u : User) (st : Trips.Store)
    (r : Z) (s : timestamp) (est act : option timestamp) :
  r ∈ Trips.routes st ->
  let d := Trips.mkTripData (Some r) None (Some s) est act in
  let d' := Trips.mkTripData (Some r) (Some Trips.SCHEDULED) (Some s) est act in
  let t := Trips.mkTrip (Trips.next_pk st) (id u) r Trips.SCHEDULED s est act
                        now_save now_save in
  Trips.TripListCreateView_post now now_save u d st
  = (Trips.mkResponse 201 (Trips.TripCreated t),
     Trips.mkStore (Trips.trips st ++ [t]) (Trips.next_pk st + 1) (Trips.routes st))
  /\ (s < now \/ Trips.is_set act = true ->
      Trips.TripListCreateView_post now now_save u d' st
      = (Trips.mkResponse 500 Trips.UnexpectedError, st)).
Proof.
  intros Hr d d' t. unfold Trips.TripListCreateView_post.
  rewrite (field_errors_none false st d r s eq_refl Hr eq_refl).
  rewrite (field_errors_none false st d' r s eq_refl Hr eq_refl).
  split; [reflexivity|].
  intros Hbad. unfold Trips.validate. simpl.
  destruct (s <? now) eqn:Hs; [reflexivity|].
  destruct (Trips.is_set act) eqn:Ha; [reflexivity|].
  apply Z.ltb_ge in Hs. destruct Hbad; [lia | discriminate].
Qed.

Lemma trip_without_status_is_not_checked_witness :
  Trips.code (fst (Trips.TripListCreateView_post (seconds 100) (seconds 100)
                     alice past_trip_data trip_store)) = 201.
Proof.
  apply (f_equal (fun x => Trips.code (fst x))
           (proj1 (trip_without_status_is_not_checked (seconds 100) (seconds 100)
                     alice trip_store 7 (seconds 50) None None
                     ltac:(vm_compute; reflexivity)))).
Defined.

(** ** The listings *)

Lemma In_insert_by (key : Trips.Trip -> Z) (t x : Trips.Trip) (l : list Trips.Trip) :
  In x (Trips.insert_by key t l) <-> x = t \/ In x l.
Proof.
  induction l as [|y l IH]; simpl; [intuition|].
  destruct (key t <=? key y); simpl; [intuition|].
  rewrite IH. intuition.
Qed.

Lemma In_order_by (key : Trips.Trip -> Z) (x : Trips.Trip) (l : list Trips.Trip) :
  In x (Trips.order_by key l) <-> In x l.
Proof.
  induction l as [|y l IH]; simpl; [tauto|].
  rewrite In_insert_by, IH. intuition.
Qed.

Lemma length_insert_by (key : Trips.Trip -> Z) (t : Trips.Trip) (l : list Trips.Trip) :
  length (Trips.insert_by key t l) = S (length l).
Proof.
  induction l as [|y l IH]; simpl; [reflexivity|].
  destruct (key t <=? key y); simpl; [reflexivity | now rewrite IH].
Qed.

Lemma length_order_by (key : Trips.Trip -> Z) (l : list Trips.Trip) :
  length (Trips.order_by key l) = length l.
Proof.
  induction l as [|y l IH]; simpl; [reflexivity|].
  now rewrite length_insert_by, IH.
Qed.

Lemma Sorted_insert_by (key : Trips.Trip -> Z) (t : Trips.Trip) (l : list Trips.Trip) :
  Sorted (fun a b => key a <= key b) l ->
  Sorted (fun a b => key a <= key b) (Trips.insert_by key t l).
Proof.
  induction l as [|y l IH]; intros Hs; simpl.
  - repeat constructor.
  - destruct (key t <=? key y) eqn:Hle.
    + apply Z.leb_le in Hle. constructor; [exact Hs | now constructor].
    + apply Z.leb_gt in Hle. inversion Hs as [|? ? Hs' Hhd]; subst.
      constructor; [now apply IH|].
      destruct l as [|z l]; simpl.
      * constructor. lia.
      * destruct (key t <=? key z); constructor; [lia|].
        inversion Hhd; subst. assumption.
Qed.

Lemma Sorted_order_by (key : Trips.Trip -> Z) (l : list Trips.Trip) :
  Sorted (fun a b => key a <= key b) (Trips.order_by key l).
Proof.
  induction l as [|y l IH]; simpl; [constructor | now apply Sorted_insert_by].
Qed.

Lemma status_eqb_eq (a b : Trips.TripStatus) :
  Trips.status_eqb a b = true <-> a = b.
Proof. destruct a, b; simpl; split; congruence. Qed.

(** X20. The two ordered listings hold the right trips in the right order.
    [UpcomingTripsView] lists exactly the SCHEDULED trips of the user that
    are not scheduled before the clock reading, earliest first;
    [PastTripsView] lists exactly the COMPLETED trips of the user, latest
    first; neither listing drops or repeats a row of its selection. *)
Theorem trip_listings_are_sorted_selections
    (now : timestamp) (u : User) (st : Trips.Store) :
  Sorted (fun a b => Trips.scheduled_time a <= Trips.scheduled_time b)
         (Trips.upcoming now u st)
  /\ (forall t, In t (Trips.upcoming now u st) <->
        In t (Trips.trips st) /\ Trips.user t = id u
        /\ Trips.status t = Trips.SCHEDULED /\ now <= Trips.scheduled_time t)
  /\ Sorted (fun a b => Trips.scheduled_time b <= Trips.scheduled_time a)
            (Trips.past u st)
  /\ (forall t, In t (Trips.past u st) <->
        In t (Trips.trips st) /\ Trips.user t = id u
        /\ Trips.status t = Trips.COMPLETED)
  /\ length (Trips.upcoming now u st)
     = length (List.filter (fun t => (Trips.user t =? id u)
                              && Trips.status_eqb (Trips.status t) Trips.SCHEDULED
                              && (now <=? Trips.scheduled_time t)) (Trips.trips st))
  /\ length (Trips.past u st)
     = length (List.filter (fun t => (Trips.user t =? id u)
                              && Trips.status_eqb (Trips.status t) Trips.COMPLETED)
                           (Trips.trips st)).
Proof.
  unfold Trips.upcoming, Trips.past.
  split; [apply Sorted_order_by|].
  split.
  { intros t. rewrite In_order_by, filter_In.
    rewrite !andb_true_iff, Z.eqb_eq, status_eqb_eq, Z.leb_le. tauto. }
  split.
  { pose proof (Sorted_order_by (fun t => - Trips.scheduled_time t)
                  (List.filter (fun t => (Trips.user t =? id u)
                                  && Trips.status_eqb (Trips.status t) Trips.COMPLETED)
                               (Trips.trips st))) as Hs.
    induction Hs as [|a l Hs IH Hhd]; constructor; [exact IH|].
    destruct Hhd; constructor. lia. }
  split.
  { intros t. rewrite In_order_by, filter_In.
    rewrite !andb_true_iff, Z.eqb_eq, status_eqb_eq. tauto. }
  split; apply length_order_by.
Qed.

(** ** Cancelling and updating a trip *)

Lemma get_object_Some (u : User) (k : Z) (st : Trips.Store) (t : Trips.Trip) :
  Trips.get_object u k st = Some t ->
  In t (Trips.trips st) /\ Trips.user t = id u /\ Trips.pk t = k.
Proof.
  intros H. apply head_filter_Some in H. destruct H as [Hin H].
  apply andb_true_iff in H. destruct H as [Hu Hk].
  apply Z.eqb_eq in Hu, Hk. auto.
Qed.

Lemma get_object_None (u : User) (k : Z) (st : Trips.Store) :
  Trips.get_object u k st = None <->
  forall x, In x (Trips.trips st) -> Trips.pk x = k -> Trips.user x <> id u.
Proof.
  unfold Trips.get_object. rewrite head_filter_None. split.
  - intros H x Hin Hk Hu. specialize (H x Hin).
    apply andb_false_iff in H. destruct H as [H|H]; apply Z.eqb_neq in H; auto.
  - intros H x Hin. apply andb_false_iff.
    destruct (Z.eq_dec (Trips.pk x) k) as [Hk|Hk].
    + left. apply Z.eqb_neq. auto.
    + right. now apply Z.eqb_neq.
Qed.

Lemma save_trips (t : Trips.Trip) (st : Trips.Store) (x : Trips.Trip) :
  In x (Trips.trips (Trips.save t st)) <->
  (x = t /\ exists y, In y (Trips.trips st) /\ Trips.pk y = Trips.pk t)
  \/ (In x (Trips.trips st) /\ Trips.pk x <> Trips.pk t).
Proof.
  unfold Trips.save. simpl. rewrite in_map_iff. split.
  - intros (y & Hy & Hin). destruct (Trips.pk y =? Trips.pk t) eqn:Hk.
    + apply Z.eqb_eq in Hk. left. split; [congruence | eauto].
    + apply Z.eqb_neq in Hk. right. subst y. auto.
  - intros [(-> & y & Hin & Hk)|(Hin & Hk)].
    + exists y. apply Z.eqb_eq in Hk. now rewrite Hk.
    + exists x. apply Z.eqb_neq in Hk. now rewrite Hk.
Qed.

(** X21. [TripDetailView.destroy] is a soft delete, and answers a missing
    trip with 500.  It never removes a row and never changes the counter or
    the routes.  When the user has a trip with that key, the answer is 200,
    every row with that key is afterwards that trip with the status
    CANCELLED, its route and times kept, and every row with another key is
    as before.  When no trip with that key belongs to the user (there is
    none, or it is another user's) the answer is 500, not 404, and the
    store is unchanged. *)
Theorem trip_destroy_is_a_soft_delete
    (now : timestamp) (u : User) (k : Z) (st : Trips.Store) :
  let out := Trips.TripDetailView_destroy now u k st in
  length (Trips.trips (snd out)) = length (Trips.trips st)
  /\ Trips.next_pk (snd out) = Trips.next_pk st
  /\ Trips.routes (snd out) = Trips.routes st
  /\ (forall x, Trips.pk x <> k ->
        (In x (Trips.trips (snd out)) <-> In x (Trips.trips st)))
  /\ ((forall x, In x (Trips.trips st) -> Trips.pk x = k -> Trips.user x <> id u)
      -> out = (Trips.mkResponse 500 Trips.UnexpectedError, st))
  /\ (forall t, Trips.get_object u k st = Some t ->
        fst out = Trips.mkResponse 200 Trips.TripCancelled
        /\ In (Trips.set_status Trips.CANCELLED now t) (Trips.trips (snd out))
        /\ forall x, In x (Trips.trips (snd out)) -> Trips.pk x = k ->
             x = Trips.mkTrip k (id u) (Trips.route t) Trips.CANCELLED
                   (Trips.scheduled_time t) (Trips.estimated_arrival_time t)
                   (Trips.actual_arrival_time t) (Trips.created_at t) now).
Proof.
  intros out. subst out. unfold Trips.TripDetailView_destroy.
  destruct (Trips.get_object u k st) as [t|] eqn:Hget.
  - destruct (get_object_Some u k st t Hget) as (Hin & Hu & Hk).
    cbn [fst snd]. split; [apply length_map|]. split; [reflexivity|].
    split; [reflexivity|]. split; [|split].
    + intros x Hx. rewrite save_trips. cbn [Trips.set_status Trips.pk].
      rewrite Hk. split.
      * intros [(-> & _)|(H & _)]; [simpl in Hx; congruence | exact H].
      * intros H. right. auto.
    + intros Hnone. apply get_object_None in Hnone. congruence.
    + intros t' Ht'. injection Ht' as <-. split; [reflexivity|]. split.
      * apply save_trips. left. split; [reflexivity|]. exists t. auto.
      * intros x Hx Hxk. apply save_trips in Hx.
        cbn [Trips.set_status Trips.pk] in Hx.
        destruct Hx as [(-> & _)|(_ & Hne)]; [|congruence].
        unfold Trips.set_status. now rewrite Hu, Hk.
  - cbn [fst snd]. split; [reflexivity|]. split; [reflexivity|].
    split; [reflexivity|]. split; [tauto|]. split; [reflexivity|].
    intros t' Ht'. discriminate.
Qed.

(** X22. A cancelled trip is out of every listing, and may be left in a
    state the serializer refuses.  After [TripDetailView.destroy] has
    cancelled the trip with some key, no trip with that key is in the
    upcoming or in the past trips of the user, at any time, nor is it the
    ongoing trip; and when the trip had an actual arrival time, as every
    COMPLETED trip the serializer accepted has, the stored trip is data
    that [TripSerializer.validate] rejects at every time. *)
Theorem cancelled_trip_leaves_listings
    (now : timestamp) (u : User) (k : Z) (st : Trips.Store) (t : Trips.Trip) :
  Trips.get_object u k st = Some t ->
  let st' := snd (Trips.TripDetailView_destroy now u k st) in
  (forall now' x, In x (Trips.upcoming now' u st') -> Trips.pk x <> k)
  /\ (forall x, In x (Trips.past u st') -> Trips.pk x <> k)
  /\ (forall x, Trips.OngoingTripView_get u st'
                = Trips.mkResponse 200 (Trips.TripDetail x) -> Trips.pk x <> k)
  /\ (forall a now', Trips.actual_arrival_time t = Some a ->
        Trips.validate now' (Trips.data_of (Trips.set_status Trips.CANCELLED now t))
        = inl "Actual arrival time should not be set for cancelled trips"%string).
Proof.
  intros Hget st'.
  assert (Hcancelled : forall x, In x (Trips.trips st') -> Trips.pk x = k ->
                                 Trips.status x = Trips.CANCELLED).
  { intros x Hx Hk. subst st'. unfold Trips.TripDetailView_destroy in Hx.
    rewrite Hget in Hx. simpl in Hx.
    destruct (get_object_Some u k st t Hget) as (_ & _ & Htk).
    apply in_map_iff in Hx. destruct Hx as (y & Hy & _).
    simpl in Hy. destruct (Trips.pk y =? Trips.pk t) eqn:E.
    - subst x. reflexivity.
    - apply Z.eqb_neq in E. subst y. congruence. }
  split; [|split; [|split]].
  - intros now' x Hx Hk. unfold Trips.upcoming in Hx.
    apply In_order_by, filter_In in Hx. destruct Hx as [Hin Hx].
    rewrite !andb_true_iff, status_eqb_eq in Hx.
    rewrite (Hcancelled x Hin Hk) in Hx. intuition discriminate.
  - intros x Hx Hk. unfold Trips.past in Hx.
    apply In_order_by, filter_In in Hx. destruct Hx as [Hin Hx].
    rewrite !andb_true_iff, status_eqb_eq in Hx.
    rewrite (Hcancelled x Hin Hk) in Hx. intuition discriminate.
  - intros x Hx Hk. unfold Trips.OngoingTripView_get in Hx.
    destruct (head _) as [y|] eqn:Hhead; [|discriminate].
    injection Hx as ->. apply head_filter_Some in Hhead.
    destruct Hhead as [Hin Hy]. rewrite !andb_true_iff, status_eqb_eq in Hy.
    rewrite (Hcancelled x Hin Hk) in Hy. intuition discriminate.
  - intros a now' Ha. unfold Trips.validate, Trips.data_of. simpl.
    now rewrite Ha.
Qed.

Lemma cancelled_trip_leaves_listings_witness :
  Trips.past alice trip_store_completed = [completed_trip]
  /\ Trips.past alice
       (snd (Trips.TripDetailView_destroy (seconds 200) alice 1 trip_store_completed))
     = []
  /\ Trips.validate (seconds 300)
       (Trips.data_of (Trips.set_status Trips.CANCELLED (seconds 200) completed_trip))
     = inl "Actual arrival time should not be set for cancelled trips"%string.
Proof.
  split; [reflexivity|]. split; [reflexivity|].
  apply (cancelled_trip_leaves_listings (seconds 200) alice 1 trip_store_completed
           completed_trip eq_refl) with (a := seconds 90).
  reflexivity.
Defined.

(** X23. A partial update is checked against the submitted data only, never
    against the stored trip.  A PATCH of [TripDetailView] that carries
    nothing but a status other than COMPLETED is answered 200 and stores
    that status whatever the times of the trip are, so a trip scheduled in
    the future can become ONGOING and a trip with an actual arrival time
    can become SCHEDULED; a PATCH that carries nothing but the status
    COMPLETED is answered 400 and changes nothing, even when the stored
    trip has an actual arrival time. *)
Theorem partial_update_checks_only_submitted_data
    (now now_save : timestamp) (u : User) (k : Z) (st : Trips.Store)
    (t : Trips.Trip) (s : Trips.TripStatus) :
  Trips.get_object u k st = Some t ->
  let t' := Trips.mkTrip (Trips.pk t) (Trips.user t) (Trips.route t) s
              (Trips.scheduled_time t) (Trips.estimated_arrival_time t)
              (Trips.actual_arrival_time t) (Trips.created_at t) now_save in
  Trips.TripDetailView_update true now now_save u k (status_only s) st
  = if Trips.status_eqb s Trips.COMPLETED
    then (Trips.mkResponse 400 Trips.ValidationFailed, st)
    else (Trips.mkResponse 200 (Trips.TripDetail t'), Trips.save t' st).
Proof.
  intros Hget t'. unfold Trips.TripDetailView_update. rewrite Hget.
  destruct s; reflexivity.
Qed.

Lemma partial_update_checks_only_submitted_data_witness :
  fst (Trips.TripDetailView_update true (seconds 300) (seconds 300) alice 1
         (status_only Trips.SCHEDULED) trip_store_completed)
  = Trips.mkResponse 200
      (Trips.TripDetail
         (Trips.mkTrip 1 1 7 Trips.SCHEDULED (seconds 50) None (Some (seconds 90))
                       (seconds 100) (seconds 300))).
Proof.
  apply (f_equal fst
           (partial_update_checks_only_submitted_data (seconds 300) (seconds 300)
              alice 1 trip_store_completed completed_trip Trips.SCHEDULED eq_refl)).
Defined.
